(** * ba_test: the bundle-adjustment test driver of the Vision Workbench

    A shallow embedding of [ba_test.cc]: option handling, the
    [BundleAdjustmentModel] parameter store, the iteration loop
    [run_bundle_adjustment], the external outlier filter [remove_outliers]
    and the two-pass driver [adjust_bundles].

    Conventions.
    - A C++ [double] is a binary64 [float]; [int] and [unsigned] values that
      only count or index are [Z] and [nat].
    - A function that can [vw_throw] or [exit] returns a [result].
    - The file system is a finite map from path to what the path names, a
      regular file with its content or a directory; code that writes files
      takes the map and returns the new one. A stream the program opens and
      does not check loses what is written to it when it did not open.
    - Code of other libraries (the solvers, the reporter, the camera maths,
      stream formatting, [system]) is reached through the classes [External]
      and [AdjusterT]; nothing is assumed about it except where a law is
      stated. *)

From Stdlib Require Import ZArith Floats Ascii String List Bool Lia.
From stdpp Require Import gmap strings list pretty.

Set Warnings "-inexact-float".

Local Open Scope Z_scope.

(** ** Doubles *)

Module Double.

(** The truth value of a [double] used as a condition: [while (x)] runs
    while [x != 0.0]; a NaN is true, a negative zero is false. *)
Definition truthy (x : float) : bool := negb (PrimFloat.eqb x 0%float).

(** [x < y] on doubles (false when either side is a NaN). *)
Definition lt (x y : float) : bool := PrimFloat.ltb x y.

Definition zero : float := 0%float.
Definition one : float := 1%float.

End Double.

#[global] Instance float_inhabited : Inhabited float := populate Double.zero.

(** ** Exceptions and [exit] *)

Inductive Exception : Type :=
  | IOErr (what : string)
  | ArgumentErr (what : string)
  | LogicErr (what : string).

(** The outcome of a call: a value, an exception on its way up to the
    caller, or the end of the process through [exit(code)]. *)
Inductive result (T : Type) : Type :=
  | Ok (x : T)
  | Throw (e : Exception)
  | Exit (code : Z).

Arguments Ok {T} x.
Arguments Throw {T} e.
Arguments Exit {T} code.

Definition bind {T U : Type} (r : result T) (k : T -> result U) : result U :=
  match r with
  | Ok x => k x
  | Throw e => Throw e
  | Exit c => Exit c
  end.

Notation "x <- r ;; k" := (bind r (fun x => k))
  (at level 100, r at next level, right associativity).

(** ** Paths and files *)

Abbreviation path := string (only parsing).

(** What a path names: a regular file with its content, or a directory. *)
Inductive Node : Type :=
  | File (text : string)
  | Directory.

(** The files of the machine. A directory that is there has an entry; a path
    without a parent path is in the current directory, which is always
    there. Permissions are not modelled. *)
Abbreviation Files := (gmap string Node) (only parsing).

(** [fs::exists(p) && !fs::is_directory(p)] *)
Definition is_regular_file (files : Files) (p : path) : bool :=
  match files !! p with
  | Some (File _) => true
  | _ => false
  end.

(** [fs::is_directory(p)] *)
Definition is_directory (files : Files) (p : path) : bool :=
  match files !! p with
  | Some Directory => true
  | _ => false
  end.

(** What a regular file holds; nothing when it is not there. *)
Definition content (files : Files) (p : path) : string :=
  match files !! p with
  | Some (File text) => text
  | _ => EmptyString
  end.

(** [dir / file] of [boost::filesystem]. *)
Definition path_join (dir file : path) : path :=
  if String.eqb dir "" then file else (dir ++ "/" ++ file)%string.

Fixpoint has_char (c : ascii) (s : string) : bool :=
  match s with
  | EmptyString => false
  | String d rest => Ascii.eqb c d || has_char c rest
  end.

(** [p.parent_path()]: [p] up to its last slash, or nothing when [p] has no
    slash. *)
Fixpoint parent_path (p : string) : string :=
  match p with
  | EmptyString => EmptyString
  | String c rest =>
      if has_char "/" rest then String c (parent_path rest) else EmptyString
  end.

(** Whether an [ofstream] on [p] opens: [p] is a name, the directory it is
    in is there, and [p] is not a directory itself. The program never checks
    a stream it has opened: what it writes to a stream that did not open is
    lost, and no file is created. *)
Definition opens (files : Files) (p : path) : bool :=
  negb (String.eqb p EmptyString)
  && (String.eqb (parent_path p) EmptyString
      || is_directory files (parent_path p))
  && negb (is_directory files p).

(** Opening [p] with [std::ios::app] and writing [text]: the file is created
    when it is not there, and the text goes after what it holds. *)
Definition append_file (p : path) (text : string) (files : Files) : Files :=
  if opens files p then <[p := File (content files p ++ text)]> files
  else files.

(** Opening [p] for writing and writing [text]: the file is created or
    emptied, and holds [text]. *)
Definition write_file (p : path) (text : string) (files : Files) : Files :=
  if opens files p then <[p := File text]> files else files.

(** Opening [p] with [std::ios_base::out] and writing the empty string: the
    file is created or emptied. *)
Definition truncate_file (p : path) (files : Files) : Files :=
  if opens files p then <[p := File EmptyString]> files else files.

Definition ConfigFileDefault : path := "ba_test.cfg".
Definition CameraParamsReportFile : path := "iterCameraParam.txt".
Definition PointsReportFile : path := "iterPointsParam.txt".
Definition CnetEditor : string := "cnet_editor".
Definition MeanErrorsFile : path := "image_mean.err".
Definition ProcessedCnetFile : path := "processed.cnet".

(** ** Program options *)

Inductive BundleAdjustmentT : Type :=
  | REF
  | SPARSE
  | ROBUST_REF
  | ROBUST_SPARSE
  | SPARSE_HUBER
  | SPARSE_CAUCHY.

#[global] Instance BundleAdjustmentT_eq_dec : EqDecision BundleAdjustmentT.
Proof. solve_decision. Defined.

Record ProgramOptions : Type := mkProgramOptions {
  bundle_adjustment_type : BundleAdjustmentT;
  lambda : float;
  control : Z;
  huber_param : float;
  cauchy_param : float;
  camera_position_sigma : float;
  camera_pose_sigma : float;
  gcp_sigma : float;
  outlier_sd_cutoff : float;
  use_user_lambda : bool;
  use_ba_type_dirs : bool;
  save_iteration_data : bool;
  remove_outliers : bool;
  min_matches : Z;
  report_level : Z;
  max_iterations : Z;
  camera_files : list string;
  cnet_file : string;
  data_dir : string;
  results_dir : string;
  config_file : string
}.

(** [::tolower] in the "C" locale: the upper-case Latin letters move to lower
    case, every other character stays. *)
Definition tolower (c : ascii) : ascii :=
  let n := nat_of_ascii c in
  if (65 <=? n)%nat && (n <=? 90)%nat then ascii_of_nat (n + 32) else c.

(** [std::transform(s.begin(), s.end(), s.begin(), f)] *)
Fixpoint transform (f : ascii -> ascii) (s : string) : string :=
  match s with
  | EmptyString => EmptyString
  | String c rest => String (f c) (transform f rest)
  end.

(** [string_to_ba_type(s)]: the type, and [s] as the call leaves it (the
    argument is a reference and is lower-cased in place). *)
Definition string_to_ba_type (s : string) : BundleAdjustmentT * string :=
  let t := REF in
  let s := transform tolower s in
  let t :=
    if String.eqb s "sparse" then SPARSE
    else if String.eqb s "sparse_huber" then SPARSE_HUBER
    else if String.eqb s "sparse_cauchy" then SPARSE_CAUCHY
    else if String.eqb s "robust_ref" then ROBUST_REF
    else if String.eqb s "robust_sparse" then ROBUST_SPARSE
    else t in
  (t, s).

Definition ba_type_to_string (t : BundleAdjustmentT) : string :=
  match t with
  | REF => "ref"
  | SPARSE => "sparse"
  | SPARSE_HUBER => "sparse_huber"
  | SPARSE_CAUCHY => "sparse_cauchy"
  | ROBUST_REF => "robust_ref"
  | ROBUST_SPARSE => "robust_sparse"
  end.

(** What one source of options (the command line, or the configuration
    file) supplies, as [boost::program_options] parses it: [None] where the
    source does not mention the option. A switch ([po::bool_switch]) that is
    mentioned carries its value, which is [true] on a command line. *)
Record Supplied : Type := mkSupplied {
  s_help : bool;
  s_verbose : bool;
  s_debug : bool;
  s_print_config : bool;
  s_report_level : option Z;
  s_config_file : option string;
  s_bundle_adjustment_type : option string;
  s_cnet : option string;
  s_lambda : option float;
  s_control : option Z;
  s_huber_param : option float;
  s_cauchy_param : option float;
  s_camera_position_sigma : option float;
  s_camera_pose_sigma : option float;
  s_gcp_sigma : option float;
  s_save_iteration_data : option bool;
  s_max_iterations : option Z;
  s_min_matches : option Z;
  s_data_dir : option string;
  s_results_dir : option string;
  s_use_ba_type_dirs : option bool;
  s_remove_outliers : option bool;
  s_outlier_sd_cutoff : option float;
  s_input_files : option (list string)
}.

(** A source that supplies nothing. *)
Definition no_options : Supplied :=
  mkSupplied false false false false None None None None None None None None
             None None None None None None None None None None None None.

(** ** Vectors, matrices and the control network *)

(** [Vector3] and [Vector<double,6>]. *)
Record Vector3 : Type := V3 { v3_0 : float; v3_1 : float; v3_2 : float }.

Record camera_vector_t : Type := V6 {
  v6_0 : float; v6_1 : float; v6_2 : float;
  v6_3 : float; v6_4 : float; v6_5 : float
}.

Abbreviation point_vector_t := Vector3 (only parsing).

(** A default-constructed vector holds zeros (the constructor of the model
    relies on it: "a and a_target start off with every element all zeros"). *)
Definition Vector3_default : Vector3 := V3 Double.zero Double.zero Double.zero.

Definition camera_vector_default : camera_vector_t :=
  V6 Double.zero Double.zero Double.zero Double.zero Double.zero Double.zero.

(** [subvector(a,0,3)] and [subvector(a,3,3)] of a camera vector. *)
Definition subvector_0_3 (v : camera_vector_t) : Vector3 :=
  V3 (v6_0 v) (v6_1 v) (v6_2 v).

Definition subvector_3_3 (v : camera_vector_t) : Vector3 :=
  V3 (v6_3 v) (v6_4 v) (v6_5 v).

#[global] Instance Vector3_inhabited : Inhabited Vector3 :=
  populate Vector3_default.
#[global] Instance camera_vector_inhabited : Inhabited camera_vector_t :=
  populate camera_vector_default.

(** A fixed-size matrix, by rows. Modelled from the spec: the precision
    matrices, which the code builds by setting the diagonal of a
    default-constructed [Matrix<double,r,c>] (of [vw/Math], outside this
    program), are diagonal: such a matrix holds zeros. *)
Abbreviation Matrix := (list (list float)) (only parsing).

Definition Matrix_default (rows cols : nat) : Matrix :=
  replicate rows (replicate cols Double.zero).

(** [m(i,j) = x] *)
Definition mat_set (i j : nat) (x : float) (m : Matrix) : Matrix :=
  alter (fun row => <[j := x]> row) i m.

(** [m(i,j)] *)
Definition mat_get (m : Matrix) (i j : nat) : float :=
  (m !!! i) !!! j.

(** Modelled from the spec: the control network of [vw/BundleAdjustment],
    whose declarations are not part of this program: ordered points, each
    with a position, a classification and its observations; an observation
    names the camera that made it by its index in the camera list and holds
    the measured pixel. *)
Inductive ControlPointType : Type :=
  | GroundControlPoint
  | TiePoint.

Record ControlMeasure : Type := mkMeasure {
  image_id : nat;
  measure_col : float;
  measure_row : float
}.

Record ControlPoint : Type := mkPoint {
  cp_type : ControlPointType;
  cp_position : Vector3;
  measures : list ControlMeasure
}.

Abbreviation ControlNetwork := (list ControlPoint) (only parsing).

#[global] Instance ControlPoint_inhabited : Inhabited ControlPoint :=
  populate (mkPoint TiePoint Vector3_default []).

(** A camera model, as [load_camera_models] reads it from a file. The
    geometry of the camera plays no part in what follows. *)
Inductive CameraModel : Type :=
  | PinholeModel (file : string).

Abbreviation CameraVector := (list CameraModel) (only parsing).

(** [for (unsigned i = 0; i < n; ++i) body(i)] on a state. *)
Definition for_range {S : Type} (n : nat) (body : nat -> S -> S) (init : S) : S :=
  foldl (fun acc i => body i acc) init (seq 0 n).

(** ** The bundle adjustment model *)

Record BundleAdjustmentModel : Type := mkModel {
  m_cameras : CameraVector;
  m_network : ControlNetwork;
  a : list camera_vector_t;
  b : list point_vector_t;
  a_target : list camera_vector_t;
  b_target : list point_vector_t;
  m_num_pixel_observations : Z;
  m_camera_position_sigma : float;
  m_camera_pose_sigma : float;
  m_gcp_sigma : float
}.

Definition invalid_control_point : string :=
  "Invalid control point: has image_id() larger than camera vector".

(** The sanity check of the constructor, one control point: each measure
    passes [VW_ASSERT(j->image_id() < camera_count, ArgumentErr() << ...)]. *)
Fixpoint check_measures (camera_count : Z) (ms : list ControlMeasure) : result unit :=
  match ms with
  | [] => Ok tt
  | j :: rest =>
      if Z.of_nat (image_id j) <? camera_count
      then check_measures camera_count rest
      else Throw (ArgumentErr invalid_control_point)
  end.

(** The sanity check over the whole network, in order. *)
Fixpoint check_network (camera_count : Z) (network : ControlNetwork) : result unit :=
  match network with
  | [] => Ok tt
  | i :: rest =>
      _ <- check_measures camera_count (measures i) ;;
      check_network camera_count rest
  end.

(** The constructor. *)
Definition BundleAdjustmentModel_new (cameras : CameraVector)
    (network : ControlNetwork)
    (camera_position_sigma camera_pose_sigma gcp_sigma : float)
  : result BundleAdjustmentModel :=
  let a0 := replicate (length cameras) camera_vector_default in
  let b0 := replicate (length network) Vector3_default in
  let camera_count := Z.of_nat (length cameras) in
  _ <- check_network camera_count network ;;
  let num_pixel_observations :=
    for_range (length network)
      (fun i n => n + Z.of_nat (length (measures (network !!! i)))) 0 in
  let '(a_target1, a1) :=
    for_range (length cameras)
      (fun j '(a_target, a) =>
         (<[j := camera_vector_default]> a_target,
          <[j := camera_vector_default]> a))
      (a0, a0) in
  let '(b_target1, b1) :=
    for_range (length network)
      (fun i '(b_target, b) =>
         (<[i := cp_position (network !!! i)]> b_target,
          <[i := cp_position (network !!! i)]> b))
      (b0, b0) in
  Ok (mkModel cameras network a1 b1 a_target1 b_target1
        num_pixel_observations
        camera_position_sigma camera_pose_sigma gcp_sigma).

(** Accessors. An index out of range is undefined in the program; here a
    read gives the default vector and a write changes nothing. *)
Definition A_parameters (m : BundleAdjustmentModel) (j : nat) : camera_vector_t :=
  a m !!! j.
Definition A_target (m : BundleAdjustmentModel) (j : nat) : camera_vector_t :=
  a_target m !!! j.
Definition B_parameters (m : BundleAdjustmentModel) (i : nat) : point_vector_t :=
  b m !!! i.
Definition B_target (m : BundleAdjustmentModel) (i : nat) : point_vector_t :=
  b_target m !!! i.

Definition set_A_parameters (j : nat) (a_j : camera_vector_t)
    (m : BundleAdjustmentModel) : BundleAdjustmentModel :=
  mkModel (m_cameras m) (m_network m) (<[j := a_j]> (a m)) (b m)
    (a_target m) (b_target m) (m_num_pixel_observations m)
    (m_camera_position_sigma m) (m_camera_pose_sigma m) (m_gcp_sigma m).

Definition set_B_parameters (i : nat) (b_i : point_vector_t)
    (m : BundleAdjustmentModel) : BundleAdjustmentModel :=
  mkModel (m_cameras m) (m_network m) (a m) (<[i := b_i]> (b m))
    (a_target m) (b_target m) (m_num_pixel_observations m)
    (m_camera_position_sigma m) (m_camera_pose_sigma m) (m_gcp_sigma m).

Definition cameras (m : BundleAdjustmentModel) : CameraVector := m_cameras m.
Definition num_cameras (m : BundleAdjustmentModel) : nat := length (a m).
Definition num_points (m : BundleAdjustmentModel) : nat := length (b m).
Definition num_pixel_observations (m : BundleAdjustmentModel) : Z :=
  m_num_pixel_observations m.
Definition control_network (m : BundleAdjustmentModel) : ControlNetwork :=
  m_network m.

(** ** What the program calls and does not define *)

(** A quaternion, scalar first. *)
Record Quaternion : Type := Quat { q_w : float; q_x : float; q_y : float; q_z : float }.

(** The functions of the C and C++ libraries, of Boost and of the rest of the
    Vision Workbench that the program calls. *)
Class External : Type := {
  (** [ostr << x] for a [double], at the stream's default precision *)
  show_double : float -> string;
  (** [pow] of [<cmath>] *)
  pow : float -> float -> float;
  (** [vw::math::euler_to_quaternion(phi, omega, kappa, order)] *)
  euler_to_quaternion : float -> float -> float -> string -> Quaternion;
  (** [ControlNetwork::read_binary] and [read_isis] on the file at a path *)
  read_binary : gmap string Node -> string -> result ControlNetwork;
  read_isis : gmap string Node -> string -> result ControlNetwork;
  (** [PinholeModel::read_file] on the file at a path *)
  read_pinhole : gmap string Node -> string -> result CameraModel;
  (** [fs::create_directory(dir)]: the files after it, or the exception it
      throws (when the directory [dir] would be in is not there, for one) *)
  create_directory : string -> gmap string Node -> result (gmap string Node);
  (** [po::parse_config_file] on the content of the configuration file *)
  parse_config_file : string -> Supplied;
  (** [system(command)]: the value it returns, and the files the command
      leaves behind *)
  system : string -> gmap string Node -> Z * gmap string Node;
  (** the constructor of [BundleAdjustReport] and its [end_tie_in]: the
      files they write, from the title, the report level and the model *)
  report_open : string -> Z -> BundleAdjustmentModel ->
                gmap string Node -> gmap string Node;
  report_end_tie_in : string -> Z -> BundleAdjustmentModel ->
                      gmap string Node -> gmap string Node
}.

(** The cost functions and the solver templates that [main] instantiates. *)
Inductive CostT : Type :=
  | L2Error
  | HuberError (param : float)
  | CauchyError (param : float).

Inductive Strategy : Type :=
  | AdjustRef
  | AdjustSparse
  | AdjustRobustRef
  | AdjustRobustSparse.

(** Modelled from the spec: what a solver step does to the model it was
    built on (the solvers are in [vw/BundleAdjustment], outside this
    program). The solver holds a reference to the model and sets camera and
    point parameters through [set_A_parameters] and [set_B_parameters]; it
    never points the model to another network. *)
Inductive ModelWrite : Type :=
  | SetA (j : nat) (a_j : camera_vector_t)
  | SetB (i : nat) (b_i : point_vector_t).

Definition apply_write (m : BundleAdjustmentModel) (w : ModelWrite)
  : BundleAdjustmentModel :=
  match w with
  | SetA j a_j => set_A_parameters j a_j m
  | SetB i b_i => set_B_parameters i b_i m
  end.

Definition apply_writes (ws : list ModelWrite) (m : BundleAdjustmentModel)
  : BundleAdjustmentModel :=
  foldl apply_write m ws.

(** What one call of [update(abs_tol, rel_tol)] gives back: the solver after
    the call, its writes into the model, the delta it returns and the two
    tolerances, which are passed by reference. *)
Record UpdateResult (A : Type) : Type := mkUpdate {
  u_adjuster : A;
  u_writes : list ModelWrite;
  u_delta : float;
  u_abs_tol : float;
  u_rel_tol : float
}.

Arguments mkUpdate {A}.
Arguments u_adjuster {A}.
Arguments u_writes {A}.
Arguments u_delta {A}.
Arguments u_abs_tol {A}.
Arguments u_rel_tol {A}.

(** The interface every solver template offers, over the private state [A]
    of the solver. The model the solver refers to is passed next to it. *)
Class AdjusterT (A : Type) : Type := {
  adjuster_new : Strategy -> BundleAdjustmentModel -> CostT -> A;
  iterations : A -> Z;
  update : A -> BundleAdjustmentModel -> float -> float -> UpdateResult A;
  set_lambda : float -> A -> A;
  set_control : Z -> A -> A
}.

(** Modelled from the spec: the iteration count of the solver contract
    (the solvers are defined in [vw/BundleAdjustment], outside this
    program): a new solver has made no iteration, one [update] is one
    iteration, and the setters do not touch the count. *)
Class AdjusterLaws (A : Type) `{AdjusterT A} : Prop := {
  iterations_new : forall s m c, iterations (adjuster_new s m c) = 0;
  iterations_update : forall x m abs_tol rel_tol,
    iterations (u_adjuster (update x m abs_tol rel_tol)) = iterations x + 1;
  iterations_set_lambda : forall l x, iterations (set_lambda l x) = iterations x;
  iterations_set_control : forall c x, iterations (set_control c x) = iterations x
}.

(** ** Precision matrices *)

Section Covariance.
Context `{External}.

Definition A_inverse_covariance (m : BundleAdjustmentModel) (j : nat) : Matrix :=
  let result := Matrix_default 6 6 in
  let result := mat_set 0 0 (Double.one / pow (m_camera_position_sigma m) 2)%float result in
  let result := mat_set 1 1 (Double.one / pow (m_camera_position_sigma m) 2)%float result in
  let result := mat_set 2 2 (Double.one / pow (m_camera_position_sigma m) 2)%float result in
  let result := mat_set 3 3 (Double.one / pow (m_camera_pose_sigma m) 2)%float result in
  let result := mat_set 4 4 (Double.one / pow (m_camera_pose_sigma m) 2)%float result in
  let result := mat_set 5 5 (Double.one / pow (m_camera_pose_sigma m) 2)%float result in
  result.

Definition B_inverse_covariance (m : BundleAdjustmentModel) (i : nat) : Matrix :=
  let result := Matrix_default 3 3 in
  let result := mat_set 0 0 (Double.one / pow (m_gcp_sigma m) 2)%float result in
  let result := mat_set 1 1 (Double.one / pow (m_gcp_sigma m) 2)%float result in
  let result := mat_set 2 2 (Double.one / pow (m_gcp_sigma m) 2)%float result in
  result.

End Covariance.

(** ** Snapshot files *)

Definition tab : string := String (ascii_of_nat 9) EmptyString.
Definition newline : string := String (ascii_of_nat 10) EmptyString.
Definition dquote : string := String (ascii_of_nat 34) EmptyString.

(** One line of a snapshot file: an index and three numbers. *)
Record Row : Type := mkRow { row_index : nat; row_data : Vector3 }.

(** The rows [write_adjusted_cameras_append] writes for camera [j]: the
    fields C, A, H, V, O and R of a [CAHVORModel] whose C is the position
    correction, whose A, H and V are the unit vectors and whose O and R are
    left as constructed. *)
Definition camera_rows `{External} (j : nat) (a_j : camera_vector_t) : list Row :=
  let position_correction := subvector_0_3 a_j in
  let p := subvector_3_3 a_j in
  let pose_correction := euler_to_quaternion (v3_0 p) (v3_1 p) (v3_2 p) "xyz" in
  let cam_C := position_correction in
  let cam_A := V3 1%float 0%float 0%float in
  let cam_H := V3 0%float 1%float 0%float in
  let cam_V := V3 0%float 0%float 1%float in
  let cam_O := Vector3_default in
  let cam_R := Vector3_default in
  [mkRow j cam_C; mkRow j cam_A; mkRow j cam_H; mkRow j cam_V;
   mkRow j cam_O; mkRow j cam_R].

(** The row [write_points_append] writes for point [i]. *)
Definition point_row (i : nat) (b_i : point_vector_t) : Row := mkRow i b_i.

Section Snapshots.
Context `{External}.

(** [ostr << j << "\t" << x << "\t" << y << "\t" << z << "\n"] *)
Definition render_row (r : Row) : string :=
  (pretty (row_index r) ++ tab ++ show_double (v3_0 (row_data r)) ++ tab
   ++ show_double (v3_1 (row_data r)) ++ tab
   ++ show_double (v3_2 (row_data r)) ++ newline)%string.

Definition render_rows (rs : list Row) : string :=
  foldr (fun r text => (render_row r ++ text)%string) EmptyString rs.

(** All the rows of one camera snapshot, and of one point snapshot, in the
    order the loops write them. *)
Definition camera_snapshot (m : BundleAdjustmentModel) : list Row :=
  for_range (length (a m)) (fun j rows => rows ++ camera_rows j (a m !!! j)) [].

Definition point_snapshot (m : BundleAdjustmentModel) : list Row :=
  for_range (length (b m)) (fun i rows => rows ++ [point_row i (b m !!! i)]) [].

Definition write_adjusted_cameras_append (filename dir : path)
    (m : BundleAdjustmentModel) (files : Files) : Files :=
  append_file (path_join dir filename) (render_rows (camera_snapshot m)) files.

Definition write_points_append (filename dir : path)
    (m : BundleAdjustmentModel) (files : Files) : Files :=
  append_file (path_join dir filename) (render_rows (point_snapshot m)) files.

Definition clear_report_files (cam_file point_file dir : path) (files : Files) : Files :=
  truncate_file (path_join dir point_file)
    (truncate_file (path_join dir cam_file) files).

End Snapshots.

(** ** The world: files, and the calls made so far *)

(** A call of a function of [External] or [AdjusterT] that the claims count. *)
Inductive Call : Type :=
  | CallUpdate
  | CallEndTieIn (title : string)
  | CallSystem (command : string).

#[global] Instance Call_eq_dec : EqDecision Call.
Proof. solve_decision. Defined.

Record World : Type := mkWorld {
  files : gmap string Node;
  calls : list Call
}.

Definition with_files (f : Files -> Files) (w : World) : World :=
  mkWorld (f (files w)) (calls w).

Definition record_call (c : Call) (w : World) : World :=
  mkWorld (files w) (calls w ++ [c]).

Definition is_update (c : Call) : bool :=
  match c with CallUpdate => true | _ => false end.

Definition is_end_tie_in (c : Call) : bool :=
  match c with CallEndTieIn _ => true | _ => false end.

(** How many of the calls satisfy [p]. *)
Definition count_calls (p : Call -> bool) (cs : list Call) : nat :=
  length (filter (fun c => p c = true) cs).

Arguments count_calls : simpl never.

(** ** [parse_options] *)

(** [po::store] keeps the first value an option gets: the command line is
    stored before the configuration file. *)
Definition first_of {T : Type} (x y : option T) : option T :=
  match x with
  | Some _ => x
  | None => y
  end.

(** The variables map after both sources are stored. The generic options
    (help, verbose, debug, report-level, config-file, print-config) are not
    among the options of the configuration file. *)
Definition store_all (cmd cfg : Supplied) : Supplied :=
  mkSupplied (s_help cmd) (s_verbose cmd) (s_debug cmd) (s_print_config cmd)
    (s_report_level cmd) (s_config_file cmd)
    (first_of (s_bundle_adjustment_type cmd) (s_bundle_adjustment_type cfg))
    (first_of (s_cnet cmd) (s_cnet cfg))
    (first_of (s_lambda cmd) (s_lambda cfg))
    (first_of (s_control cmd) (s_control cfg))
    (first_of (s_huber_param cmd) (s_huber_param cfg))
    (first_of (s_cauchy_param cmd) (s_cauchy_param cfg))
    (first_of (s_camera_position_sigma cmd) (s_camera_position_sigma cfg))
    (first_of (s_camera_pose_sigma cmd) (s_camera_pose_sigma cfg))
    (first_of (s_gcp_sigma cmd) (s_gcp_sigma cfg))
    (first_of (s_save_iteration_data cmd) (s_save_iteration_data cfg))
    (first_of (s_max_iterations cmd) (s_max_iterations cfg))
    (first_of (s_min_matches cmd) (s_min_matches cfg))
    (first_of (s_data_dir cmd) (s_data_dir cfg))
    (first_of (s_results_dir cmd) (s_results_dir cfg))
    (first_of (s_use_ba_type_dirs cmd) (s_use_ba_type_dirs cfg))
    (first_of (s_remove_outliers cmd) (s_remove_outliers cfg))
    (first_of (s_outlier_sd_cutoff cmd) (s_outlier_sd_cutoff cfg))
    (first_of (s_input_files cmd) (s_input_files cfg)).

(** [vm.count(name) > 0] for an option without a default value, and
    [vm[name].defaulted()] for one with a default value. *)
Definition counted {T : Type} (x : option T) : bool :=
  match x with Some _ => true | None => false end.

Definition defaulted {T : Type} (x : option T) : bool :=
  match x with Some _ => false | None => true end.

(** [parse_options(argc, argv)], from the variables map on. [opts] is the
    local [ProgramOptions opts;] as it is declared: its numbers are
    indeterminate and stay so where no source and no default value sets
    them. [cmd] is what [po::store] leaves of the command line, and
    [parse_config_file] what it leaves of the configuration file: a command
    line or a configuration file on which Boost's parser throws (an unknown
    option, a malformed value) is no input here; the program catches no
    such exception and ends with it. [files] are the files of the machine.
    The logging rules set at the end are left out. *)
Definition parse_options `{External} (opts : ProgramOptions) (cmd : Supplied)
    (files : Files) : result ProgramOptions :=
  if s_help cmd then Exit 1 else
  let cfg := default ConfigFileDefault (s_config_file cmd) in
  if negb (is_regular_file files cfg) then Exit 1 else
  let vm := store_all cmd (parse_config_file (content files cfg)) in
  (* po::notify(vm) *)
  let o_report_level := default 35 (s_report_level vm) in
  let o_config_file := cfg in
  let ba_type := default "ref"%string (s_bundle_adjustment_type vm) in
  let o_cnet_file := default EmptyString (s_cnet vm) in
  let o_lambda := default (lambda opts) (s_lambda vm) in
  let o_control := default 0 (s_control vm) in
  let o_huber_param := default (huber_param opts) (s_huber_param vm) in
  let o_cauchy_param := default (cauchy_param opts) (s_cauchy_param vm) in
  let o_camera_position_sigma := default 1%float (s_camera_position_sigma vm) in
  let o_camera_pose_sigma := default 1e-16%float (s_camera_pose_sigma vm) in
  let o_gcp_sigma := default 1e-16%float (s_gcp_sigma vm) in
  let o_save_iteration_data := default false (s_save_iteration_data vm) in
  let o_max_iterations := default 30 (s_max_iterations vm) in
  let o_min_matches := default 30 (s_min_matches vm) in
  let data_dir_tmp := default "."%string (s_data_dir vm) in
  let o_results_dir := default EmptyString (s_results_dir vm) in
  let o_use_ba_type_dirs := default false (s_use_ba_type_dirs vm) in
  let o_remove_outliers := default false (s_remove_outliers vm) in
  let o_outlier_sd_cutoff := default 2%float (s_outlier_sd_cutoff vm) in
  let o_camera_files := default [] (s_input_files vm) in
  (* after notify *)
  let o_use_user_lambda := counted (s_lambda vm) in
  let o_data_dir := data_dir_tmp in
  let o_bundle_adjustment_type := fst (string_to_ba_type ba_type) in
  if s_print_config vm then Exit 0 else
  if negb (counted (s_cnet vm)) then Exit 1 else
  if (length o_camera_files <? 1)%nat then Exit 1 else
  if negb (o_control =? 0) && negb (o_control =? 1) then Exit 1 else
  let o_results_dir :=
    if negb (counted (s_results_dir vm)) then o_data_dir else o_results_dir in
  let o_remove_outliers :=
    if negb (defaulted (s_outlier_sd_cutoff vm)) then true else o_remove_outliers in
  Ok (mkProgramOptions o_bundle_adjustment_type o_lambda o_control
        o_huber_param o_cauchy_param o_camera_position_sigma
        o_camera_pose_sigma o_gcp_sigma o_outlier_sd_cutoff o_use_user_lambda
        o_use_ba_type_dirs o_save_iteration_data o_remove_outliers
        o_min_matches o_report_level o_max_iterations o_camera_files
        o_cnet_file o_data_dir o_results_dir o_config_file).

(** ** Loading the inputs *)

(** [fs::extension(p)]: the last component of [p] from its last dot on, or
    nothing when it has no dot. *)
Fixpoint extension (p : string) : string :=
  match p with
  | EmptyString => EmptyString
  | String c rest =>
      if has_char "/" rest || has_char "." rest then extension rest
      else if Ascii.eqb c "." then p
      else EmptyString
  end.

(** [p.has_parent_path()] *)
Definition has_parent_path (p : string) : bool := has_char "/" p.

Section Loading.
Context `{External}.

Definition load_control_network (file : path) (files : Files)
  : result ControlNetwork :=
  if String.eqb (extension file) ".net" then read_isis files file
  else if String.eqb (extension file) ".cnet" then read_binary files file
  else Throw (IOErr ("Unknown control network file extension, " ++ dquote
                     ++ extension file ++ dquote ++ ".")).

Fixpoint load_camera_models (camera_files : list string) (dir : path)
    (files : Files) : result CameraVector :=
  match camera_files with
  | [] => Ok []
  | file :: rest =>
      let file := if negb (has_parent_path file) then path_join dir file else file in
      cam <- read_pinhole files file ;;
      camera_models <- load_camera_models rest dir files ;;
      Ok (cam :: camera_models)
  end.

(** [create_data_dir(dir)] *)
Definition create_data_dir (dir : path) (files : Files) : result Files :=
  if is_regular_file files dir then Exit 1 else create_directory dir files.

(** ** Outlier removal *)

(** The command line [remove_outliers] builds in its string stream. *)
Definition cnet_editor_command (cnet_file cnet_out_file data_dir : path)
    (sd_cutoff : float) : string :=
  (CnetEditor ++ " -c " ++ show_double sd_cutoff
   ++ " -o " ++ cnet_out_file
   ++ " -d " ++ data_dir
   ++ " " ++ cnet_file ++ " " ++ MeanErrorsFile)%string.

(** [remove_outliers(cnet_file, cnet_out_file, data_dir, sd_cutoff)] (the
    name [remove_outliers] is the option's). *)
Definition remove_outliers_step (cnet_file cnet_out_file data_dir : path)
    (sd_cutoff : float) (w : World) : result World :=
  if negb (is_regular_file (files w) MeanErrorsFile) then
    Throw (IOErr ("Mean errors file '" ++ MeanErrorsFile
                  ++ "' does not exist or is not a regular file"))
  else if negb (is_regular_file (files w) cnet_file) then
    Throw (IOErr ("Control network file '" ++ cnet_file
                  ++ "' does not exist or is not a regular file"))
  else
    let command := cnet_editor_command cnet_file cnet_out_file data_dir sd_cutoff in
    let '(res, files1) := system command (files w) in
    let w := mkWorld files1 (calls w ++ [CallSystem command]) in
    if res =? -1 then
      Throw (LogicErr ("system(" ++ command ++ ") failed "))
    else Ok w.

End Loading.

(** ** The iteration loop and the two-pass driver *)

(** A computation that loops carries fuel; [None] is fuel run out, never a
    behaviour of the program. *)
Definition bind_fuel {T U : Type} (r : option (result T))
    (k : T -> option (result U)) : option (result U) :=
  match r with
  | None => None
  | Some (Ok x) => k x
  | Some (Throw e) => Some (Throw e)
  | Some (Exit c) => Some (Exit c)
  end.

Notation "x <-- r ;; k" := (bind_fuel r (fun x => k))
  (at level 100, r at next level, right associativity).

Definition lift {T : Type} (r : result T) : option (result T) := Some r.

(** A [BundleAdjustReport]: its title and its report level. *)
Record Reporter : Type := mkReporter { title : string; level : Z }.

Section Fit.
Context `{External} {A : Type} `{AdjusterT A}.

(** The solver, the model it refers to, and the world, after a pass. *)
Record Fit : Type := mkFit {
  fit_adjuster : A;
  fit_model : BundleAdjustmentModel;
  fit_world : World
}.

(** The test at the head of the loop body, which breaks out of the loop. *)
Definition loop_break (adjuster : A) (max_iter : Z) (abs_tol rel_tol : float) : bool :=
  (iterations adjuster >=? max_iter)
  || Double.lt abs_tol 1e-3%float
  || Double.lt rel_tol 1e-3%float.

(** The writes after an update when [save] is set. *)
Definition save_iteration (results_dir : path) (model : BundleAdjustmentModel)
    (w : World) : World :=
  with_files (write_points_append PointsReportFile results_dir model)
    (with_files (write_adjusted_cameras_append CameraParamsReportFile results_dir model) w).

(** [while (overall_delta) { ... }] *)
Fixpoint run_loop (fuel : nat) (adjuster : A) (model : BundleAdjustmentModel)
    (results_dir : path) (max_iter : Z) (save : bool)
    (abs_tol rel_tol overall_delta : float) (w : World) : option Fit :=
  if Double.truthy overall_delta then
    if loop_break adjuster max_iter abs_tol rel_tol then
      Some (mkFit adjuster model w)
    else
      match fuel with
      | O => None
      | S fuel =>
          let u := update adjuster model abs_tol rel_tol in
          let model := apply_writes (u_writes u) model in
          let w := record_call CallUpdate w in
          let w := if save then save_iteration results_dir model w else w in
          run_loop fuel (u_adjuster u) model results_dir max_iter save
            (u_abs_tol u) (u_rel_tol u) (u_delta u) w
      end
  else Some (mkFit adjuster model w).

(** [reporter.end_tie_in()] *)
Definition end_tie_in (reporter : Reporter) (model : BundleAdjustmentModel)
    (w : World) : World :=
  record_call (CallEndTieIn (title reporter))
    (with_files (report_end_tie_in (title reporter) (level reporter) model) w).

Definition run_bundle_adjustment (fuel : nat) (adjuster : A)
    (model : BundleAdjustmentModel) (reporter : Reporter)
    (results_dir : path) (max_iter : Z) (save : bool) (w : World) : option Fit :=
  let abs_tol := 1e10%float in
  let rel_tol := 1e10%float in
  let overall_delta := 2%float in
  match run_loop fuel adjuster model results_dir max_iter save
          abs_tol rel_tol overall_delta w with
  | None => None
  | Some fit =>
      Some (mkFit (fit_adjuster fit) (fit_model fit)
              (end_tie_in reporter (fit_model fit) (fit_world fit)))
  end.

(** What [adjust_bundles] leaves: the caller's [ba_model], the two solvers
    as they are when the function returns (the second one only when the
    second pass ran), and the world. *)
Record Outcome : Type := mkOutcome {
  out_model : BundleAdjustmentModel;
  out_adjuster : A;
  out_adjuster_no_outliers : option A;
  out_world : World
}.

(** The directory the results go to. *)
Definition results_dir_of (config : ProgramOptions) : path :=
  let results_dir := results_dir config in
  if use_ba_type_dirs config then
    let type_dir := ba_type_to_string (bundle_adjustment_type config) in
    let type_dir :=
      if remove_outliers config then (type_dir ++ "_no_outliers")%string
      else type_dir in
    path_join results_dir type_dir
  else results_dir.

Definition adjust_bundles (fuel : nat) (strategy : Strategy)
    (ba_model : BundleAdjustmentModel) (cost_func : CostT)
    (config : ProgramOptions) (ba_type_str : string) (w : World)
  : option (result Outcome) :=
  let bundle_adjuster := adjuster_new strategy ba_model cost_func in
  let results_dir := results_dir_of config in
  let bundle_adjuster :=
    if use_user_lambda config then set_lambda (lambda config) bundle_adjuster
    else bundle_adjuster in
  let bundle_adjuster := set_control (control config) bundle_adjuster in
  let w :=
    if save_iteration_data config then
      with_files (clear_report_files CameraParamsReportFile PointsReportFile results_dir) w
    else w in
  let reporter := mkReporter ba_type_str (report_level config) in
  let w := with_files (report_open ba_type_str (report_level config) ba_model) w in
  match run_bundle_adjustment fuel bundle_adjuster ba_model reporter results_dir
          (max_iterations config) (save_iteration_data config) w with
  | None => None
  | Some fit1 =>
      let bundle_adjuster := fit_adjuster fit1 in
      let ba_model := fit_model fit1 in
      let w := fit_world fit1 in
      if remove_outliers config then
        let cnet_file := path_join (data_dir config) (cnet_file config) in
        w <-- lift (remove_outliers_step cnet_file ProcessedCnetFile results_dir
                      (outlier_sd_cutoff config) w) ;;
        cnet <-- lift (load_control_network
                         (path_join results_dir ProcessedCnetFile) (files w)) ;;
        ba_model_no_outliers <--
          lift (BundleAdjustmentModel_new (cameras ba_model) cnet
                  (camera_position_sigma config) (camera_pose_sigma config)
                  (gcp_sigma config)) ;;
        let bundle_adjuster_no_outliers :=
          adjuster_new strategy ba_model_no_outliers cost_func in
        let bundle_adjuster_no_outliers :=
          if use_user_lambda config then
            set_lambda (lambda config) bundle_adjuster_no_outliers
          else bundle_adjuster_no_outliers in
        let bundle_adjuster := set_control (control config) bundle_adjuster in
        let reporter :=
          mkReporter (ba_type_str ++ " No Outliers") (report_level config) in
        let w := with_files (report_open (ba_type_str ++ " No Outliers")
                               (report_level config) ba_model_no_outliers) w in
        match run_bundle_adjustment fuel bundle_adjuster_no_outliers
                ba_model_no_outliers reporter results_dir
                (max_iterations config) (save_iteration_data config) w with
        | None => None
        | Some fit2 =>
            (* ba_model = ba_model_no_outliers *)
            Some (Ok (mkOutcome (fit_model fit2) bundle_adjuster
                        (Some (fit_adjuster fit2)) (fit_world fit2)))
        end
      else Some (Ok (mkOutcome ba_model bundle_adjuster None w))
  end.

End Fit.

(** ** [main] *)

Section Main.
Context `{External} {A : Type} `{AdjusterT A}.

(** [main], from the options to the return of [adjust_bundles]. The dumps of
    the initial and final state and the adjusted camera files, which [main]
    writes from the model it holds, are left out. *)
Definition main (fuel : nat) (opts : ProgramOptions) (cmd : Supplied) (w : World)
  : option (result Outcome) :=
  config <-- lift (parse_options opts cmd (files w)) ;;
  let results_dir := results_dir config in
  let results_dir :=
    if use_ba_type_dirs config then
      path_join results_dir (ba_type_to_string (bundle_adjustment_type config))
    else results_dir in
  files1 <-- lift (create_data_dir results_dir (files w)) ;;
  let w := mkWorld files1 (calls w) in
  let cnet_file := path_join (data_dir config) (cnet_file config) in
  cnet <-- lift (load_control_network cnet_file (files w)) ;;
  camera_models <--
    lift (load_camera_models (camera_files config) (data_dir config) (files w)) ;;
  ba_model <--
    lift (BundleAdjustmentModel_new camera_models cnet
            (camera_position_sigma config) (camera_pose_sigma config)
            (gcp_sigma config)) ;;
  match bundle_adjustment_type config with
  | REF =>
      adjust_bundles fuel AdjustRef ba_model L2Error config "Reference" w
  | SPARSE =>
      adjust_bundles fuel AdjustSparse ba_model L2Error config "Sparse" w
  | SPARSE_HUBER =>
      adjust_bundles fuel AdjustSparse ba_model (HuberError (huber_param config))
        config "Sparse Huber" w
  | SPARSE_CAUCHY =>
      adjust_bundles fuel AdjustSparse ba_model (CauchyError (cauchy_param config))
        config "Sparse Cauchy" w
  | ROBUST_REF =>
      adjust_bundles fuel AdjustRobustRef ba_model L2Error config
        "Robust Reference" w
  | ROBUST_SPARSE =>
      adjust_bundles fuel AdjustRobustSparse ba_model L2Error config
        "Robust Sparse" w
  end.

End Main.

(** ** A solver that plays a script, and a machine to run the program on *)

Module Scripted.

(** One scripted step: what the next [update] writes and returns. *)
Record Step : Type := mkStep {
  st_writes : list ModelWrite;
  st_delta : float;
  st_abs_tol : float;
  st_rel_tol : float
}.

(** The solver: how it was built and set up, the iterations it has made and
    the steps it has left. [None] for lambda or control is the value the
    constructor chose, never set from outside. *)
Record Solver : Type := mkSolver {
  sv_strategy : Strategy;
  sv_cost : CostT;
  sv_lambda : option float;
  sv_control : option Z;
  sv_iterations : Z;
  sv_script : list Step
}.

(** A step of a solver whose script has run out returns a zero delta. *)
Definition idle : Step := mkStep [] 0%float 1e10%float 1e10%float.

Definition step (x : Solver) : UpdateResult Solver :=
  let st := default idle (head (sv_script x)) in
  mkUpdate
    (mkSolver (sv_strategy x) (sv_cost x) (sv_lambda x) (sv_control x)
       (sv_iterations x + 1) (tail (sv_script x)))
    (st_writes st) (st_delta st) (st_abs_tol st) (st_rel_tol st).

#[export] Instance adjuster (script : list Step) : AdjusterT Solver := {
  adjuster_new s m c := mkSolver s c None None 0 script;
  iterations := sv_iterations;
  update x m abs_tol rel_tol := step x;
  set_lambda l x :=
    mkSolver (sv_strategy x) (sv_cost x) (Some l) (sv_control x)
      (sv_iterations x) (sv_script x);
  set_control c x :=
    mkSolver (sv_strategy x) (sv_cost x) (sv_lambda x) (Some c)
      (sv_iterations x) (sv_script x)
}.

#[export] Instance laws (script : list Step) : @AdjusterLaws Solver (adjuster script).
Proof. split; intros; cbn; reflexivity. Qed.

(** A network file of the machine holds one digit per control point: the
    index of the camera that observed the point, which also gives the
    point its position. *)
Definition digit (c : ascii) : nat := nat_of_ascii c - 48.

Definition coordinate (n : nat) : float :=
  PrimFloat.of_uint63 (Uint63.of_Z (Z.of_nat n)).

Definition decode_point (c : ascii) : ControlPoint :=
  mkPoint TiePoint
    (V3 (coordinate (digit c)) (coordinate (digit c + 1)) (coordinate (digit c + 2)))
    [mkMeasure (digit c) 0%float 0%float].

Definition decode (text : string) : ControlNetwork :=
  map decode_point (list_ascii_of_string text).

Definition read_network (files : Files) (p : path) : result ControlNetwork :=
  match files !! p with
  | Some (File text) => Ok (decode text)
  | _ => Throw (IOErr p)
  end.

(** A double is shown as its mantissa and its exponent. *)
Definition show (x : float) : string :=
  let '(m, e) := PrimFloat.frshiftexp x in
  ((if PrimFloat.ltb x 0%float then "-" else "")
   ++ pretty (Uint63.to_Z (PrimFloat.normfr_mantissa m)) ++ "e"
   ++ pretty (Uint63.to_Z e))%string.

(** [create_directory] on the machine: a directory is made when the
    directory it would be in is there, and making one that is there already
    changes nothing; otherwise the call throws (the machine reports Boost's
    [filesystem_error] as an [IOErr] that names the directory). *)
Definition make_directory (dir : path) (files : Files) : result Files :=
  if is_directory files dir then Ok files
  else if negb (String.eqb dir EmptyString)
          && (String.eqb (parent_path dir) EmptyString
              || is_directory files (parent_path dir))
  then Ok (<[dir := Directory]> files)
  else Throw (IOErr dir).

(** The machine: [cnet_editor] returns [status] and writes [output] to the
    processed network when it is given; the reporter writes the mean errors
    file at the end of a pass; no option comes from the configuration file. *)
#[export] Instance machine (status : Z) (output : option string) : External := {
  show_double := show;
  pow x y := (x * x)%float;
  euler_to_quaternion phi omega kappa order := Quat 1%float phi omega kappa;
  read_binary := read_network;
  read_isis := read_network;
  read_pinhole files p := Ok (PinholeModel p);
  create_directory := make_directory;
  parse_config_file text := no_options;
  system command files :=
    (status,
     match output with
     | Some text => write_file "results/processed.cnet" text files
     | None => files
     end);
  report_open title level model files := files;
  report_end_tie_in title level model files :=
    write_file MeanErrorsFile title files
}.

End Scripted.

(** ** Vocabulary of the statements *)

(** The names [string_to_ba_type] knows, apart from the default. *)
Definition recognized : list string :=
  ["sparse"; "sparse_huber"; "sparse_cauchy"; "robust_ref"; "robust_sparse"]%string.

(** The command line [cmd] with its bundle-adjustment-type option replaced. *)
Definition with_ba_type (t : option string) (cmd : Supplied) : Supplied :=
  mkSupplied (s_help cmd) (s_verbose cmd) (s_debug cmd) (s_print_config cmd)
    (s_report_level cmd) (s_config_file cmd) t (s_cnet cmd) (s_lambda cmd)
    (s_control cmd) (s_huber_param cmd) (s_cauchy_param cmd)
    (s_camera_position_sigma cmd) (s_camera_pose_sigma cmd) (s_gcp_sigma cmd)
    (s_save_iteration_data cmd) (s_max_iterations cmd) (s_min_matches cmd)
    (s_data_dir cmd) (s_results_dir cmd) (s_use_ba_type_dirs cmd)
    (s_remove_outliers cmd) (s_outlier_sd_cutoff cmd) (s_input_files cmd).

(** The variables map [parse_options] works with, once the configuration
    file is read. *)
Definition variables_map `{External} (cmd : Supplied) (files : Files) : Supplied :=
  store_all cmd
    (parse_config_file
       (content files (default ConfigFileDefault (s_config_file cmd)))).

(** The model the constructor builds when the check passes. *)
Definition fresh_model (cameras : CameraVector) (network : ControlNetwork)
    (s1 s2 s3 : float) (observations : Z) : BundleAdjustmentModel :=
  mkModel cameras network
    (replicate (length cameras) camera_vector_default)
    (map cp_position network)
    (replicate (length cameras) camera_vector_default)
    (map cp_position network)
    observations s1 s2 s3.

(** Every observation of the network names a camera of a list of [n]. *)
Definition indices_in_range (n : nat) (network : ControlNetwork) : Prop :=
  Forall (fun cp => Forall (fun cm => (image_id cm < n)%nat) (measures cp)) network.

(** The diagonal matrix of the given entries. *)
Definition diagonal (d : list float) : Matrix :=
  imap (fun i x => <[i := x]> (replicate (length d) Double.zero)) d.

Section Trajectory.
Context {A : Type} `{AdjusterT A}.

(** The variables of the loop of [run_bundle_adjustment]. *)
Record LoopState : Type := mkLoop {
  l_adjuster : A;
  l_model : BundleAdjustmentModel;
  l_abs_tol : float;
  l_rel_tol : float;
  l_delta : float
}.

Definition loop_start (adjuster : A) (model : BundleAdjustmentModel) : LoopState :=
  mkLoop adjuster model 1e10%float 1e10%float 2%float.

(** One update step. *)
Definition loop_next (st : LoopState) : LoopState :=
  let u := update (l_adjuster st) (l_model st) (l_abs_tol st) (l_rel_tol st) in
  mkLoop (u_adjuster u) (apply_writes (u_writes u) (l_model st))
    (u_abs_tol u) (u_rel_tol u) (u_delta u).

(** The loop variables after [n] update steps. *)
Fixpoint advance (n : nat) (st : LoopState) : LoopState :=
  match n with
  | O => st
  | S n => advance n (loop_next st)
  end.

(** The stop condition of the iteration controller: the last delta is zero,
    or the iteration count has reached the maximum, or a tolerance is below
    [1e-3]. *)
Definition stops (max_iter : Z) (st : LoopState) : bool :=
  negb (Double.truthy (l_delta st))
  || (iterations (l_adjuster st) >=? max_iter)
  || Double.lt (l_abs_tol st) 1e-3%float
  || Double.lt (l_rel_tol st) 1e-3%float.

End Trajectory.

Section Snapshot_vocabulary.
Context `{External} {A : Type} `{AdjusterT A}.

(** The text the camera snapshots, and the point snapshots, of the first
    [n] steps add up to. *)
Fixpoint camera_text (n : nat) (st : LoopState) : string :=
  match n with
  | O => EmptyString
  | S n =>
      (render_rows (camera_snapshot (l_model (loop_next st)))
       ++ camera_text n (loop_next st))%string
  end.

Fixpoint point_text (n : nat) (st : LoopState) : string :=
  match n with
  | O => EmptyString
  | S n =>
      (render_rows (point_snapshot (l_model (loop_next st)))
       ++ point_text n (loop_next st))%string
  end.

(** The world after the first [n] steps of the loop. *)
Fixpoint world_after (results_dir : path) (save : bool) (n : nat)
    (st : LoopState) (w : World) : World :=
  match n with
  | O => w
  | S n =>
      let w := record_call CallUpdate w in
      let w := if save then save_iteration results_dir (l_model (loop_next st)) w
               else w in
      world_after results_dir save n (loop_next st) w
  end.

End Snapshot_vocabulary.

Section Pass_vocabulary.
Context `{External} {A : Type} `{AdjusterT A}.

(** The solver [adjust_bundles] runs the first pass with, and the one it
    runs the second pass with, as the code sets them up. *)
Definition first_pass_adjuster (strategy : Strategy) (ba_model : BundleAdjustmentModel)
    (cost_func : CostT) (config : ProgramOptions) : A :=
  set_control (control config)
    (if use_user_lambda config
     then set_lambda (lambda config) (adjuster_new strategy ba_model cost_func)
     else adjuster_new strategy ba_model cost_func).

Definition second_pass_adjuster (strategy : Strategy)
    (ba_model_no_outliers : BundleAdjustmentModel)
    (cost_func : CostT) (config : ProgramOptions) : A :=
  if use_user_lambda config
  then set_lambda (lambda config) (adjuster_new strategy ba_model_no_outliers cost_func)
  else adjuster_new strategy ba_model_no_outliers cost_func.

(** The world the first pass starts in. *)
Definition first_pass_world (ba_model : BundleAdjustmentModel)
    (config : ProgramOptions) (ba_type_str : string) (w : World) : World :=
  with_files (report_open ba_type_str (report_level config) ba_model)
    (if save_iteration_data config then
       with_files (clear_report_files CameraParamsReportFile PointsReportFile
                     (results_dir_of config)) w
     else w).

(** The first pass of [adjust_bundles]. *)
Definition first_pass (fuel : nat) (strategy : Strategy)
    (ba_model : BundleAdjustmentModel) (cost_func : CostT)
    (config : ProgramOptions) (ba_type_str : string) (w : World) : option Fit :=
  run_bundle_adjustment fuel
    (first_pass_adjuster strategy ba_model cost_func config) ba_model
    (mkReporter ba_type_str (report_level config)) (results_dir_of config)
    (max_iterations config) (save_iteration_data config)
    (first_pass_world ba_model config ba_type_str w).

(** The second pass, on the model built from the filtered network. *)
Definition second_pass (fuel : nat) (strategy : Strategy)
    (ba_model_no_outliers : BundleAdjustmentModel) (cost_func : CostT)
    (config : ProgramOptions) (ba_type_str : string) (w : World) : option Fit :=
  run_bundle_adjustment fuel
    (second_pass_adjuster strategy ba_model_no_outliers cost_func config)
    ba_model_no_outliers
    (mkReporter (ba_type_str ++ " No Outliers") (report_level config))
    (results_dir_of config) (max_iterations config) (save_iteration_data config)
    (with_files (report_open (ba_type_str ++ " No Outliers") (report_level config)
                   ba_model_no_outliers) w).

End Pass_vocabulary.

(** ** Inputs the statements are tried on *)

Module Inputs.
Import Scripted.

(** A command line that names a control network and one camera file. *)
Definition minimal_cmd : Supplied :=
  mkSupplied false false false false None None None (Some "net.cnet"%string)
    None None None None None None None None None None
    (Some "data"%string) (Some "results"%string) None None None
    (Some ["a.tsai"%string]).

(** The same with a misspelt solver name. *)
Definition misspelt_cmd : Supplied := with_ba_type (Some "sprase"%string) minimal_cmd.

(** The same with a cutoff for outliers and no [-M]. *)
Definition cutoff_cmd : Supplied :=
  mkSupplied false false false false None None None (Some "net.cnet"%string)
    None None None None None None None None None None
    (Some "data"%string) (Some "results"%string) None None (Some 3%float)
    (Some ["a.tsai"%string]).

(** Indeterminate numbers, fixed to zero. *)
Definition blank_opts : ProgramOptions :=
  mkProgramOptions REF 0%float 0 0%float 0%float 0%float 0%float 0%float
    0%float false false false false 0 0 0 [] EmptyString EmptyString
    EmptyString EmptyString.

(** A machine with a configuration file, a data directory with a network of
    one point seen by camera 0, a mean errors file, and a results directory
    with a processed network left by an earlier run. *)
Definition some_files : Files :=
  <["ba_test.cfg"%string := File EmptyString]>
    (<["image_mean.err"%string := File EmptyString]>
       (<["data"%string := Directory]>
          (<["data/net.cnet"%string := File "0"]>
             (<["results"%string := Directory]>
                (<["results/processed.cnet"%string := File "0"]> ∅))))).

Definition some_world : World := mkWorld some_files [].

(** A model of one camera and one point, as the constructor leaves it. *)
Definition one_camera : CameraVector := [PinholeModel "a.tsai"].

Definition one_point : ControlNetwork := decode "0".

Definition one_model : BundleAdjustmentModel :=
  fresh_model one_camera one_point 1%float 1e-16%float 1e-16%float 1.

(** A solver script of two steps: the first moves and turns the camera, the
    second moves the point and returns a zero delta. *)
Definition two_steps : list Step :=
  [mkStep [SetA 0 (V6 1%float 2%float 3%float 4%float 5%float 6%float)]
     1%float 1%float 1%float;
   mkStep [SetB 0 (V3 7%float 8%float 9%float)] 0%float 1%float 1%float].

(** Options as [parse_options] returns them for [minimal_cmd], with the
    given control, iteration budget and switches. *)
Definition options (control : Z) (max_iterations : Z)
    (user_lambda save remove : bool) : ProgramOptions :=
  mkProgramOptions REF 5%float control 0%float 0%float 1%float 1e-16%float
    1e-16%float 2%float user_lambda false save remove 30 35 max_iterations
    ["a.tsai"%string] "net.cnet" "data" "results" "ba_test.cfg".

(** [minimal_cmd] with a maximum iteration count of 0. *)
Definition no_budget_cmd : Supplied :=
  mkSupplied false false false false None None None (Some "net.cnet"%string)
    None None None None None None None None (Some 0) None
    (Some "data"%string) (Some "results"%string) None None None
    (Some ["a.tsai"%string]).

(** A new solver that will play [two_steps] on [one_model]. *)
Definition new_solver : Solver :=
  @adjuster_new Solver (adjuster two_steps) AdjustRef one_model L2Error.

(** [one_model] after the first of [two_steps], and the same with the
    camera turned differently. *)
Definition moved_model : BundleAdjustmentModel :=
  set_A_parameters 0 (V6 1%float 2%float 3%float 4%float 5%float 6%float) one_model.

Definition turned_model : BundleAdjustmentModel :=
  set_A_parameters 0 (V6 1%float 2%float 3%float 0%float 0%float 0%float) one_model.

(** A machine whose [cnet_editor] succeeds and writes a network of two
    points, both seen by camera 0; and one whose [cnet_editor] exits with
    status 1 (so that [system] returns 256) and writes nothing. *)
Definition editor_ok : External := machine 0 (Some "00"%string).

Definition editor_fails : External := machine 256 None.

End Inputs.

(** ** Vocabulary of the further properties *)

(** The command lines [parse_options] accepts: no help asked, a
    configuration file that is there, no print-config, a control network and
    at least one camera file named by some source, and a control of 0 or 1. *)
Definition accepted `{External} (cmd : Supplied) (files : Files) : Prop :=
  let vm := variables_map cmd files in
  s_help cmd = false
  /\ is_regular_file files (default ConfigFileDefault (s_config_file cmd)) = true
  /\ s_print_config cmd = false
  /\ is_Some (s_cnet vm)
  /\ (exists file rest, s_input_files vm = Some (file :: rest))
  /\ (default 0 (s_control vm) = 0 \/ default 0 (s_control vm) = 1).

(** The options with another value in [lambda], in [huber_param]. *)
Definition with_lambda (l : float) (o : ProgramOptions) : ProgramOptions :=
  mkProgramOptions (bundle_adjustment_type o) l (control o) (huber_param o)
    (cauchy_param o) (camera_position_sigma o) (camera_pose_sigma o)
    (gcp_sigma o) (outlier_sd_cutoff o) (use_user_lambda o)
    (use_ba_type_dirs o) (save_iteration_data o) (remove_outliers o)
    (min_matches o) (report_level o) (max_iterations o) (camera_files o)
    (cnet_file o) (data_dir o) (results_dir o) (config_file o).

Definition with_huber_param (p : float) (o : ProgramOptions) : ProgramOptions :=
  mkProgramOptions (bundle_adjustment_type o) (lambda o) (control o) p
    (cauchy_param o) (camera_position_sigma o) (camera_pose_sigma o)
    (gcp_sigma o) (outlier_sd_cutoff o) (use_user_lambda o)
    (use_ba_type_dirs o) (save_iteration_data o) (remove_outliers o)
    (min_matches o) (report_level o) (max_iterations o) (camera_files o)
    (cnet_file o) (data_dir o) (results_dir o) (config_file o).

Module More_inputs.
Import Scripted.

(** A command line that asks for the sparse Huber solver and gives no Huber
    parameter. *)
Definition huber_cmd : Supplied :=
  with_ba_type (Some "sparse_huber"%string) Inputs.minimal_cmd.

(** A command line that names a control network and a camera file and
    nothing else. *)
Definition bare_cmd : Supplied :=
  mkSupplied false false false false None None None (Some "net.cnet"%string)
    None None None None None None None None None None None None None None None
    (Some ["a.tsai"%string]).

(** The files of [Inputs.some_files], with the network and the camera in the
    current directory. *)
Definition bare_files : Files :=
  <["ba_test.cfg"%string := File EmptyString]>
    (<["./net.cnet"%string := File "0"]> ∅).

(** [Inputs.minimal_cmd] with five iterations asked for on the command line,
    and a machine whose configuration file asks for seven. *)
Definition five_cmd : Supplied :=
  mkSupplied false false false false None None None (Some "net.cnet"%string)
    None None None None None None None None (Some 5) None
    (Some "data"%string) (Some "results"%string) None None None
    (Some ["a.tsai"%string]).

Definition seven_in_file : External := {|
  show_double := show;
  pow x y := (x * x)%float;
  euler_to_quaternion phi omega kappa order := Quat 1%float phi omega kappa;
  read_binary := read_network;
  read_isis := read_network;
  read_pinhole files p := Ok (PinholeModel p);
  create_directory := make_directory;
  parse_config_file text :=
    mkSupplied false false false false None None None None None None None None
      None None None None (Some 7) None None None None None None None;
  system command files := (0, files);
  report_open title level model files := files;
  report_end_tie_in title level model files := files
|}.

End More_inputs.

(** A pass keeps the sizes of the parameter arrays and everything of the
    model that is not a parameter: [same_frame m m'] says so of the model
    [m'] a pass leaves from [m]. *)
Definition same_frame (m m' : BundleAdjustmentModel) : Prop :=
  m_cameras m' = m_cameras m
  /\ m_network m' = m_network m
  /\ a_target m' = a_target m
  /\ b_target m' = b_target m
  /\ num_cameras m' = num_cameras m
  /\ num_points m' = num_points m
  /\ num_pixel_observations m' = num_pixel_observations m
  /\ m_camera_position_sigma m' = m_camera_position_sigma m
  /\ m_camera_pose_sigma m' = m_camera_pose_sigma m
  /\ m_gcp_sigma m' = m_gcp_sigma m.

(** The directory [main] creates for the results. *)
Definition created_dir (config : ProgramOptions) : path :=
  if use_ba_type_dirs config then
    path_join (results_dir config)
      (ba_type_to_string (bundle_adjustment_type config))
  else results_dir config.

(** ** Diagnostics of the model *)

#[global] Instance CameraModel_inhabited : Inhabited CameraModel :=
  populate (PinholeModel EmptyString).
#[global] Instance ControlMeasure_inhabited : Inhabited ControlMeasure :=
  populate (mkMeasure 0 Double.zero Double.zero).

(** A [Vector2]. *)
Record Vector2 : Type := V2 { v2_0 : float; v2_1 : float }.

(** An [AdjustedCameraModel]: a camera with a position and a pose
    correction. *)
Record AdjustedCameraModel : Type := mkAdjusted {
  adj_camera : CameraModel;
  adj_position_correction : Vector3;
  adj_pose_correction : Quaternion
}.

(** The camera and vector functions of the Vision Workbench that the
    diagnostics and the dumps call. *)
Class Geometry : Type := {
  (** [norm_2] of a [Vector2] and of a [Vector3] *)
  norm_2_v2 : Vector2 -> float;
  norm_2_v3 : Vector3 -> float;
  (** [cam->point_to_pixel(b_i)], [cam->camera_center(Vector2())] and
      [rotation_matrix_to_euler_xyz(cam->camera_pose(Vector2()).rotation_matrix())]
      of an adjusted camera *)
  point_to_pixel : AdjustedCameraModel -> Vector3 -> Vector2;
  camera_center : AdjustedCameraModel -> Vector3;
  camera_pose_euler : AdjustedCameraModel -> Vector3;
  (** [q.axis_angle(axis, angle)]: the angle *)
  axis_angle_angle : Quaternion -> float;
  (** [os << std::setprecision(8) << x] *)
  show_double_8 : float -> string
}.

Definition M_PI : float := 3.14159265358979323846%float.

(** [u - v] on vectors. *)
Definition minus_v2 (u v : Vector2) : Vector2 :=
  V2 (v2_0 u - v2_0 v)%float (v2_1 u - v2_1 v)%float.

Definition minus_v3 (u v : Vector3) : Vector3 :=
  V3 (v3_0 u - v3_0 v)%float (v3_1 u - v3_1 v)%float (v3_2 u - v3_2 v)%float.

(** The position of a measure, as a [Vector2]. *)
Definition measure_position (cm : ControlMeasure) : Vector2 :=
  V2 (measure_col cm) (measure_row cm).

Section Diagnostics.
Context `{External} `{Geometry}.

(** [operator()(i, j, a_j, b_i)] of the model. *)
Definition project (m : BundleAdjustmentModel) (i j : nat)
    (a_j : camera_vector_t) (b_i : point_vector_t) : Vector2 :=
  let position_correction := subvector_0_3 a_j in
  let p := subvector_3_3 a_j in
  let pose_correction := euler_to_quaternion (v3_0 p) (v3_1 p) (v3_2 p) "xyz" in
  let cam := mkAdjusted (m_cameras m !!! j) position_correction pose_correction in
  point_to_pixel cam b_i.

(** [adjusted_cameras()] *)
Definition adjusted_cameras (m : BundleAdjustmentModel) : list AdjustedCameraModel :=
  for_range (length (m_cameras m))
    (fun j result =>
       let position_correction := subvector_0_3 (a m !!! j) in
       let p := subvector_3_3 (a m !!! j) in
       let pose_correction :=
         euler_to_quaternion (v3_0 p) (v3_1 p) (v3_2 p) "xyz" in
       <[j := mkAdjusted (m_cameras m !!! j) position_correction pose_correction]>
         result)
    (replicate (length (m_cameras m))
       (mkAdjusted inhabitant Vector3_default (Quat 0 0 0 0)%float)).

(** [image_errors(pix_errors)]: the list it leaves in [pix_errors]. *)
Definition image_errors (m : BundleAdjustmentModel) : list float :=
  for_range (length (m_network m))
    (fun i pix_errors =>
       for_range (length (measures (m_network m !!! i)))
         (fun k pix_errors =>
            let cm := measures (m_network m !!! i) !!! k in
            let camera_idx := image_id cm in
            let pixel_error :=
              minus_v2 (measure_position cm)
                (project m i camera_idx (a m !!! camera_idx) (b m !!! i)) in
            pix_errors ++ [norm_2_v2 pixel_error])
         pix_errors)
    [].

(** [camera_position_errors(...)] *)
Definition camera_position_errors (m : BundleAdjustmentModel) : list float :=
  for_range (num_cameras m)
    (fun j errors =>
       let position_initial := subvector_0_3 (a_target m !!! j) in
       let position_now := subvector_0_3 (a m !!! j) in
       errors ++ [norm_2_v3 (minus_v3 position_initial position_now)])
    [].

(** [camera_pose_errors(...)], in degrees. *)
Definition camera_pose_errors (m : BundleAdjustmentModel) : list float :=
  for_range (num_cameras m)
    (fun j errors =>
       let pi := subvector_3_3 (a_target m !!! j) in
       let pn := subvector_3_3 (a m !!! j) in
       let pose_initial :=
         euler_to_quaternion (v3_0 pi) (v3_1 pi) (v3_2 pi) "xyz" in
       let pose_now := euler_to_quaternion (v3_0 pn) (v3_1 pn) (v3_2 pn) "xyz" in
       let angle_initial := axis_angle_angle pose_initial in
       let angle_now := axis_angle_angle pose_now in
       errors ++ [(PrimFloat.abs (angle_initial - angle_now) * 180 / M_PI)%float])
    [].

(** [gcp_errors(...)] *)
Definition gcp_errors (m : BundleAdjustmentModel) : list float :=
  for_range (num_points m)
    (fun i errors =>
       match cp_type (m_network m !!! i) with
       | GroundControlPoint =>
           errors ++ [norm_2_v3 (minus_v3 (b_target m !!! i) (b m !!! i))]
       | TiePoint => errors
       end)
    [].

End Diagnostics.

(** ** Dumps and adjustment files *)

(** The first [n] characters of a string. *)
Fixpoint string_take (n : nat) (s : string) : string :=
  match n, s with
  | S n, String c rest => String c (string_take n rest)
  | _, _ => EmptyString
  end.

(** [fs::change_extension(p, new_extension)]: [p] with its extension, if it
    has one, replaced. *)
Definition change_extension (p new_extension : string) : string :=
  (string_take (String.length p - String.length (extension p)) p
   ++ new_extension)%string.

Definition space : string := " ".

Section Dumps.
Context `{External} `{Geometry}.

(** The line [write_camera_params] writes for an adjusted camera, and the
    line [write_world_points] writes for a point. *)
Definition camera_params_line (cam : AdjustedCameraModel) : string :=
  let c := camera_center cam in
  let p := camera_pose_euler cam in
  (show_double_8 (v3_0 c) ++ tab ++ show_double_8 (v3_1 c) ++ tab
   ++ show_double_8 (v3_2 c) ++ tab
   ++ show_double_8 (v3_0 p) ++ tab ++ show_double_8 (v3_1 p) ++ tab
   ++ show_double_8 (v3_2 p) ++ newline)%string.

Definition world_point_line (pos : point_vector_t) : string :=
  (show_double_8 (v3_0 pos) ++ tab ++ show_double_8 (v3_1 pos) ++ tab
   ++ show_double_8 (v3_2 pos) ++ newline)%string.

(** The text of the two dumps. *)
Definition camera_params_text (m : BundleAdjustmentModel) : string :=
  foldl (fun text cam => (text ++ camera_params_line cam)%string) EmptyString
    (adjusted_cameras m).

Definition world_points_text (m : BundleAdjustmentModel) : string :=
  for_range (num_points m)
    (fun i text => (text ++ world_point_line (B_parameters m i))%string)
    EmptyString.

Definition write_camera_params (file : path) (m : BundleAdjustmentModel)
    (files : Files) : Files :=
  write_file file (camera_params_text m) files.

Definition write_world_points (file : path) (m : BundleAdjustmentModel)
    (files : Files) : Files :=
  write_file file (world_points_text m) files.

(** The two lines [write_adjustments] writes. *)
Definition adjustments_text (position_correction : Vector3)
    (pose_correction : Quaternion) : string :=
  (show_double (v3_0 position_correction) ++ space
   ++ show_double (v3_1 position_correction) ++ space
   ++ show_double (v3_2 position_correction) ++ newline
   ++ show_double (q_w pose_correction) ++ space
   ++ show_double (q_x pose_correction) ++ space
   ++ show_double (q_y pose_correction) ++ space
   ++ show_double (q_z pose_correction) ++ space ++ newline)%string.

(** [write_adjustments(filename, position_correction, pose_correction)] *)
Definition write_adjustments (filename : path) (position_correction : Vector3)
    (pose_correction : Quaternion) (files : Files) : Files :=
  write_file filename (adjustments_text position_correction pose_correction)
    files.


(** [write_adjustment(j, filename)] of the model. *)
Definition write_adjustment (j : nat) (filename : path)
    (m : BundleAdjustmentModel) (files : Files) : Files :=
  let position_correction := subvector_0_3 (a m !!! j) in
  let p := subvector_3_3 (a m !!! j) in
  let pose_correction := euler_to_quaternion (v3_0 p) (v3_1 p) (v3_2 p) "xyz" in
  write_adjustments filename position_correction pose_correction files.

(** The file [write_adjusted_camera_models] writes the adjustment of camera
    [i] to. *)
Definition adjust_file (config : ProgramOptions) (i : nat) : path :=
  let results_dir := results_dir config in
  let results_dir :=
    if use_ba_type_dirs config then
      path_join results_dir (ba_type_to_string (bundle_adjustment_type config))
    else results_dir in
  path_join results_dir (change_extension (camera_files config !!! i) ".adjust").

(** [write_adjusted_camera_models(config)] of the model. *)
Definition write_adjusted_camera_models (config : ProgramOptions)
    (m : BundleAdjustmentModel) (files : Files) : Files :=
  for_range (num_cameras m)
    (fun i files => write_adjustment i (adjust_file config i) m files)
    files.

End Dumps.

(** ** [main], with its dumps *)

Section Main_with_dumps.
Context `{External} `{Geometry} {A : Type} `{AdjusterT A}.

(** The switch of [main] on the solver type. *)
Definition adjust_bundles_of_type (fuel : nat) (ba_model : BundleAdjustmentModel)
    (config : ProgramOptions) (w : World) : option (result Outcome) :=
  match bundle_adjustment_type config with
  | REF =>
      adjust_bundles fuel AdjustRef ba_model L2Error config "Reference" w
  | SPARSE =>
      adjust_bundles fuel AdjustSparse ba_model L2Error config "Sparse" w
  | SPARSE_HUBER =>
      adjust_bundles fuel AdjustSparse ba_model (HuberError (huber_param config))
        config "Sparse Huber" w
  | SPARSE_CAUCHY =>
      adjust_bundles fuel AdjustSparse ba_model (CauchyError (cauchy_param config))
        config "Sparse Cauchy" w
  | ROBUST_REF =>
      adjust_bundles fuel AdjustRobustRef ba_model L2Error config
        "Robust Reference" w
  | ROBUST_SPARSE =>
      adjust_bundles fuel AdjustRobustSparse ba_model L2Error config
        "Robust Sparse" w
  end.

(** What the whole of [main] leaves: the value it returns, the model it
    reported from, and the world. *)
Record Run : Type := mkRun {
  run_status : Z;
  run_model : BundleAdjustmentModel;
  run_world : World
}.

(** The whole of [main]: [main] above, with the dumps of the initial state
    before [adjust_bundles] and the adjusted camera files and the dumps of
    the final state after it. *)
Definition main_with_dumps (fuel : nat) (opts : ProgramOptions) (cmd : Supplied)
    (w : World) : option (result Run) :=
  config <-- lift (parse_options opts cmd (files w)) ;;
  let results_dir := results_dir config in
  let results_dir :=
    if use_ba_type_dirs config then
      path_join results_dir (ba_type_to_string (bundle_adjustment_type config))
    else results_dir in
  files1 <-- lift (create_data_dir results_dir (files w)) ;;
  let w := mkWorld files1 (calls w) in
  let cam_file_initial := path_join results_dir "cam_initial.txt" in
  let wp_file_initial := path_join results_dir "wp_initial.txt" in
  let cam_file_final := path_join results_dir "cam_final.txt" in
  let wp_file_final := path_join results_dir "wp_final.txt" in
  let cnet_file := path_join (data_dir config) (cnet_file config) in
  cnet <-- lift (load_control_network cnet_file (files w)) ;;
  camera_models <--
    lift (load_camera_models (camera_files config) (data_dir config) (files w)) ;;
  ba_model <--
    lift (BundleAdjustmentModel_new camera_models cnet
            (camera_position_sigma config) (camera_pose_sigma config)
            (gcp_sigma config)) ;;
  let w := with_files (write_camera_params cam_file_initial ba_model) w in
  let w := with_files (write_world_points wp_file_initial ba_model) w in
  out <-- adjust_bundles_of_type fuel ba_model config w ;;
  let ba_model := out_model out in
  let w := out_world out in
  let w := with_files (write_adjusted_camera_models config ba_model) w in
  let w := with_files (write_camera_params cam_file_final ba_model) w in
  let w := with_files (write_world_points wp_file_final ba_model) w in
  Some (Ok (mkRun 0 ba_model w)).

End Main_with_dumps.

(** ** The image undistortion tool *)

Module Undistort.

(** The pixel formats and channel types an image file can have; the tool
    names four formats and five types, the others are [other]. *)
Inductive PixelFormatEnum : Type :=
  | VW_PIXEL_GRAY
  | VW_PIXEL_GRAYA
  | VW_PIXEL_RGB
  | VW_PIXEL_OTHER (id : nat).

Inductive ChannelTypeEnum : Type :=
  | VW_CHANNEL_UINT8
  | VW_CHANNEL_INT8
  | VW_CHANNEL_UINT16
  | VW_CHANNEL_INT16
  | VW_CHANNEL_FLOAT32
  | VW_CHANNEL_OTHER (id : nat).

(** The instances of [do_work]. *)
Inductive PixelT : Type := PixelGray | PixelGrayA | PixelRGB | PixelRGBA.
Inductive ChannelT : Type := uint8 | int8 | uint16 | int16 | float32 | float64.

(** The three global file names. *)
Record Names : Type := mkNames {
  input_file_name : string;
  output_file_name : string;
  camera_file_name : string
}.

(** What the tool calls: [vw::image_format], [vw::create_out_dir], and
    [do_work<PixelT<ChannelT>>()], whose image reading and writing is not
    modelled: the files it leaves, and the exception it throws if it
    throws. *)
Class Imaging : Type := {
  image_format : gmap string Node -> string ->
                 result (PixelFormatEnum * ChannelTypeEnum);
  create_out_dir : string -> gmap string Node -> result (gmap string Node);
  do_work : PixelT -> ChannelT -> Names -> gmap string Node ->
            gmap string Node * option Exception
}.

(** The command line as [po::store] and [po::notify] leave it; [None] for an
    option that was not given. *)
Record Args : Type := mkArgs {
  arg_help : bool;
  arg_input_file : option string;
  arg_camera_file : option string;
  arg_output_file : option string
}.

Section Tool.
Context `{Imaging}.

(** [SWITCH_ON_CHANNEL_TYPE(PIXELTYPE)] *)
Definition switch_on_channel_type (pixel : PixelT) (channel_type : ChannelTypeEnum)
  : ChannelT :=
  match channel_type with
  | VW_CHANNEL_UINT8 => uint8
  | VW_CHANNEL_INT8 => int8
  | VW_CHANNEL_UINT16 => uint16
  | VW_CHANNEL_INT16 => int16
  | VW_CHANNEL_FLOAT32 => float32
  | VW_CHANNEL_OTHER _ => float64
  end.

Definition pixel_of_format (pixel_format : PixelFormatEnum) : PixelT :=
  match pixel_format with
  | VW_PIXEL_GRAY => PixelGray
  | VW_PIXEL_GRAYA => PixelGrayA
  | VW_PIXEL_RGB => PixelRGB
  | VW_PIXEL_OTHER _ => PixelRGBA
  end.

(** [do_work_all_channels(input_file_name)]: the format is read outside the
    [try]; an exception of [do_work] is caught and printed. *)
Definition do_work_all_channels (names : Names) (files : Files) : result Files :=
  fmt <- image_format files (input_file_name names) ;;
  let pixel := pixel_of_format (fst fmt) in
  let '(files1, thrown) :=
    do_work pixel (switch_on_channel_type pixel (snd fmt)) names files in
  Ok files1.

(** [main] of the tool: the value it returns and the files it leaves.
    [parsed] is [None] when parsing the command line throws [po::error]. *)
Definition main (parsed : option Args) (files : Files) : result (Z * Files) :=
  match parsed with
  | None => Ok (1, files)
  | Some args =>
      if arg_help args then Ok (1, files)
      else if negb (counted (arg_input_file args))
              || negb (counted (arg_camera_file args)) then Ok (1, files)
      else
        let names :=
          mkNames (default EmptyString (arg_input_file args))
            (default "output.png"%string (arg_output_file args))
            (default EmptyString (arg_camera_file args)) in
        files1 <- create_out_dir (output_file_name names) files ;;
        files2 <- do_work_all_channels names files1 ;;
        Ok (0, files2)
  end.

End Tool.

End Undistort.

(** ** More inputs the statements are tried on *)

Module Dump_inputs.
Import Scripted.

(** Geometry for the machine: Euclidean norms, a camera that sees a point at
    its first two coordinates moved by the position correction, and doubles
    shown as before. *)
#[export] Instance geometry : Geometry := {
  norm_2_v2 v := PrimFloat.sqrt (v2_0 v * v2_0 v + v2_1 v * v2_1 v)%float;
  norm_2_v3 v :=
    PrimFloat.sqrt (v3_0 v * v3_0 v + v3_1 v * v3_1 v + v3_2 v * v3_2 v)%float;
  point_to_pixel cam p :=
    V2 (v3_0 p - v3_0 (adj_position_correction cam))%float
       (v3_1 p - v3_1 (adj_position_correction cam))%float;
  camera_center cam := adj_position_correction cam;
  camera_pose_euler cam :=
    V3 (q_x (adj_pose_correction cam)) (q_y (adj_pose_correction cam))
       (q_z (adj_pose_correction cam));
  axis_angle_angle q := q_x q;
  show_double_8 := show
}.

(** A solver script of three steps that never settles. *)
Definition never_settles : list Step :=
  replicate 3 (mkStep [] 1%float 1%float 1%float).

(** A machine whose network names camera 1, with one camera file given. *)
Definition bad_index_files : Files :=
  <["ba_test.cfg"%string := File EmptyString]>
    (<["data"%string := Directory]>
       (<["data/net.cnet"%string := File "1"]> ∅)).

(** A model of two cameras and three points, the second of them a ground
    control point, as the constructor leaves it. *)
Definition two_cameras : CameraVector := [PinholeModel "a.tsai"; PinholeModel "b.tsai"].

Definition three_points : ControlNetwork :=
  [mkPoint TiePoint (V3 1 2 3)%float
     [mkMeasure 0 1%float 2%float; mkMeasure 1 1%float 2%float];
   mkPoint GroundControlPoint (V3 4 5 6)%float [mkMeasure 1 4%float 5%float];
   mkPoint TiePoint (V3 7 8 9)%float []].

Definition three_point_model : BundleAdjustmentModel :=
  fresh_model two_cameras three_points 1%float 1%float 1%float 3.

(** An imaging library that reads the format of every file that is there as
    8-bit gray, and whose [do_work] writes the output and then throws. *)
#[export] Instance imaging_fails : Undistort.Imaging := {
  Undistort.image_format files p :=
    match files !! p with
    | Some _ => Ok (Undistort.VW_PIXEL_GRAY, Undistort.VW_CHANNEL_UINT8)
    | None => Throw (IOErr p)
    end;
  Undistort.create_out_dir p files := Ok files;
  Undistort.do_work pixel channel names files :=
    (<[Undistort.output_file_name names := File "partial"]> files,
     Some (IOErr "do_work"))
}.

Definition image_files : Files := <["in.png"%string := File "image"]> ∅.

Definition undistort_args : Undistort.Args :=
  Undistort.mkArgs false (Some "in.png"%string) (Some "cam.tsai"%string) None.

End Dump_inputs.

(** ** Vocabulary of the diagnostics *)

(** Whether a control point is a ground control point, and the number of
    measures of a network. *)
Definition is_ground_control (cp : ControlPoint) : bool :=
  match cp_type cp with
  | GroundControlPoint => true
  | TiePoint => false
  end.

Definition measure_count (network : ControlNetwork) : nat :=
  sum_list (map (fun cp => length (measures cp)) network).

(** * Theorems *)

(** ** Options *)

Lemma string_to_ba_type_default (s : string) :
  transform tolower s ∉ recognized -> string_to_ba_type s = (REF, transform tolower s).
Proof.
  intros Hnot. unfold string_to_ba_type.
  repeat match goal with
  | |- context [String.eqb ?x ?y] =>
      destruct (String.eqb_spec x y) as [Heq | _];
      [ exfalso; apply Hnot; rewrite Heq; unfold recognized; set_solver | ]
  end.
  reflexivity.
Qed.

(** What the options hold when [parse_options] returns them. *)
Lemma parse_options_Ok `{External} (opts : ProgramOptions) (cmd : Supplied)
    (files : Files) (config : ProgramOptions) :
  parse_options opts cmd files = Ok config ->
  let vm := variables_map cmd files in
  bundle_adjustment_type config
  = fst (string_to_ba_type (default "ref"%string (s_bundle_adjustment_type vm)))
  /\ remove_outliers config
     = (if defaulted (s_outlier_sd_cutoff vm)
        then default false (s_remove_outliers vm) else true)
  /\ max_iterations config = default 30 (s_max_iterations vm)
  /\ (control config = 0 \/ control config = 1).
Proof.
  unfold parse_options, variables_map.
  set (vm := store_all _ _). cbn zeta.
  destruct (s_help cmd); [discriminate|].
  destruct (negb (is_regular_file _ _)); [discriminate|].
  destruct (s_print_config vm); [discriminate|].
  destruct (negb (counted (s_cnet vm))); [discriminate|].
  destruct (length _ <? 1)%nat; [discriminate|].
  assert (Hc : negb (default 0 (s_control vm) =? 0)
               && negb (default 0 (s_control vm) =? 1) = false ->
               default 0 (s_control vm) = 0 \/ default 0 (s_control vm) = 1).
  { destruct (Z.eqb_spec (default 0 (s_control vm)) 0);
      destruct (Z.eqb_spec (default 0 (s_control vm)) 1); cbn; auto; discriminate. }
  destruct (negb _ && negb _); [discriminate|].
  specialize (Hc eq_refl).
  intros [= <-]. cbn [bundle_adjustment_type remove_outliers max_iterations control].
  repeat split; try reflexivity; try exact Hc.
  subst vm. cbn.
  destruct (first_of (s_outlier_sd_cutoff cmd) _); reflexivity.
Qed.

(** C10. A string that, lower-cased, is none of the recognized solver names
    makes [string_to_ba_type] return [REF]; and [parse_options] on a command
    line that gives such a string as bundle-adjustment-type behaves as on the
    same command line with "ref" in its place: no exit and no error comes
    from the misspelt name, and the options name the reference solver. *)
Theorem string_to_ba_type_unrecognized_is_REF (s : string) :
  transform tolower s ∉ recognized ->
  fst (string_to_ba_type s) = REF
  /\ forall (E : External) (opts : ProgramOptions) (cmd : Supplied) (files : Files),
       parse_options opts (with_ba_type (Some s) cmd) files
       = parse_options opts (with_ba_type (Some "ref"%string) cmd) files
       /\ forall config,
            parse_options opts (with_ba_type (Some s) cmd) files = Ok config ->
            bundle_adjustment_type config = REF.
Proof.
  intros Hnot.
  assert (Hs : fst (string_to_ba_type s) = REF)
    by (by rewrite string_to_ba_type_default).
  split; [exact Hs|].
  intros E opts cmd files.
  assert (Heq : parse_options opts (with_ba_type (Some s) cmd) files
                = parse_options opts (with_ba_type (Some "ref"%string) cmd) files).
  { unfold parse_options, store_all.
    cbn -[string_to_ba_type]. rewrite Hs. reflexivity. }
  split; [exact Heq|].
  intros config Hok.
  destruct (parse_options_Ok _ _ _ _ Hok) as (-> & _).
  unfold variables_map, store_all. cbn -[string_to_ba_type]. exact Hs.
Qed.

Lemma string_to_ba_type_unrecognized_witness :
  fst (string_to_ba_type "sprase") = REF
  /\ @parse_options (Scripted.machine 0 None) Inputs.blank_opts
       Inputs.misspelt_cmd Inputs.some_files
     = @parse_options (Scripted.machine 0 None) Inputs.blank_opts
         (with_ba_type (Some "ref"%string) Inputs.minimal_cmd) Inputs.some_files.
Proof.
  assert (Hnot : transform tolower "sprase" ∉ recognized).
  { unfold recognized. vm_compute. intros Hin.
    repeat (apply elem_of_cons in Hin as [Hin | Hin]; [discriminate Hin|]).
    by apply elem_of_nil in Hin. }
  destruct (string_to_ba_type_unrecognized_is_REF "sprase" Hnot) as [H1 H2].
  split; [exact H1|].
  exact (proj1 (H2 (Scripted.machine 0 None) Inputs.blank_opts Inputs.minimal_cmd
                  Inputs.some_files)).
Defined.

(** ** The shape of [adjust_bundles] *)

Section Fit_facts.
Context `{External} {A : Type} `{AdjusterT A}.

(** What a successful [adjust_bundles] went through. *)
Lemma adjust_bundles_Ok (fuel : nat) (strategy : Strategy)
    (ba_model : BundleAdjustmentModel) (cost_func : CostT)
    (config : ProgramOptions) (ba_type_str : string) (w : World) (out : Outcome) :
  adjust_bundles fuel strategy ba_model cost_func config ba_type_str w = Some (Ok out) ->
  exists fit1,
    first_pass fuel strategy ba_model cost_func config ba_type_str w = Some fit1
    /\ if remove_outliers config then
         exists w1 cnet m2 fit2,
           remove_outliers_step (path_join (data_dir config) (cnet_file config))
             ProcessedCnetFile (results_dir_of config) (outlier_sd_cutoff config)
             (fit_world fit1) = Ok w1
           /\ load_control_network
                (path_join (results_dir_of config) ProcessedCnetFile) (files w1)
              = Ok cnet
           /\ BundleAdjustmentModel_new (cameras (fit_model fit1)) cnet
                (camera_position_sigma config) (camera_pose_sigma config)
                (gcp_sigma config) = Ok m2
           /\ second_pass fuel strategy m2 cost_func config ba_type_str w1 = Some fit2
           /\ out = mkOutcome (fit_model fit2)
                      (set_control (control config) (fit_adjuster fit1))
                      (Some (fit_adjuster fit2)) (fit_world fit2)
       else out = mkOutcome (fit_model fit1) (fit_adjuster fit1) None (fit_world fit1).
Proof.
  unfold adjust_bundles, first_pass, first_pass_adjuster, first_pass_world.
  destruct (run_bundle_adjustment _ _ _ _ _ _ _ _) as [fit1|]; [|discriminate].
  intros Hout. exists fit1. split; [reflexivity|].
  destruct (remove_outliers config); [|by injection Hout as <-].
  unfold second_pass, second_pass_adjuster.
  destruct (remove_outliers_step _ _ _ _ _) as [w1| |] eqn:Hw1; cbn in Hout;
    try discriminate.
  destruct (load_control_network _ _) as [cnet| |] eqn:Hcnet; cbn in Hout;
    try discriminate.
  destruct (BundleAdjustmentModel_new _ _ _ _ _) as [m2| |] eqn:Hm2; cbn in Hout;
    try discriminate.
  destruct (run_bundle_adjustment _ _ _ _ _ _ _ _) as [fit2|] eqn:H2; [|discriminate].
  injection Hout as <-.
  exists w1, cnet, m2, fit2. repeat split; assumption || reflexivity.
Qed.

(** The second pass runs exactly when the options ask for outlier removal. *)
Lemma adjust_bundles_second_pass (fuel : nat) (strategy : Strategy)
    (ba_model : BundleAdjustmentModel) (cost_func : CostT)
    (config : ProgramOptions) (ba_type_str : string) (w : World) (out : Outcome) :
  adjust_bundles fuel strategy ba_model cost_func config ba_type_str w = Some (Ok out) ->
  is_Some (out_adjuster_no_outliers out) <-> remove_outliers config = true.
Proof.
  intros Hout. apply adjust_bundles_Ok in Hout as (fit1 & _ & Hrest).
  destruct (remove_outliers config).
  - destruct Hrest as (w1 & cnet & m2 & fit2 & _ & _ & _ & _ & ->). cbn.
    split; [reflexivity | by eexists].
  - subst out. cbn. split; [intros [x Hx]; discriminate Hx | discriminate].
Qed.

End Fit_facts.

(** C9. When [parse_options] returns the options: a cutoff for outliers given
    on the command line (or, more generally, by either source of options,
    any value) sets [remove_outliers], whether or not the switch was given;
    with no cutoff given and the switch absent or false, [remove_outliers]
    is false; and [adjust_bundles] runs its second pass exactly when
    [remove_outliers] is set. *)
Theorem outlier_sd_cutoff_implies_remove_outliers `{External}
    (opts : ProgramOptions) (cmd : Supplied) (files : Files)
    (config : ProgramOptions) :
  parse_options opts cmd files = Ok config ->
  (is_Some (s_outlier_sd_cutoff cmd) -> remove_outliers config = true)
  /\ (is_Some (s_outlier_sd_cutoff (variables_map cmd files)) ->
      remove_outliers config = true)
  /\ (s_outlier_sd_cutoff (variables_map cmd files) = None ->
      default false (s_remove_outliers (variables_map cmd files)) = false ->
      remove_outliers config = false)
  /\ forall (A : Type) (Adj : AdjusterT A) fuel strategy ba_model cost_func
       ba_type_str w (out : Outcome),
       adjust_bundles fuel strategy ba_model cost_func config ba_type_str w
       = Some (Ok out) ->
       is_Some (out_adjuster_no_outliers out) <-> remove_outliers config = true.
Proof.
  intros Hok.
  destruct (parse_options_Ok _ _ _ _ Hok) as (_ & Hrm & _).
  cbn zeta in Hrm.
  split; [|split; [|split]].
  - intros [v Hv]. rewrite Hrm. unfold variables_map, store_all; cbn.
    by rewrite Hv.
  - intros [v Hv]. rewrite Hrm. by rewrite Hv.
  - intros Hnone Hflag. rewrite Hrm. by rewrite Hnone.
  - intros A Adj fuel strategy ba_model cost_func ba_type_str w out Hout.
    by eapply adjust_bundles_second_pass.
Qed.

Lemma outlier_sd_cutoff_implies_remove_outliers_witness :
  exists config,
    @parse_options (Scripted.machine 0 None) Inputs.blank_opts Inputs.cutoff_cmd
      Inputs.some_files = Ok config
    /\ remove_outliers config = true.
Proof.
  eexists. split.
  - vm_compute. reflexivity.
  - refine (proj1 (@outlier_sd_cutoff_implies_remove_outliers
                     (Scripted.machine 0 None) Inputs.blank_opts Inputs.cutoff_cmd
                     Inputs.some_files _ _) _).
    + vm_compute. reflexivity.
    + vm_compute. by eexists.
Defined.

(** ** The constructor of the model *)

Section Loops.
Context {T : Type}.

(** A loop that writes [f i] into slot [i] for [i] below [k]. *)
Lemma fill_range (f : nat -> T) (l0 : list T) (k : nat) :
  (k <= length l0)%nat ->
  foldl (fun acc i => <[i := f i]> acc) l0 (seq 0 k) = map f (seq 0 k) ++ drop k l0.
Proof.
  induction k as [|k IH]; intros Hk.
  - reflexivity.
  - rewrite seq_S, foldl_app, map_app, IH by lia. cbn.
    assert (Hlen : length (map f (seq 0 k)) = k)
      by (by rewrite length_map, length_seq).
    rewrite insert_app_r_alt by lia. rewrite Hlen, Nat.sub_diag, <- app_assoc.
    f_equal.
    destruct (drop k l0) as [|x rest] eqn:Hdrop.
    + apply (f_equal length) in Hdrop. rewrite length_drop in Hdrop. cbn in Hdrop. lia.
    + cbn. f_equal.
      change rest with (drop 1 (x :: rest)). rewrite <- Hdrop, drop_drop.
      f_equal. lia.
Qed.

(** Two lists filled side by side. *)
Lemma fill_pair (f : nat -> T) (idx : list nat) (x0 y0 : list T) :
  foldl (fun acc i => (fun j '(x, y) => (<[j := f j]> x, <[j := f j]> y)) i acc)
    (x0, y0) idx
  = (foldl (fun acc i => <[i := f i]> acc) x0 idx,
     foldl (fun acc i => <[i := f i]> acc) y0 idx).
Proof.
  revert x0 y0. induction idx as [|i idx IH]; intros x0 y0; [reflexivity|].
  cbn. apply IH.
Qed.

Lemma map_lookup_total_seq `{Inhabited T} {U : Type} (g : T -> U) (l : list T) :
  map (fun i => g (l !!! i)) (seq 0 (length l)) = map g l.
Proof.
  apply list_eq. intros i.
  change (map ?h ?x) with (h <$> x).
  rewrite !list_lookup_fmap.
  destruct (decide (i < length l)%nat) as [Hlt|Hge].
  - rewrite lookup_seq_lt by done. cbn.
    destruct (lookup_lt_is_Some_2 l i Hlt) as [x Hx].
    rewrite Hx. cbn. by rewrite (list_lookup_total_correct l i x Hx).
  - rewrite lookup_seq_ge by lia. rewrite lookup_ge_None_2 by lia. reflexivity.
Qed.

Lemma map_const_seq (d : T) (n : nat) : map (fun _ => d) (seq 0 n) = replicate n d.
Proof.
  generalize 0%nat. induction n as [|n IH]; intros k; [reflexivity|].
  cbn. f_equal. apply IH.
Qed.

End Loops.

Lemma check_measures_spec (n : nat) (ms : list ControlMeasure) :
  match check_measures (Z.of_nat n) ms with
  | Ok _ => Forall (fun cm => (image_id cm < n)%nat) ms
  | Throw e =>
      ~ Forall (fun cm => (image_id cm < n)%nat) ms
      /\ e = ArgumentErr invalid_control_point
  | Exit _ => False
  end.
Proof.
  induction ms as [|j rest IH]; cbn.
  - constructor.
  - destruct (Z.ltb_spec (Z.of_nat (image_id j)) (Z.of_nat n)) as [Hlt|Hge].
    + destruct (check_measures (Z.of_nat n) rest) as [u|e|c]; [| |done].
      * constructor; [lia|done].
      * destruct IH as [Hnot ->]. split; [|done].
        intros Hall. apply Hnot. by apply Forall_inv_tail in Hall.
    + split; [|done]. intros Hall. apply Forall_inv in Hall. lia.
Qed.

Lemma check_network_spec (n : nat) (network : ControlNetwork) :
  match check_network (Z.of_nat n) network with
  | Ok _ => indices_in_range n network
  | Throw e => ~ indices_in_range n network /\ e = ArgumentErr invalid_control_point
  | Exit _ => False
  end.
Proof.
  unfold indices_in_range.
  induction network as [|i rest IH]; cbn.
  - constructor.
  - pose proof (check_measures_spec n (measures i)) as Hm.
    destruct (check_measures (Z.of_nat n) (measures i)) as [u|e|c]; cbn; [| |done].
    + destruct (check_network (Z.of_nat n) rest) as [u'|e|c]; [| |done].
      * by constructor.
      * destruct IH as [Hnot ->]. split; [|done].
        intros Hall. apply Hnot. by apply Forall_inv_tail in Hall.
    + destruct Hm as [Hnot ->]. split; [|done].
      intros Hall. apply Hnot. by apply Forall_inv in Hall.
Qed.

Lemma BundleAdjustmentModel_new_check (cameras : CameraVector)
    (network : ControlNetwork) (s1 s2 s3 : float) :
  BundleAdjustmentModel_new cameras network s1 s2 s3
  = (_ <- check_network (Z.of_nat (length cameras)) network ;;
     Ok (fresh_model cameras network s1 s2 s3
           (for_range (length network)
              (fun i n => n + Z.of_nat (length (measures (network !!! i)))) 0))).
Proof.
  unfold BundleAdjustmentModel_new, fresh_model.
  destruct (check_network _ _) as [u|e|c]; cbn; [|done|done].
  unfold for_range.
  rewrite (fill_pair (fun _ => camera_vector_default)).
  rewrite (fill_pair (fun i => cp_position (network !!! i))).
  rewrite !fill_range by (by rewrite length_replicate).
  rewrite !drop_replicate, !Nat.sub_diag. cbn [replicate].
  rewrite !app_nil_r, map_const_seq, (map_lookup_total_seq cp_position).
  reflexivity.
Qed.

Lemma BundleAdjustmentModel_new_Ok (cameras : CameraVector)
    (network : ControlNetwork) (s1 s2 s3 : float) (m : BundleAdjustmentModel) :
  BundleAdjustmentModel_new cameras network s1 s2 s3 = Ok m ->
  indices_in_range (length cameras) network
  /\ exists n, m = fresh_model cameras network s1 s2 s3 n.
Proof.
  rewrite BundleAdjustmentModel_new_check.
  pose proof (check_network_spec (length cameras) network) as Hc.
  destruct (check_network _ _) as [u|e|c]; cbn; [|done|done].
  intros [= <-]. split; [done|]. by eexists.
Qed.

(** C5. The constructor succeeds exactly on the inputs whose observations
    all name a camera of the list. When they do, it returns a model bound to
    the cameras and the network as given (no observation is changed or
    dropped), with parameter and target arrays of the size of the camera
    list and of the network. When one does not, it throws [ArgumentErr]. *)
Theorem BundleAdjustmentModel_new_range_check (cameras : CameraVector)
    (network : ControlNetwork) (s1 s2 s3 : float) :
  (indices_in_range (length cameras) network ->
   exists m,
     BundleAdjustmentModel_new cameras network s1 s2 s3 = Ok m
     /\ m_cameras m = cameras /\ control_network m = network
     /\ indices_in_range (num_cameras m) (control_network m)
     /\ num_cameras m = length cameras /\ num_points m = length network
     /\ length (a_target m) = length cameras
     /\ length (b_target m) = length network)
  /\ (~ indices_in_range (length cameras) network ->
      BundleAdjustmentModel_new cameras network s1 s2 s3
      = Throw (ArgumentErr invalid_control_point))
  /\ (forall m, BundleAdjustmentModel_new cameras network s1 s2 s3 = Ok m ->
      indices_in_range (length cameras) network).
Proof.
  rewrite BundleAdjustmentModel_new_check.
  pose proof (check_network_spec (length cameras) network) as Hc.
  destruct (check_network _ _) as [u|e|c]; cbn; [| |done].
  - split; [|split; [done|done]].
    intros _. eexists. split; [reflexivity|].
    unfold num_cameras, num_points, control_network, fresh_model; cbn.
    rewrite !length_replicate, !length_map. done.
  - destruct Hc as [Hnot ->]. split; [done|]. split; [done|]. discriminate.
Qed.

(** ** Precision matrices *)

(** C7. For every camera index [j] and point index [i], the camera
    precision matrix is the 6 by 6 diagonal matrix whose first three entries
    are [1/pow(camera position sigma, 2)] and whose last three are
    [1/pow(camera pose sigma, 2)], and the point precision matrix is the 3 by
    3 diagonal matrix of [1/pow(gcp sigma, 2)]; both are functions of the
    sigma fields the model holds at the call, and of nothing else. *)
Theorem inverse_covariance_diagonal `{External} (m : BundleAdjustmentModel)
    (j i : nat) :
  let p := (Double.one / pow (m_camera_position_sigma m) 2)%float in
  let q := (Double.one / pow (m_camera_pose_sigma m) 2)%float in
  let g := (Double.one / pow (m_gcp_sigma m) 2)%float in
  A_inverse_covariance m j = diagonal [p; p; p; q; q; q]
  /\ B_inverse_covariance m i = diagonal [g; g; g]
  /\ (forall r c, (r < 6)%nat -> (c < 6)%nat ->
      mat_get (A_inverse_covariance m j) r c
      = if (r =? c)%nat then (if (r <? 3)%nat then p else q) else Double.zero)
  /\ (forall r c, (r < 3)%nat -> (c < 3)%nat ->
      mat_get (B_inverse_covariance m i) r c
      = if (r =? c)%nat then g else Double.zero)
  /\ (forall m', m_camera_position_sigma m' = m_camera_position_sigma m ->
      m_camera_pose_sigma m' = m_camera_pose_sigma m ->
      m_gcp_sigma m' = m_gcp_sigma m ->
      forall j' i', A_inverse_covariance m' j' = A_inverse_covariance m j
                    /\ B_inverse_covariance m' i' = B_inverse_covariance m i).
Proof.
  cbn zeta. split; [reflexivity|]. split; [reflexivity|].
  split; [|split].
  - intros r c Hr Hc.
    do 6 (destruct r as [|r]; [do 6 (destruct c as [|c]; [reflexivity|]); lia|]).
    lia.
  - intros r c Hr Hc.
    do 3 (destruct r as [|r]; [do 3 (destruct c as [|c]; [reflexivity|]); lia|]).
    lia.
  - intros m' H1 H2 H3 j' i'.
    unfold A_inverse_covariance, B_inverse_covariance.
    rewrite H1, H2, H3. done.
Qed.

(** ** The iteration loop *)

Section Loop_facts.
Context `{External} {A : Type} `{AdjusterT A}.

Lemma stops_loop (max_iter : Z) (st : LoopState) :
  stops max_iter st
  = negb (Double.truthy (l_delta st))
    || loop_break (l_adjuster st) max_iter (l_abs_tol st) (l_rel_tol st).
Proof.
  unfold stops, loop_break. by rewrite !orb_assoc.
Qed.

(** What the loop returns, when it returns: the state after [n] steps,
    where [n] is the first number of steps at which the stop condition
    holds. *)
Lemma run_loop_Some (results_dir : path) (max_iter : Z) (save : bool)
    (fuel : nat) (st : LoopState) (w : World) (fit : Fit) :
  run_loop fuel (l_adjuster st) (l_model st) results_dir max_iter save
    (l_abs_tol st) (l_rel_tol st) (l_delta st) w = Some fit ->
  exists n,
    (n <= fuel)%nat
    /\ fit = mkFit (l_adjuster (advance n st)) (l_model (advance n st))
               (world_after results_dir save n st w)
    /\ stops max_iter (advance n st) = true
    /\ forall k, (k < n)%nat -> stops max_iter (advance k st) = false.
Proof.
  revert st w. induction fuel as [|fuel IH]; intros st w; cbn [run_loop];
    pose proof (stops_loop max_iter st) as Hstop;
    destruct (Double.truthy (l_delta st)); cbn in Hstop;
    try destruct (loop_break _ _ _ _); try discriminate;
    try (intros [= <-]; exists 0%nat; cbn;
         repeat split; [lia | done | intros k Hk; lia]).
  intros Hrun.
  apply (IH (loop_next st)) in Hrun as (n & Hn & -> & Hs & Hbefore).
  exists (S n). cbn. repeat split; [lia | done |].
  intros [|k] Hk; cbn; [done|]. apply Hbefore. lia.
Qed.

Lemma calls_world_after (results_dir : path) (save : bool) (n : nat)
    (st : LoopState) (w : World) :
  calls (world_after results_dir save n st w) = calls w ++ replicate n CallUpdate.
Proof.
  revert st w. induction n as [|n IH]; intros st w; cbn.
  - by rewrite app_nil_r.
  - rewrite IH. destruct save; cbn; by rewrite <- app_assoc.
Qed.

Context `{!AdjusterLaws A}.

Lemma iterations_advance (n : nat) (st : LoopState) :
  iterations (l_adjuster (advance n st)) = iterations (l_adjuster st) + Z.of_nat n.
Proof.
  revert st. induction n as [|n IH]; intros st; cbn [advance].
  - lia.
  - rewrite IH. unfold loop_next; cbn. rewrite iterations_update. lia.
Qed.

(** With the fuel the iteration budget asks for, the loop returns. *)
Lemma run_loop_total (results_dir : path) (max_iter : Z) (save : bool)
    (fuel : nat) (st : LoopState) (w : World) :
  (Z.to_nat (max_iter - iterations (l_adjuster st)) <= fuel)%nat ->
  is_Some (run_loop fuel (l_adjuster st) (l_model st) results_dir max_iter save
             (l_abs_tol st) (l_rel_tol st) (l_delta st) w).
Proof.
  revert st w. induction fuel as [|fuel IH]; intros st w Hfuel; cbn [run_loop];
    destruct (Double.truthy (l_delta st)); try (by eexists);
    unfold loop_break;
    destruct (Z.geb_spec (iterations (l_adjuster st)) max_iter) as [Hge|Hlt];
    cbn [orb]; try (by eexists); try lia.
  destruct (_ || _); [by eexists|].
  apply (IH (loop_next st)). unfold loop_next; cbn.
  rewrite iterations_update. lia.
Qed.

(** The number of steps is within the budget that is left. *)
Lemma steps_within_budget (max_iter : Z) (n : nat) (st : LoopState) :
  (forall k, (k < n)%nat -> stops max_iter (advance k st) = false) ->
  (n <= Z.to_nat (max_iter - iterations (l_adjuster st)))%nat.
Proof.
  intros Hbefore. destruct n as [|n]; [lia|].
  specialize (Hbefore n (Nat.lt_succ_diag_r n)).
  unfold stops in Hbefore.
  apply orb_false_elim in Hbefore as [Hbefore _].
  apply orb_false_elim in Hbefore as [Hbefore _].
  apply orb_false_elim in Hbefore as [_ Hit].
  rewrite iterations_advance in Hit.
  destruct (Z.geb_spec (iterations (l_adjuster st) + Z.of_nat n) max_iter);
    [discriminate|lia].
Qed.

End Loop_facts.

Lemma count_calls_app (p : Call -> bool) (xs ys : list Call) :
  count_calls p (xs ++ ys) = (count_calls p xs + count_calls p ys)%nat.
Proof.
  unfold count_calls. by rewrite filter_app, length_app.
Qed.

Lemma count_calls_updates (p : Call -> bool) (n : nat) :
  count_calls p (replicate n CallUpdate)
  = if p CallUpdate then n else 0%nat.
Proof.
  unfold count_calls. induction n as [|n IH]; cbn [replicate].
  - by destruct (p CallUpdate).
  - rewrite filter_cons. destruct (p CallUpdate) eqn:Hp.
    + rewrite decide_True by done. cbn. by rewrite IH.
    + rewrite decide_False by congruence. done.
Qed.

(** C2. Given the fuel the budget asks for, [run_bundle_adjustment] returns
    after some number [n] of update steps, where [n] is at most the budget
    left (at most [max_iter] for a solver that has made no iteration), the
    stop condition (zero delta, or iteration count at [max_iter], or a
    tolerance below 1e-3) holds after [n] steps and after no smaller number
    of steps, and the calls made are [n] updates followed by one
    [end_tie_in]. *)
Theorem run_bundle_adjustment_stops `{External} {A : Type} `{AdjusterT A}
    `{!AdjusterLaws A} (fuel : nat) (adjuster : A) (model : BundleAdjustmentModel)
    (reporter : Reporter) (results_dir : path) (max_iter : Z) (save : bool)
    (w : World) :
  (Z.to_nat (max_iter - iterations adjuster) <= fuel)%nat ->
  exists n fit,
    run_bundle_adjustment fuel adjuster model reporter results_dir max_iter save w
    = Some fit
    /\ (n <= Z.to_nat (max_iter - iterations adjuster))%nat
    /\ (iterations adjuster = 0 -> (n <= Z.to_nat max_iter)%nat)
    /\ stops max_iter (advance n (loop_start adjuster model)) = true
    /\ (forall k, (k < n)%nat ->
        stops max_iter (advance k (loop_start adjuster model)) = false)
    /\ fit_adjuster fit = l_adjuster (advance n (loop_start adjuster model))
    /\ fit_model fit = l_model (advance n (loop_start adjuster model))
    /\ calls (fit_world fit)
       = calls w ++ replicate n CallUpdate ++ [CallEndTieIn (title reporter)]
    /\ count_calls is_update (calls (fit_world fit))
       = (count_calls is_update (calls w) + n)%nat
    /\ count_calls is_end_tie_in (calls (fit_world fit))
       = (count_calls is_end_tie_in (calls w) + 1)%nat.
Proof.
  intros Hfuel. unfold run_bundle_adjustment.
  destruct (run_loop_total results_dir max_iter save fuel
              (loop_start adjuster model) w Hfuel) as [fit Hrun].
  cbn in Hrun. rewrite Hrun.
  apply (run_loop_Some results_dir max_iter save fuel (loop_start adjuster model))
    in Hrun as (n & Hn & -> & Hstop & Hbefore).
  pose proof (steps_within_budget max_iter n _ Hbefore) as Hbudget.
  cbn in Hbudget.
  exists n. eexists. split; [reflexivity|]. cbn.
  rewrite calls_world_after, <- app_assoc.
  rewrite !count_calls_app, !count_calls_updates. cbn.
  change (count_calls is_update [CallEndTieIn (title reporter)]) with 0%nat.
  change (count_calls is_end_tie_in [CallEndTieIn (title reporter)]) with 1%nat.
  repeat split; try done; try lia.
Qed.

Lemma run_bundle_adjustment_stops_witness :
  exists n fit,
    @run_bundle_adjustment (Scripted.machine 0 None) Scripted.Solver
      (Scripted.adjuster Inputs.two_steps) 30 Inputs.new_solver Inputs.one_model
      (mkReporter "Reference" 35) "results" 30 true Inputs.some_world = Some fit
    /\ (n <= 30)%nat
    /\ count_calls is_end_tie_in (calls (fit_world fit)) = 1%nat.
Proof.
  destruct (@run_bundle_adjustment_stops (Scripted.machine 0 None) Scripted.Solver
              (Scripted.adjuster Inputs.two_steps) (Scripted.laws Inputs.two_steps)
              30 Inputs.new_solver Inputs.one_model
              (mkReporter "Reference" 35) "results" 30 true Inputs.some_world)
    as (n & fit & Hrun & Hn & _ & _ & _ & _ & _ & _ & _ & Hend).
  - vm_compute. lia.
  - exists n, fit. split; [exact Hrun|]. split; [exact Hn | exact Hend].
Defined.

(** ** Snapshots *)

Lemma string_app_assoc (s t u : string) : ((s ++ t) ++ u = s ++ (t ++ u))%string.
Proof.
  induction s as [|c s IH]; [reflexivity|].
  change (String c ((s ++ t) ++ u) = String c (s ++ (t ++ u)))%string.
  by rewrite IH.
Qed.

Lemma string_app_nil_r (s : string) : (s ++ EmptyString)%string = s.
Proof.
  induction s as [|c s IH]; [reflexivity|].
  change (String c (s ++ EmptyString) = String c s)%string.
  by rewrite IH.
Qed.

Lemma string_app_inv_head (s t u : string) : (s ++ t = s ++ u)%string -> t = u.
Proof.
  induction s as [|c s IH]; [done|].
  change (String c (s ++ t) = String c (s ++ u) -> t = u)%string.
  intros [= Heq]. by apply IH.
Qed.

Lemma report_files_differ (dir : path) :
  path_join dir CameraParamsReportFile <> path_join dir PointsReportFile.
Proof.
  unfold path_join. destruct (String.eqb dir EmptyString); [discriminate|].
  intros Heq. apply string_app_inv_head in Heq. discriminate Heq.
Qed.

(** Writing a file makes and removes no directory, so a stream opens after a
    write exactly when it opened before. *)
Lemma opens_not_directory (files : Files) (p : path) :
  opens files p = true -> is_directory files p = false.
Proof.
  unfold opens. intros Hopen.
  apply andb_true_iff in Hopen as [_ Hdir]. by apply negb_true_iff.
Qed.

Lemma is_directory_insert_file (q : path) (text : string) (files : Files)
    (d : path) :
  is_directory files q = false ->
  is_directory (<[q := File text]> files) d = is_directory files d.
Proof.
  intros Hq. unfold is_directory. destruct (decide (q = d)) as [<-|Hne].
  - rewrite lookup_insert_eq. exact (eq_sym Hq).
  - by rewrite lookup_insert_ne.
Qed.

Lemma opens_insert_file (q : path) (text : string) (files : Files) (p : path) :
  is_directory files q = false ->
  opens (<[q := File text]> files) p = opens files p.
Proof.
  intros Hq. unfold opens. by rewrite !is_directory_insert_file.
Qed.

Lemma opens_append_file (q : path) (text : string) (files : Files) (p : path) :
  opens (append_file q text files) p = opens files p.
Proof.
  unfold append_file. destruct (opens files q) eqn:Hq; [|done].
  by apply opens_insert_file, opens_not_directory.
Qed.

Lemma opens_truncate_file (q : path) (files : Files) (p : path) :
  opens (truncate_file q files) p = opens files p.
Proof.
  unfold truncate_file. destruct (opens files q) eqn:Hq; [|done].
  by apply opens_insert_file, opens_not_directory.
Qed.

Lemma has_char_app (c : ascii) (s t : string) :
  has_char c (s ++ t) = has_char c s || has_char c t.
Proof.
  induction s as [|d s IH]; [done|].
  change (has_char c (String d (s ++ t))
          = has_char c (String d s) || has_char c t).
  cbn [has_char]. by rewrite IH, orb_assoc.
Qed.

(** The parent path of a name in a directory is the directory. *)
Lemma parent_path_join (dir file : path) :
  dir <> EmptyString ->
  has_char "/" file = false ->
  parent_path (path_join dir file) = dir.
Proof.
  intros Hdir Hfile. unfold path_join.
  destruct (String.eqb_spec dir EmptyString) as [|_]; [done|]. clear Hdir.
  induction dir as [|c dir IH].
  - change (parent_path (String "/" file) = EmptyString).
    cbn [parent_path]. by rewrite Hfile.
  - change (parent_path (String c (dir ++ "/" ++ file)) = String c dir).
    cbn [parent_path]. rewrite has_char_app.
    change (has_char "/" ("/" ++ file)) with (true || has_char "/" file).
    rewrite orb_true_r. by rewrite IH.
Qed.

(** No stream opens in a directory that is not there. *)
Lemma opens_missing_directory (files : Files) (dir file : path) :
  dir <> EmptyString ->
  has_char "/" file = false ->
  is_directory files dir = false ->
  opens files (path_join dir file) = false.
Proof.
  intros Hdir Hfile Hmissing. unfold opens.
  rewrite parent_path_join by done. rewrite Hmissing.
  destruct (String.eqb_spec dir EmptyString) as [|_]; [done|].
  cbn. by rewrite andb_false_r.
Qed.

Lemma lookup_append_file (p q : path) (text : string) (files : Files) :
  append_file p text files !! q
  = if decide (p = q)
    then (if opens files p then Some (File (content files p ++ text))
          else files !! p)
    else files !! q.
Proof.
  unfold append_file. destruct (decide (p = q)) as [<-|Hne].
  - destruct (opens files p); [by rewrite lookup_insert_eq|done].
  - destruct (opens files p); [by rewrite lookup_insert_ne|done].
Qed.

Lemma lookup_truncate_file (p q : path) (files : Files) :
  truncate_file p files !! q
  = if decide (p = q)
    then (if opens files p then Some (File EmptyString) else files !! p)
    else files !! q.
Proof.
  unfold truncate_file. destruct (decide (p = q)) as [<-|Hne].
  - destruct (opens files p); [by rewrite lookup_insert_eq|done].
  - destruct (opens files p); [by rewrite lookup_insert_ne|done].
Qed.

Lemma gather_range {T : Type} (h : nat -> list T) (init : list T) (k : nat) :
  foldl (fun acc i => acc ++ h i) init (seq 0 k) = init ++ concat (map h (seq 0 k)).
Proof.
  induction k as [|k IH].
  - cbn. by rewrite app_nil_r.
  - rewrite seq_S, foldl_app, map_app, concat_app, IH. cbn.
    by rewrite !app_nil_r, app_assoc.
Qed.

Lemma map_lookup_total_imap {T U : Type} `{Inhabited T} (g : nat -> T -> U)
    (l : list T) :
  map (fun i => g i (l !!! i)) (seq 0 (length l)) = imap g l.
Proof.
  apply list_eq. intros i.
  change (map ?h ?x) with (h <$> x).
  rewrite list_lookup_fmap, list_lookup_imap.
  destruct (decide (i < length l)%nat) as [Hlt|Hge].
  - rewrite lookup_seq_lt by done. cbn.
    destruct (lookup_lt_is_Some_2 l i Hlt) as [x Hx].
    rewrite Hx. cbn. by rewrite (list_lookup_total_correct l i x Hx).
  - rewrite lookup_seq_ge by lia. rewrite lookup_ge_None_2 by lia. reflexivity.
Qed.

Section Snapshot_facts.
Context `{External}.

Lemma camera_snapshot_rows (m : BundleAdjustmentModel) :
  camera_snapshot m = concat (imap camera_rows (a m)).
Proof.
  unfold camera_snapshot, for_range.
  rewrite (gather_range (fun j => camera_rows j (a m !!! j))). cbn [app].
  by rewrite (map_lookup_total_imap camera_rows).
Qed.

Lemma point_snapshot_rows (m : BundleAdjustmentModel) :
  point_snapshot m = imap point_row (b m).
Proof.
  unfold point_snapshot, for_range.
  rewrite (gather_range (fun i => [point_row i (b m !!! i)])). cbn [app].
  rewrite <- (map_lookup_total_imap point_row).
  induction (seq 0 (length (b m))) as [|i rest IH]; cbn; [done|]. by rewrite IH.
Qed.

End Snapshot_facts.

Section Snapshot_loop.
Context `{External} {A : Type} `{AdjusterT A}.

(** The loop reaches the first number of steps at which it stops. *)
Lemma run_loop_reaches (results_dir : path) (max_iter : Z) (save : bool)
    (n fuel : nat) (st : LoopState) (w : World) :
  (n <= fuel)%nat ->
  stops max_iter (advance n st) = true ->
  (forall k, (k < n)%nat -> stops max_iter (advance k st) = false) ->
  run_loop fuel (l_adjuster st) (l_model st) results_dir max_iter save
    (l_abs_tol st) (l_rel_tol st) (l_delta st) w
  = Some (mkFit (l_adjuster (advance n st)) (l_model (advance n st))
            (world_after results_dir save n st w)).
Proof.
  revert fuel st w. induction n as [|n IH]; intros fuel st w Hfuel Hstop Hbefore.
  - cbn in Hstop. rewrite stops_loop in Hstop.
    destruct fuel; cbn [run_loop advance world_after];
      destruct (Double.truthy (l_delta st)); cbn in Hstop; try done;
      by rewrite Hstop.
  - destruct fuel as [|fuel]; [lia|].
    pose proof (Hbefore 0%nat (Nat.lt_0_succ n)) as Hfirst.
    cbn in Hfirst. rewrite stops_loop in Hfirst.
    apply orb_false_elim in Hfirst as [Htruthy Hbreak].
    apply negb_false_iff in Htruthy.
    cbn [run_loop advance world_after]. rewrite Htruthy, Hbreak.
    apply (IH fuel (loop_next st)); [lia | done |].
    intros k Hk. apply (Hbefore (S k)). lia.
Qed.

Lemma files_world_after_unsaved (results_dir : path) (n : nat)
    (st : LoopState) (w : World) :
  files (world_after results_dir false n st w) = files w.
Proof.
  revert st w. induction n as [|n IH]; intros st w; cbn; [done|]. by rewrite IH.
Qed.

(** One snapshot of the two files. *)
Lemma opens_save_iteration (results_dir : path) (m : BundleAdjustmentModel)
    (w : World) (p : path) :
  opens (files (save_iteration results_dir m w)) p = opens (files w) p.
Proof.
  unfold save_iteration, write_points_append, write_adjusted_cameras_append.
  cbn [with_files files]. by rewrite !opens_append_file.
Qed.

Lemma lookup_save_iteration_cameras (results_dir : path)
    (m : BundleAdjustmentModel) (w : World) :
  files (save_iteration results_dir m w)
    !! path_join results_dir CameraParamsReportFile
  = if opens (files w) (path_join results_dir CameraParamsReportFile)
    then Some (File (content (files w)
                       (path_join results_dir CameraParamsReportFile)
                     ++ render_rows (camera_snapshot m)))
    else files w !! path_join results_dir CameraParamsReportFile.
Proof.
  unfold save_iteration, write_points_append, write_adjusted_cameras_append.
  cbn [with_files files]. rewrite !lookup_append_file.
  rewrite decide_False by (intros Heq; by apply (report_files_differ results_dir)).
  by rewrite decide_True.
Qed.

Lemma lookup_save_iteration_points (results_dir : path)
    (m : BundleAdjustmentModel) (w : World) :
  files (save_iteration results_dir m w) !! path_join results_dir PointsReportFile
  = if opens (files w) (path_join results_dir PointsReportFile)
    then Some (File (content (files w) (path_join results_dir PointsReportFile)
                     ++ render_rows (point_snapshot m)))
    else files w !! path_join results_dir PointsReportFile.
Proof.
  unfold save_iteration, write_points_append, write_adjusted_cameras_append.
  cbn [with_files files]. rewrite lookup_append_file, decide_True by done.
  rewrite opens_append_file. unfold content at 1.
  rewrite lookup_append_file.
  by rewrite decide_False by apply report_files_differ.
Qed.

Lemma opens_world_after (results_dir : path) (save : bool) (n : nat)
    (st : LoopState) (w : World) (p : path) :
  opens (files (world_after results_dir save n st w)) p = opens (files w) p.
Proof.
  revert st w. induction n as [|n IH]; intros st w; cbn [world_after]; [done|].
  rewrite IH. destruct save; [|done]. by rewrite opens_save_iteration.
Qed.

Lemma content_world_after_cameras (results_dir : path) (n : nat)
    (st : LoopState) (w : World) :
  opens (files w) (path_join results_dir CameraParamsReportFile) = true ->
  content (files (world_after results_dir true n st w))
    (path_join results_dir CameraParamsReportFile)
  = (content (files w) (path_join results_dir CameraParamsReportFile)
     ++ camera_text n st)%string.
Proof.
  revert st w. induction n as [|n IH]; intros st w Hopen;
    cbn [world_after camera_text].
  - by rewrite string_app_nil_r.
  - rewrite IH by (by rewrite opens_save_iteration).
    unfold content at 1. rewrite lookup_save_iteration_cameras.
    cbn [record_call files]. rewrite Hopen.
    by rewrite string_app_assoc.
Qed.

Lemma content_world_after_points (results_dir : path) (n : nat)
    (st : LoopState) (w : World) :
  opens (files w) (path_join results_dir PointsReportFile) = true ->
  content (files (world_after results_dir true n st w))
    (path_join results_dir PointsReportFile)
  = (content (files w) (path_join results_dir PointsReportFile)
     ++ point_text n st)%string.
Proof.
  revert st w. induction n as [|n IH]; intros st w Hopen;
    cbn [world_after point_text].
  - by rewrite string_app_nil_r.
  - rewrite IH by (by rewrite opens_save_iteration).
    unfold content at 1. rewrite lookup_save_iteration_points.
    cbn [record_call files]. rewrite Hopen.
    by rewrite string_app_assoc.
Qed.

(** When neither stream opens, no file is made or changed. *)
Lemma files_world_after_closed (results_dir : path) (n : nat)
    (st : LoopState) (w : World) :
  opens (files w) (path_join results_dir CameraParamsReportFile) = false ->
  opens (files w) (path_join results_dir PointsReportFile) = false ->
  files (world_after results_dir true n st w) = files w.
Proof.
  revert st w. induction n as [|n IH]; intros st w Hcam Hpts;
    cbn [world_after]; [done|].
  assert (Hstep : files (save_iteration results_dir (l_model (loop_next st))
                           (record_call CallUpdate w)) = files w).
  { unfold save_iteration, write_points_append, write_adjusted_cameras_append.
    cbn [with_files record_call files]. unfold append_file at 2.
    rewrite Hcam. unfold append_file. by rewrite Hpts. }
  rewrite IH by (by rewrite opens_save_iteration). exact Hstep.
Qed.

(** A report file whose stream does not open is left as it is. *)
Lemma lookup_world_after_cameras_closed (results_dir : path) (n : nat)
    (st : LoopState) (w : World) :
  opens (files w) (path_join results_dir CameraParamsReportFile) = false ->
  files (world_after results_dir true n st w)
    !! path_join results_dir CameraParamsReportFile
  = files w !! path_join results_dir CameraParamsReportFile.
Proof.
  revert st w. induction n as [|n IH]; intros st w Hclosed;
    cbn [world_after]; [done|].
  rewrite IH by (by rewrite opens_save_iteration).
  rewrite lookup_save_iteration_cameras. cbn [record_call files].
  by rewrite Hclosed.
Qed.

Lemma lookup_world_after_points_closed (results_dir : path) (n : nat)
    (st : LoopState) (w : World) :
  opens (files w) (path_join results_dir PointsReportFile) = false ->
  files (world_after results_dir true n st w)
    !! path_join results_dir PointsReportFile
  = files w !! path_join results_dir PointsReportFile.
Proof.
  revert st w. induction n as [|n IH]; intros st w Hclosed;
    cbn [world_after]; [done|].
  rewrite IH by (by rewrite opens_save_iteration).
  rewrite lookup_save_iteration_points. cbn [record_call files].
  by rewrite Hclosed.
Qed.

End Snapshot_loop.

(** C6, as the code has it. With snapshots on, a loop that returns after
    [n] update steps has appended to the camera file, after each step, the
    rows of every camera of the model as it is then: six rows per camera,
    each indexed by the camera, the first holding the translation
    correction; and to the point file one row per point, indexed by the
    point, holding the point parameters. This is so of a file whose stream
    opens, which it does when the results directory is there; the streams
    are not checked, and a file whose stream does not open is left as it
    is: when the results directory is not there, no file is made or
    changed. The same loop with snapshots off returns the same solver and model
    after the same updates, and leaves the files alone. *)
Theorem snapshots_append_rows `{External} {A : Type} `{AdjusterT A}
    (results_dir : path) (max_iter : Z) (fuel : nat) (st : LoopState)
    (w : World) (fit : Fit) :
  run_loop fuel (l_adjuster st) (l_model st) results_dir max_iter true
    (l_abs_tol st) (l_rel_tol st) (l_delta st) w = Some fit ->
  exists n,
    fit_adjuster fit = l_adjuster (advance n st)
    /\ fit_model fit = l_model (advance n st)
    /\ calls (fit_world fit) = calls w ++ replicate n CallUpdate
    /\ (opens (files w) (path_join results_dir CameraParamsReportFile) = true ->
        content (files (fit_world fit))
          (path_join results_dir CameraParamsReportFile)
        = (content (files w) (path_join results_dir CameraParamsReportFile)
           ++ camera_text n st)%string)
    /\ (opens (files w) (path_join results_dir PointsReportFile) = true ->
        content (files (fit_world fit)) (path_join results_dir PointsReportFile)
        = (content (files w) (path_join results_dir PointsReportFile)
           ++ point_text n st)%string)
    /\ (opens (files w) (path_join results_dir CameraParamsReportFile) = false ->
        files (fit_world fit) !! path_join results_dir CameraParamsReportFile
        = files w !! path_join results_dir CameraParamsReportFile)
    /\ (opens (files w) (path_join results_dir PointsReportFile) = false ->
        files (fit_world fit) !! path_join results_dir PointsReportFile
        = files w !! path_join results_dir PointsReportFile)
    /\ (results_dir <> EmptyString ->
        is_directory (files w) results_dir = false ->
        files (fit_world fit) = files w)
    /\ (forall m, camera_snapshot m = concat (imap camera_rows (a m))
                  /\ point_snapshot m = imap point_row (b m))
    /\ (forall j a_j,
          length (camera_rows j a_j) = 6%nat
          /\ Forall (fun r => row_index r = j) (camera_rows j a_j)
          /\ head (camera_rows j a_j) = Some (mkRow j (subvector_0_3 a_j)))
    /\ (forall i b_i, point_row i b_i = mkRow i b_i)
    /\ forall w',
         exists fit',
           run_loop fuel (l_adjuster st) (l_model st) results_dir max_iter false
             (l_abs_tol st) (l_rel_tol st) (l_delta st) w' = Some fit'
           /\ fit_adjuster fit' = fit_adjuster fit
           /\ fit_model fit' = fit_model fit
           /\ calls (fit_world fit') = calls w' ++ replicate n CallUpdate
           /\ files (fit_world fit') = files w'.
Proof.
  intros Hrun.
  apply run_loop_Some in Hrun as (n & Hn & -> & Hstop & Hbefore).
  exists n. cbn [fit_adjuster fit_model fit_world].
  split; [done|]. split; [done|].
  split; [apply calls_world_after|].
  split; [apply content_world_after_cameras|].
  split; [apply content_world_after_points|].
  split; [apply lookup_world_after_cameras_closed|].
  split; [apply lookup_world_after_points_closed|].
  split.
  { intros Hdir Hmissing.
    by apply files_world_after_closed; apply opens_missing_directory. }
  split; [intros m; split; [apply camera_snapshot_rows | apply point_snapshot_rows]|].
  split.
  { intros j a_j. split; [done|]. split; [|done].
    unfold camera_rows. repeat constructor. }
  split; [done|].
  intros w'. eexists. split.
  - by apply (run_loop_reaches results_dir max_iter false n fuel st w').
  - cbn. split; [done|]. split; [done|].
    split; [apply calls_world_after | apply files_world_after_unsaved].
Qed.

Lemma snapshots_append_rows_witness :
  exists n fit,
    @run_loop (Scripted.machine 0 None) Scripted.Solver
      (Scripted.adjuster Inputs.two_steps) 30 Inputs.new_solver Inputs.one_model
      "results" 30 true 1e10%float 1e10%float 2%float Inputs.some_world = Some fit
    /\ calls (fit_world fit) = replicate n CallUpdate
    /\ n = 2%nat
    /\ content (files (fit_world fit)) "results/iterPointsParam.txt"
       = @point_text (Scripted.machine 0 None) Scripted.Solver
           (Scripted.adjuster Inputs.two_steps) n
           (@loop_start Scripted.Solver Inputs.new_solver Inputs.one_model).
Proof.
  pose (st := @loop_start Scripted.Solver Inputs.new_solver Inputs.one_model).
  destruct (@snapshots_append_rows (Scripted.machine 0 None) Scripted.Solver
              (Scripted.adjuster Inputs.two_steps) "results" 30 30 st
              Inputs.some_world
              (mkFit
                 (l_adjuster (@advance _ (Scripted.adjuster Inputs.two_steps) 2 st))
                 (l_model (@advance _ (Scripted.adjuster Inputs.two_steps) 2 st))
                 (@world_after (Scripted.machine 0 None) Scripted.Solver
                    (Scripted.adjuster Inputs.two_steps) "results" true 2 st
                    Inputs.some_world)))
    as (n & _ & _ & Hcalls & _ & Hpoints & _).
  - vm_compute. reflexivity.
  - exists n. eexists. split; [vm_compute; reflexivity|].
    split; [exact Hcalls|].
    assert (Hn : n = 2%nat).
    { cbn in Hcalls.
      destruct n as [|[|[|n]]]; cbn in Hcalls; try discriminate Hcalls.
      reflexivity. }
    split; [exact Hn|].
    apply Hpoints. vm_compute. reflexivity.
Defined.

(** C6, as the spec has it, fails: the camera snapshot of a model with one
    camera has six rows, not one, and two models that differ in the
    rotation parameters of the camera have the same snapshot, so the rows
    do not hold the full parameter vector. *)
Lemma camera_snapshot_not_full_vector :
  num_cameras Inputs.moved_model = 1%nat
  /\ length (@camera_snapshot (Scripted.machine 0 None) Inputs.moved_model) = 6%nat
  /\ a Inputs.moved_model <> a Inputs.turned_model
  /\ @camera_snapshot (Scripted.machine 0 None) Inputs.moved_model
     = @camera_snapshot (Scripted.machine 0 None) Inputs.turned_model
  /\ ~ (forall (E : External) (m : BundleAdjustmentModel),
          camera_snapshot m = imap (fun j a_j => mkRow j (subvector_0_3 a_j)) (a m))
  /\ ~ (forall (E : External) (m m' : BundleAdjustmentModel),
          camera_snapshot m = camera_snapshot m' -> a m = a m').
Proof.
  assert (Hne : a Inputs.moved_model <> a Inputs.turned_model).
  { cbn. intros Heq. discriminate Heq. }
  split; [reflexivity|]. split; [reflexivity|]. split; [exact Hne|].
  split; [reflexivity|]. split.
  - intros Hall.
    specialize (Hall (Scripted.machine 0 None) Inputs.moved_model).
    apply (f_equal length) in Hall. vm_compute in Hall. discriminate Hall.
  - intros Hall. apply Hne.
    by apply (Hall (Scripted.machine 0 None)).
Qed.

(** ** The passes of [adjust_bundles] *)

Lemma apply_writes_frame (ws : list ModelWrite) (m : BundleAdjustmentModel) :
  m_cameras (apply_writes ws m) = m_cameras m
  /\ m_network (apply_writes ws m) = m_network m
  /\ a_target (apply_writes ws m) = a_target m
  /\ b_target (apply_writes ws m) = b_target m
  /\ m_camera_position_sigma (apply_writes ws m) = m_camera_position_sigma m
  /\ m_camera_pose_sigma (apply_writes ws m) = m_camera_pose_sigma m
  /\ m_gcp_sigma (apply_writes ws m) = m_gcp_sigma m.
Proof.
  unfold apply_writes. revert m.
  induction ws as [|x ws IH]; intros m; cbn [foldl]; [done|].
  destruct (IH (apply_write m x)) as (-> & -> & -> & -> & -> & -> & ->).
  by destruct x.
Qed.

Section Pass_facts.
Context `{External} {A : Type} `{AdjusterT A}.

Lemma advance_frame (n : nat) (st : LoopState) :
  m_cameras (l_model (advance n st)) = m_cameras (l_model st)
  /\ m_network (l_model (advance n st)) = m_network (l_model st)
  /\ a_target (l_model (advance n st)) = a_target (l_model st)
  /\ b_target (l_model (advance n st)) = b_target (l_model st).
Proof.
  revert st. induction n as [|n IH]; intros st; cbn [advance]; [done|].
  destruct (IH (loop_next st)) as (-> & -> & -> & ->).
  unfold loop_next; cbn [l_model].
  by destruct (apply_writes_frame
                 (u_writes (update (l_adjuster st) (l_model st) (l_abs_tol st)
                              (l_rel_tol st)))
                 (l_model st)) as (-> & -> & -> & -> & _).
Qed.

(** What a pass returns, when it returns. *)
Lemma run_bundle_adjustment_Some (fuel : nat) (adjuster : A)
    (model : BundleAdjustmentModel) (reporter : Reporter) (results_dir : path)
    (max_iter : Z) (save : bool) (w : World) (fit : Fit) :
  run_bundle_adjustment fuel adjuster model reporter results_dir max_iter save w
  = Some fit ->
  exists n,
    let st := loop_start adjuster model in
    fit = mkFit (l_adjuster (advance n st)) (l_model (advance n st))
            (end_tie_in reporter (l_model (advance n st))
               (world_after results_dir save n st w))
    /\ stops max_iter (advance n st) = true
    /\ forall k, (k < n)%nat -> stops max_iter (advance k st) = false.
Proof.
  unfold run_bundle_adjustment.
  destruct (run_loop _ _ _ _ _ _ _ _ _ _) as [fit0|] eqn:Hrun; [|discriminate].
  intros [= <-].
  apply (run_loop_Some results_dir max_iter save fuel (loop_start adjuster model))
    in Hrun as (n & _ & -> & Hstop & Hbefore).
  by exists n.
Qed.

Lemma run_bundle_adjustment_cameras (fuel : nat) (adjuster : A)
    (model : BundleAdjustmentModel) (reporter : Reporter) (results_dir : path)
    (max_iter : Z) (save : bool) (w : World) (fit : Fit) :
  run_bundle_adjustment fuel adjuster model reporter results_dir max_iter save w
  = Some fit ->
  cameras (fit_model fit) = cameras model.
Proof.
  intros Hrun. apply run_bundle_adjustment_Some in Hrun as (n & -> & _).
  unfold cameras; cbn [fit_model].
  by destruct (advance_frame n (loop_start adjuster model)) as (-> & _).
Qed.

Context `{!AdjusterLaws A}.

Lemma pass_adjusters_new (strategy : Strategy) (m : BundleAdjustmentModel)
    (cost_func : CostT) (config : ProgramOptions) :
  iterations (first_pass_adjuster strategy m cost_func config) = 0
  /\ iterations (second_pass_adjuster strategy m cost_func config) = 0.
Proof.
  unfold first_pass_adjuster, second_pass_adjuster.
  rewrite iterations_set_control.
  destruct (use_user_lambda config);
    by rewrite ?iterations_set_lambda, iterations_new.
Qed.

(** A pass with no budget makes no step. *)
Lemma run_bundle_adjustment_no_budget (fuel : nat) (adjuster : A)
    (model : BundleAdjustmentModel) (reporter : Reporter) (results_dir : path)
    (max_iter : Z) (save : bool) (w : World) :
  iterations adjuster = 0 -> max_iter <= 0 ->
  run_bundle_adjustment fuel adjuster model reporter results_dir max_iter save w
  = Some (mkFit adjuster model (end_tie_in reporter model w)).
Proof.
  intros Hnew Hmax. unfold run_bundle_adjustment.
  assert (Hbreak : loop_break adjuster max_iter 1e10%float 1e10%float = true).
  { unfold loop_break. rewrite Hnew.
    destruct (Z.geb_spec 0 max_iter); [done|lia]. }
  destruct fuel; cbn [run_loop];
    change (Double.truthy 2%float) with true; cbn iota; by rewrite Hbreak.
Qed.

(** With the fuel the iteration budget asks for, a pass returns, and so
    does [adjust_bundles]: it ends with its outcome or with an exception. *)
Lemma run_bundle_adjustment_total (fuel : nat) (adjuster : A)
    (model : BundleAdjustmentModel) (reporter : Reporter) (results_dir : path)
    (max_iter : Z) (save : bool) (w : World) :
  (Z.to_nat (max_iter - iterations adjuster) <= fuel)%nat ->
  is_Some (run_bundle_adjustment fuel adjuster model reporter results_dir
             max_iter save w).
Proof.
  intros Hfuel. unfold run_bundle_adjustment.
  destruct (run_loop_total results_dir max_iter save fuel
              (loop_start adjuster model) w Hfuel) as [fit Hrun].
  cbn in Hrun. rewrite Hrun. by eexists.
Qed.

Lemma adjust_bundles_total (fuel : nat) (strategy : Strategy)
    (ba_model : BundleAdjustmentModel) (cost_func : CostT)
    (config : ProgramOptions) (ba_type_str : string) (w : World) :
  (Z.to_nat (max_iterations config) <= fuel)%nat ->
  is_Some (adjust_bundles fuel strategy ba_model cost_func config ba_type_str w).
Proof.
  intros Hfuel.
  destruct (pass_adjusters_new strategy ba_model cost_func config) as [Hnew1 _].
  unfold first_pass_adjuster in Hnew1.
  unfold adjust_bundles.
  match goal with
  | |- context [run_bundle_adjustment fuel ?x ?m ?r ?d ?k ?s ?w0] =>
      destruct (run_bundle_adjustment_total fuel x m r d k s w0) as [fit1 ->];
      [rewrite Hnew1; by rewrite Z.sub_0_r|]
  end.
  destruct (remove_outliers config); [|by eexists].
  destruct (remove_outliers_step _ _ _ _ _) as [w1|e|c]; cbn [lift bind_fuel];
    [|by eexists|by eexists].
  destruct (load_control_network _ _) as [cnet|e|c]; cbn [lift bind_fuel];
    [|by eexists|by eexists].
  destruct (BundleAdjustmentModel_new _ _ _ _ _) as [m2|e|c]; cbn [lift bind_fuel];
    [|by eexists|by eexists].
  destruct (pass_adjusters_new strategy m2 cost_func config) as [_ Hnew2].
  unfold second_pass_adjuster in Hnew2.
  match goal with
  | |- context [run_bundle_adjustment fuel ?x ?m ?r ?d ?k ?s ?w0] =>
      destruct (run_bundle_adjustment_total fuel x m r d k s w0) as [fit2 ->];
      [rewrite Hnew2; by rewrite Z.sub_0_r|]
  end.
  by eexists.
Qed.

End Pass_facts.

(** C4. When outlier removal runs and [adjust_bundles] returns, the model of
    the second pass is the one the constructor builds from the camera list
    of the first model, the network loaded from the processed file, and the
    three sigmas of the options (those the first model was built with): its
    point parameters and targets are the positions stored in that network,
    its camera parameters and targets are zeros, and nothing of it comes
    from the parameters the first pass ended with. *)
Theorem reloading_builds_new_model `{External} {A : Type} `{AdjusterT A}
    (fuel : nat) (strategy : Strategy) (cams : CameraVector)
    (network : ControlNetwork) (ba_model : BundleAdjustmentModel)
    (cost_func : CostT) (config : ProgramOptions) (ba_type_str : string)
    (w : World) (out : Outcome) :
  BundleAdjustmentModel_new cams network (camera_position_sigma config)
    (camera_pose_sigma config) (gcp_sigma config) = Ok ba_model ->
  remove_outliers config = true ->
  adjust_bundles fuel strategy ba_model cost_func config ba_type_str w
  = Some (Ok out) ->
  exists fit1 w1 cnet m2 fit2,
    first_pass fuel strategy ba_model cost_func config ba_type_str w = Some fit1
    /\ remove_outliers_step (path_join (data_dir config) (cnet_file config))
         ProcessedCnetFile (results_dir_of config) (outlier_sd_cutoff config)
         (fit_world fit1) = Ok w1
    /\ load_control_network (path_join (results_dir_of config) ProcessedCnetFile)
         (files w1) = Ok cnet
    /\ BundleAdjustmentModel_new cams cnet (camera_position_sigma config)
         (camera_pose_sigma config) (gcp_sigma config) = Ok m2
    /\ second_pass fuel strategy m2 cost_func config ba_type_str w1 = Some fit2
    /\ out_model out = fit_model fit2
    /\ m_cameras m2 = m_cameras ba_model
    /\ control_network m2 = cnet
    /\ m_camera_position_sigma m2 = m_camera_position_sigma ba_model
    /\ m_camera_pose_sigma m2 = m_camera_pose_sigma ba_model
    /\ m_gcp_sigma m2 = m_gcp_sigma ba_model
    /\ b m2 = map cp_position cnet
    /\ b_target m2 = map cp_position cnet
    /\ a m2 = replicate (length cams) camera_vector_default
    /\ a_target m2 = replicate (length cams) camera_vector_default.
Proof.
  intros Hnew Hremove Hout.
  apply BundleAdjustmentModel_new_Ok in Hnew as (_ & n0 & ->).
  apply adjust_bundles_Ok in Hout as (fit1 & Hfit1 & Hrest).
  rewrite Hremove in Hrest.
  destruct Hrest as (w1 & cnet & m2 & fit2 & Hw1 & Hcnet & Hm2 & Hfit2 & ->).
  rewrite (run_bundle_adjustment_cameras _ _ _ _ _ _ _ _ _ Hfit1) in Hm2.
  cbn [cameras fresh_model m_cameras] in Hm2.
  exists fit1, w1, cnet, m2, fit2.
  repeat (split; [done|]).
  apply BundleAdjustmentModel_new_Ok in Hm2 as (_ & n2 & ->).
  by cbn.
Qed.

Lemma reloading_builds_new_model_witness :
  exists out m2,
    @adjust_bundles Inputs.editor_ok Scripted.Solver
      (Scripted.adjuster Inputs.two_steps) 30 AdjustRef Inputs.one_model L2Error
      (Inputs.options 0 30 false false true) "Reference" Inputs.some_world
    = Some (Ok out)
    /\ m_cameras m2 = Inputs.one_camera
    /\ a m2 = [camera_vector_default]
    /\ b m2 = map cp_position (control_network m2).
Proof.
  assert (Hrun : exists out,
            @adjust_bundles Inputs.editor_ok Scripted.Solver
              (Scripted.adjuster Inputs.two_steps) 30 AdjustRef Inputs.one_model
              L2Error (Inputs.options 0 30 false false true) "Reference"
              Inputs.some_world = Some (Ok out))
    by (eexists; vm_compute; reflexivity).
  destruct Hrun as [out Hrun].
  destruct (@reloading_builds_new_model Inputs.editor_ok Scripted.Solver
              (Scripted.adjuster Inputs.two_steps) 30 AdjustRef
              Inputs.one_camera Inputs.one_point Inputs.one_model L2Error
              (Inputs.options 0 30 false false true) "Reference"
              Inputs.some_world out
              ltac:(vm_compute; reflexivity) ltac:(reflexivity) Hrun)
    as (fit1 & w1 & cnet & m2 & fit2 & _ & _ & _ & _ & _ & _ & Hcams & Hnet
        & _ & _ & _ & Hb & _ & Ha & _).
  exists out, m2. split; [exact Hrun|].
  split; [exact Hcams|]. split; [exact Ha|].
  rewrite Hnet. exact Hb.
Defined.

(** ** No iteration budget *)

Lemma remove_outliers_step_calls `{External} (cnet_file cnet_out_file dir : path)
    (sd_cutoff : float) (w w1 : World) :
  remove_outliers_step cnet_file cnet_out_file dir sd_cutoff w = Ok w1 ->
  exists command, calls w1 = calls w ++ [CallSystem command].
Proof.
  unfold remove_outliers_step.
  destruct (negb (is_regular_file (files w) MeanErrorsFile)); [discriminate|].
  destruct (negb (is_regular_file (files w) cnet_file)); [discriminate|].
  destruct (system _ _) as [res files1].
  destruct (res =? -1); [discriminate|].
  intros [= <-]. by eexists.
Qed.

Section No_budget.
Context `{External} {A : Type} `{AdjusterT A} `{!AdjusterLaws A}.

Lemma adjust_bundles_no_budget (fuel : nat) (strategy : Strategy)
    (ba_model : BundleAdjustmentModel) (cost_func : CostT)
    (config : ProgramOptions) (ba_type_str : string) (w : World) (out : Outcome) :
  max_iterations config <= 0 ->
  adjust_bundles fuel strategy ba_model cost_func config ba_type_str w
  = Some (Ok out) ->
  count_calls is_update (calls (out_world out)) = count_calls is_update (calls w)
  /\ if remove_outliers config then
       exists cnet n,
         out_model out
         = fresh_model (cameras ba_model) cnet (camera_position_sigma config)
             (camera_pose_sigma config) (gcp_sigma config) n
     else out_model out = ba_model.
Proof.
  intros Hmax Hout.
  apply adjust_bundles_Ok in Hout as (fit1 & Hfit1 & Hrest).
  unfold first_pass in Hfit1.
  rewrite run_bundle_adjustment_no_budget in Hfit1
    by (done || apply pass_adjusters_new).
  injection Hfit1 as <-.
  cbn [fit_world fit_model fit_adjuster] in Hrest.
  assert (Hcalls1 :
    forall m, calls (end_tie_in (mkReporter ba_type_str (report_level config)) m
                (first_pass_world ba_model config ba_type_str w))
    = calls w ++ [CallEndTieIn ba_type_str]).
  { intros m. unfold first_pass_world. by destruct (save_iteration_data config). }
  destruct (remove_outliers config).
  - destruct Hrest as (w1 & cnet & m2 & fit2 & Hw1 & Hcnet & Hm2 & Hfit2 & ->).
    unfold second_pass in Hfit2.
    rewrite run_bundle_adjustment_no_budget in Hfit2
      by (done || apply pass_adjusters_new).
    injection Hfit2 as <-.
    apply remove_outliers_step_calls in Hw1 as (command & Hw1).
    rewrite Hcalls1 in Hw1.
    apply BundleAdjustmentModel_new_Ok in Hm2 as (_ & n & ->).
    cbn [out_world out_model fit_world fit_model end_tie_in record_call
         with_files calls title]. rewrite Hw1.
    rewrite !count_calls_app.
    split; [|by exists cnet, n].
    change (count_calls is_update [CallEndTieIn _]) with 0%nat.
    change (count_calls is_update [CallSystem _]) with 0%nat.
    lia.
  - subst out. cbn [out_world out_model]. rewrite Hcalls1, count_calls_app.
    split; [|done].
    change (count_calls is_update [CallEndTieIn ba_type_str]) with 0%nat. lia.
Qed.

End No_budget.

Lemma main_total `{External} {A : Type} `{AdjusterT A} `{!AdjusterLaws A}
    (fuel : nat) (opts : ProgramOptions) (cmd : Supplied) (w : World)
    (config : ProgramOptions) :
  parse_options opts cmd (files w) = Ok config ->
  (Z.to_nat (max_iterations config) <= fuel)%nat ->
  is_Some (main fuel opts cmd w).
Proof.
  intros Hparse Hfuel. unfold main. rewrite Hparse. cbn [lift bind_fuel].
  destruct (create_data_dir _ _) as [files1|e|c]; cbn [bind_fuel];
    [|by eexists|by eexists].
  destruct (load_control_network _ _) as [cnet|e|c]; cbn [bind_fuel];
    [|by eexists|by eexists].
  destruct (load_camera_models _ _ _) as [camera_models|e|c]; cbn [bind_fuel];
    [|by eexists|by eexists].
  destruct (BundleAdjustmentModel_new _ _ _ _ _) as [ba_model|e|c];
    cbn [bind_fuel]; [|by eexists|by eexists].
  destruct (bundle_adjustment_type config); by apply adjust_bundles_total.
Qed.

(** C8. When the options set the maximum iteration count to 0, [main]
    returns whatever the fuel, and when it gets through [adjust_bundles],
    no update step has been made and the model [main] reports from holds
    the priors of its construction: the camera parameters equal their
    targets and are zeros, and the point parameters equal their targets and
    are the positions stored in the network of the model. *)
Theorem max_iterations_zero_keeps_priors `{External} {A : Type} `{AdjusterT A}
    `{!AdjusterLaws A} (fuel : nat) (opts : ProgramOptions) (cmd : Supplied)
    (w : World) (config : ProgramOptions) :
  parse_options opts cmd (files w) = Ok config ->
  max_iterations config = 0 ->
  is_Some (main fuel opts cmd w)
  /\ forall out : Outcome,
       main fuel opts cmd w = Some (Ok out) ->
       count_calls is_update (calls (out_world out))
       = count_calls is_update (calls w)
       /\ a (out_model out) = a_target (out_model out)
       /\ a (out_model out)
          = replicate (num_cameras (out_model out)) camera_vector_default
       /\ b (out_model out) = b_target (out_model out)
       /\ b (out_model out) = map cp_position (control_network (out_model out))
       /\ (forall j, A_parameters (out_model out) j = A_target (out_model out) j)
       /\ (forall i, B_parameters (out_model out) i = B_target (out_model out) i).
Proof.
  intros Hparse Hmax. split.
  { apply (main_total fuel opts cmd w config Hparse). rewrite Hmax. cbn. lia. }
  intros out. unfold main. rewrite Hparse. cbn [lift bind_fuel].
  destruct (create_data_dir _ _) as [files1| |] eqn:Hdir; cbn [bind_fuel];
    try discriminate.
  destruct (load_control_network _ _) as [cnet| |]; cbn [bind_fuel];
    try discriminate.
  destruct (load_camera_models _ _ _) as [camera_models| |]; cbn [bind_fuel];
    try discriminate.
  destruct (BundleAdjustmentModel_new _ _ _ _ _) as [ba_model| |] eqn:Hnew;
    cbn [bind_fuel]; try discriminate.
  apply BundleAdjustmentModel_new_Ok in Hnew as (_ & n0 & ->).
  intros Hout.
  assert (Hzero : max_iterations config <= 0) by lia.
  assert (Hshape : count_calls is_update (calls (out_world out))
                   = count_calls is_update (calls w)
                   /\ exists cams net s1 s2 s3 n,
                        out_model out = fresh_model cams net s1 s2 s3 n).
  { destruct (bundle_adjustment_type config);
      apply (adjust_bundles_no_budget _ _ _ _ _ _ _ _ Hzero) in Hout
        as [Hcalls Hmodel];
      (split; [exact Hcalls|]);
      destruct (remove_outliers config);
      try (destruct Hmodel as (cnet' & n' & ->); by repeat eexists);
      rewrite Hmodel; by repeat eexists. }
  destruct Hshape as (Hcalls & cams & net & s1 & s2 & s3 & n & ->).
  unfold A_parameters, A_target, B_parameters, B_target, num_cameras,
    control_network; cbn.
  rewrite length_replicate. done.
Qed.

Lemma max_iterations_zero_keeps_priors_witness :
  exists out,
    @main Inputs.editor_ok Scripted.Solver (Scripted.adjuster Inputs.two_steps)
      0 Inputs.blank_opts Inputs.no_budget_cmd Inputs.some_world = Some (Ok out)
    /\ count_calls is_update (calls (out_world out)) = 0%nat
    /\ b (out_model out) = map cp_position (control_network (out_model out)).
Proof.
  assert (Hrun : exists out,
            @main Inputs.editor_ok Scripted.Solver
              (Scripted.adjuster Inputs.two_steps) 0 Inputs.blank_opts
              Inputs.no_budget_cmd Inputs.some_world = Some (Ok out))
    by (eexists; vm_compute; reflexivity).
  destruct Hrun as [out Hrun].
  assert (Hparse : exists config,
            @parse_options Inputs.editor_ok Inputs.blank_opts
              Inputs.no_budget_cmd (files Inputs.some_world) = Ok config
            /\ max_iterations config = 0)
    by (eexists; split; vm_compute; reflexivity).
  destruct Hparse as (config & Hparse & Hmax).
  destruct (@max_iterations_zero_keeps_priors Inputs.editor_ok Scripted.Solver
              (Scripted.adjuster Inputs.two_steps)
              (Scripted.laws Inputs.two_steps) 0 Inputs.blank_opts
              Inputs.no_budget_cmd Inputs.some_world config Hparse Hmax)
    as [_ Hpriors].
  destruct (Hpriors out Hrun) as (Hcalls & _ & _ & _ & Hb & _).
  exists out. split; [exact Hrun|]. split; [exact Hcalls | exact Hb].
Defined.

(** ** Where the code departs from the claims *)

(** An exception of the outlier filter goes up through [adjust_bundles]. *)
Lemma adjust_bundles_filter_throws `{External} {A : Type} `{AdjusterT A}
    (fuel : nat) (strategy : Strategy) (ba_model : BundleAdjustmentModel)
    (cost_func : CostT) (config : ProgramOptions) (ba_type_str : string)
    (w : World) (fit1 : Fit) (e : Exception) :
  first_pass fuel strategy ba_model cost_func config ba_type_str w = Some fit1 ->
  remove_outliers config = true ->
  remove_outliers_step (path_join (data_dir config) (cnet_file config))
    ProcessedCnetFile (results_dir_of config) (outlier_sd_cutoff config)
    (fit_world fit1) = Throw e ->
  adjust_bundles fuel strategy ba_model cost_func config ba_type_str w
  = Some (Throw e).
Proof.
  unfold first_pass, first_pass_adjuster, first_pass_world, adjust_bundles.
  intros -> -> ->. reflexivity.
Qed.

(** C1. A missing mean errors file or control network file makes
    [remove_outliers] throw [IOErr], a [system] that returns -1 makes it
    throw [LogicErr], and [adjust_bundles] passes the exception on. But the
    exit status of the command is not looked at: whatever else [system]
    returns, [remove_outliers] returns normally. With both artifacts present
    and [cnet_editor] exiting with status 1 ([system] returns 256),
    [adjust_bundles] goes on to the second fit, on a processed network that
    an earlier run left behind. *)
Theorem nonzero_exit_is_not_fatal :
  (forall (E : External) cnet_file cnet_out_file dir sd_cutoff w,
     is_regular_file (files w) MeanErrorsFile = false
     \/ is_regular_file (files w) cnet_file = false ->
     exists what,
       remove_outliers_step cnet_file cnet_out_file dir sd_cutoff w
       = Throw (IOErr what))
  /\ (forall (E : External) cnet_file cnet_out_file dir sd_cutoff w,
       is_regular_file (files w) MeanErrorsFile = true ->
       is_regular_file (files w) cnet_file = true ->
       let command := cnet_editor_command cnet_file cnet_out_file dir sd_cutoff in
       remove_outliers_step cnet_file cnet_out_file dir sd_cutoff w
       = if fst (system command (files w)) =? -1
         then Throw (LogicErr ("system(" ++ command ++ ") failed "))
         else Ok (mkWorld (snd (system command (files w)))
                    (calls w ++ [CallSystem command])))
  /\ (forall (E : External) (A : Type) (Adj : AdjusterT A) fuel strategy
         ba_model cost_func config ba_type_str w (fit1 : Fit) e,
       first_pass fuel strategy ba_model cost_func config ba_type_str w
       = Some fit1 ->
       remove_outliers config = true ->
       remove_outliers_step (path_join (data_dir config) (cnet_file config))
         ProcessedCnetFile (results_dir_of config) (outlier_sd_cutoff config)
         (fit_world fit1) = Throw e ->
       adjust_bundles fuel strategy ba_model cost_func config ba_type_str w
       = Some (Throw e))
  /\ @system Inputs.editor_fails
       (@cnet_editor_command Inputs.editor_fails "data/net.cnet"
          ProcessedCnetFile "results" 2%float) Inputs.some_files
     = (256, Inputs.some_files)
  /\ @remove_outliers_step Inputs.editor_fails "data/net.cnet" ProcessedCnetFile
       "results" 2%float Inputs.some_world
     = Ok (mkWorld Inputs.some_files
             [CallSystem
                (@cnet_editor_command Inputs.editor_fails "data/net.cnet"
                   ProcessedCnetFile "results" 2%float)])
  /\ exists out second,
       @adjust_bundles Inputs.editor_fails Scripted.Solver
         (Scripted.adjuster Inputs.two_steps) 30 AdjustRef Inputs.one_model
         L2Error (Inputs.options 0 30 false false true) "Reference"
         Inputs.some_world = Some (Ok out)
       /\ out_adjuster_no_outliers out = Some second
       /\ Scripted.sv_iterations second = 2
       /\ calls (out_world out)
          = [CallUpdate; CallUpdate; CallEndTieIn "Reference";
             CallSystem
               (@cnet_editor_command Inputs.editor_fails "data/net.cnet"
                  ProcessedCnetFile "results" 2%float);
             CallUpdate; CallUpdate; CallEndTieIn "Reference No Outliers"].
Proof.
  split; [|split; [|split; [|split; [|split]]]].
  - intros E cnet_file cnet_out_file dir sd_cutoff w Hmissing.
    unfold remove_outliers_step.
    destruct (is_regular_file (files w) MeanErrorsFile); cbn [negb];
      [|by eexists].
    destruct Hmissing as [Hm|Hm]; [discriminate|]. rewrite Hm. by eexists.
  - intros E cnet_file cnet_out_file dir sd_cutoff w Hmean Hcnet.
    unfold remove_outliers_step. rewrite Hmean, Hcnet. cbn [negb].
    by destruct (system _ _) as [res files1].
  - intros E A Adj fuel strategy ba_model cost_func config ba_type_str w fit1 e.
    apply adjust_bundles_filter_throws.
  - reflexivity.
  - vm_compute. reflexivity.
  - eexists. eexists. split; [vm_compute; reflexivity|].
    split; [reflexivity|]. split; [reflexivity|]. vm_compute. reflexivity.
Qed.

(** C3. The second pass is run with the same solver template, cost function,
    lambda, iteration budget and snapshot flag as the first, but the control
    setting is not passed on: the second [set_control] is called on the
    solver of the first pass. With control 1 in the options, the solver of
    the first pass ends with control 1 and the solver of the second pass
    with the control its constructor chose. *)
Theorem second_pass_control_not_set :
  (forall (E : External) (A : Type) (Adj : AdjusterT A) strategy m2 cost_func config,
     second_pass_adjuster strategy m2 cost_func config
     = if use_user_lambda config
       then set_lambda (lambda config) (adjuster_new strategy m2 cost_func)
       else adjuster_new strategy m2 cost_func)
  /\ exists out second,
       @adjust_bundles Inputs.editor_ok Scripted.Solver
         (Scripted.adjuster Inputs.two_steps) 30 AdjustRef Inputs.one_model
         L2Error (Inputs.options 1 30 true false true) "Reference"
         Inputs.some_world = Some (Ok out)
       /\ out_adjuster_no_outliers out = Some second
       /\ Scripted.sv_control (out_adjuster out) = Some 1
       /\ Scripted.sv_control second = None
       /\ Scripted.sv_lambda (out_adjuster out) = Some 5%float
       /\ Scripted.sv_lambda second = Some 5%float
       /\ Scripted.sv_strategy second = Scripted.sv_strategy (out_adjuster out)
       /\ Scripted.sv_cost second = Scripted.sv_cost (out_adjuster out).
Proof.
  split; [reflexivity|].
  eexists. eexists. split; [vm_compute; reflexivity|].
  repeat split; reflexivity.
Qed.

(** * Further properties *)

(** ** Names of the solvers *)

Lemma tolower_idempotent (c : ascii) : tolower (tolower c) = tolower c.
Proof.
  destruct c as [[] [] [] [] [] [] [] []]; reflexivity.
Qed.

Lemma transform_tolower_idempotent (s : string) :
  transform tolower (transform tolower s) = transform tolower s.
Proof.
  induction s as [|c s IH]; cbn; [reflexivity|].
  by rewrite tolower_idempotent, IH.
Qed.

(** X1. Reading back the name [ba_type_to_string] gives a solver type returns
    that type, and leaves the name as it is; so different types have
    different names. *)
Theorem ba_type_round_trip (t : BundleAdjustmentT) :
  string_to_ba_type (ba_type_to_string t) = (t, ba_type_to_string t)
  /\ forall t', ba_type_to_string t = ba_type_to_string t' -> t = t'.
Proof.
  split; [by destruct t|].
  intros t' Heq. by destruct t, t'.
Qed.

(** X2. [string_to_ba_type] reads a name whatever the case of its letters:
    the type depends on the string only through its lower-casing, the string
    is left lower-cased, and reading the string that is left gives the same
    answer again. *)
Theorem string_to_ba_type_ignores_case (s : string) :
  snd (string_to_ba_type s) = transform tolower s
  /\ string_to_ba_type (snd (string_to_ba_type s)) = string_to_ba_type s
  /\ forall s', transform tolower s' = transform tolower s ->
                string_to_ba_type s' = string_to_ba_type s.
Proof.
  split; [reflexivity|]. split.
  - unfold string_to_ba_type; cbn [snd]. by rewrite transform_tolower_idempotent.
  - intros s' Heq. unfold string_to_ba_type. by rewrite Heq.
Qed.

(** ** What [parse_options] accepts *)

Lemma camera_files_given (x : option (list string)) :
  (length (default [] x) <? 1)%nat = false <-> exists file rest, x = Some (file :: rest).
Proof.
  destruct x as [[|file rest]|]; cbn; split; try discriminate;
    try (intros (f & r & Hx); discriminate Hx).
  - intros _. by exists file, rest.
  - done.
Qed.

(** The five ways [parse_options] ends. *)
Lemma parse_options_cases `{External} (opts : ProgramOptions)
    (cmd : Supplied) (files : Files) :
  let cfg := default ConfigFileDefault (s_config_file cmd) in
  (s_help cmd = true /\ parse_options opts cmd files = Exit 1)
  \/ (s_help cmd = false /\ is_regular_file files cfg = false
      /\ parse_options opts cmd files = Exit 1)
  \/ (s_help cmd = false /\ is_regular_file files cfg = true
      /\ s_print_config cmd = true /\ parse_options opts cmd files = Exit 0)
  \/ (s_help cmd = false /\ is_regular_file files cfg = true
      /\ s_print_config cmd = false /\ ~ accepted cmd files
      /\ parse_options opts cmd files = Exit 1)
  \/ (accepted cmd files /\ exists config, parse_options opts cmd files = Ok config).
Proof.
  unfold accepted, parse_options, variables_map.
  set (vm := store_all _ _). cbn zeta.
  change (s_print_config vm) with (s_print_config cmd).
  destruct (s_help cmd); [by left|]. right.
  destruct (is_regular_file files _); cbn [negb]; [|by left]. right.
  destruct (s_print_config cmd); [by left|]. right.
  destruct (s_cnet vm) as [cnet|] eqn:Hcnet; cbn [counted negb].
  2:{ left. repeat (split; [done|]). split; [|done].
      intros (_ & _ & _ & [x Hx] & _). discriminate Hx. }
  pose proof (camera_files_given (s_input_files vm)) as Hcams.
  destruct (length (default [] (s_input_files vm)) <? 1)%nat.
  { left. repeat (split; [done|]). split; [|done].
    intros (_ & _ & _ & _ & Hfiles & _). by apply Hcams in Hfiles. }
  destruct (Z.eqb_spec (default 0 (s_control vm)) 0) as [H0|H0];
    destruct (Z.eqb_spec (default 0 (s_control vm)) 1) as [H1|H1];
    cbn [negb andb].
  - lia.
  - right. split; [|by eexists].
    split_and!; first [done | by eexists | by apply Hcams | by left].
  - right. split; [|by eexists].
    split_and!; first [done | by eexists | by apply Hcams | by right].
  - left. repeat (split; [done|]). split; [|done].
    intros (_ & _ & _ & _ & _ & [?|?]); done.
Qed.

(** Reading the options off a successful [parse_options]. *)
Ltac parse_options_inv H :=
  unfold parse_options in H; cbn zeta in H;
  repeat match type of H with
         | (if ?c then _ else _) = Ok _ => destruct c eqn:?; [discriminate H|]
         end;
  injection H as <-.

(** X3. What the way [parse_options] ends tells of the command line, once
    the option parser has stored it. Options are returned only for an
    accepted command line: help and print-config not asked for, a
    configuration file that is a regular file, a control network named and
    at least one camera file given by some source, a control of 0 or 1; the
    options then hold that control, those camera files and that network. An
    exit with status 0 comes only from print-config, and an exit with
    status 1 only from a command line that is not accepted. *)
Theorem parse_options_outcomes `{External} (opts : ProgramOptions)
    (cmd : Supplied) (files : Files) :
  (forall config,
     parse_options opts cmd files = Ok config ->
     accepted cmd files
     /\ (control config = 0 \/ control config = 1)
     /\ (1 <= length (camera_files config))%nat
     /\ s_input_files (variables_map cmd files) = Some (camera_files config)
     /\ s_cnet (variables_map cmd files) = Some (cnet_file config)
     /\ config_file config = default ConfigFileDefault (s_config_file cmd))
  /\ (parse_options opts cmd files = Exit 0 ->
      s_help cmd = false
      /\ is_regular_file files (default ConfigFileDefault (s_config_file cmd)) = true
      /\ s_print_config cmd = true)
  /\ (parse_options opts cmd files = Exit 1 ->
      ~ accepted cmd files
      /\ ~ (s_help cmd = false
            /\ is_regular_file files (default ConfigFileDefault (s_config_file cmd))
               = true
            /\ s_print_config cmd = true)).
Proof.
  split.
  { intros config Hok.
    assert (Hacc : accepted cmd files).
    { destruct (parse_options_cases opts cmd files)
        as [(_ & Heq)|[(_ & _ & Heq)|[(_ & _ & _ & Heq)|[(_ & _ & _ & _ & Heq)
            |(Hacc & _)]]]]; [congruence..|done]. }
    split; [exact Hacc|].
    destruct Hacc as (_ & _ & _ & [cnet Hcnet] & (file & rest & Hcams) & Hcontrol).
    unfold variables_map in *. parse_options_inv Hok.
    cbn in Hcams, Hcnet, Hcontrol |- *.
    rewrite Hcams, Hcnet. cbn. split; [done|]. split; [lia|]. done. }
  destruct (parse_options_cases opts cmd files)
    as [(Hh & ->)|[(Hh & Hc & ->)|[(Hh & Hc & Hp & ->)|[(Hh & Hc & Hp & Hn & ->)
        |(Hacc & config & ->)]]]]; cbn zeta in *.
  - split; [discriminate|]. intros _. split; [intros (Hh' & _)|intros (Hh' & _)]; congruence.
  - split; [discriminate|]. intros _. split; [intros (_ & Hc' & _)|intros (_ & Hc' & _)]; congruence.
  - split; [done|discriminate].
  - split; [discriminate|]. intros _. split; [done|]. intros (_ & _ & Hp'). congruence.
  - split; discriminate.
Qed.

(** X4. With no option given beyond the control network and the camera
    files, the options are those the documentation of the program names: the
    reference solver, at most 30 iterations, input read from and results
    written to the current directory, no outlier removal, no snapshots. *)
Theorem parse_options_defaults `{External} (opts : ProgramOptions)
    (cmd : Supplied) (files : Files) (config : ProgramOptions) :
  parse_options opts cmd files = Ok config ->
  let vm := variables_map cmd files in
  s_bundle_adjustment_type vm = None -> s_max_iterations vm = None ->
  s_data_dir vm = None -> s_results_dir vm = None ->
  s_remove_outliers vm = None -> s_outlier_sd_cutoff vm = None ->
  s_save_iteration_data vm = None -> s_use_ba_type_dirs vm = None ->
  s_control vm = None -> s_lambda vm = None ->
  bundle_adjustment_type config = REF
  /\ max_iterations config = 30
  /\ data_dir config = "."%string
  /\ results_dir config = "."%string
  /\ results_dir_of config = "."%string
  /\ remove_outliers config = false
  /\ outlier_sd_cutoff config = 2%float
  /\ save_iteration_data config = false
  /\ use_ba_type_dirs config = false
  /\ control config = 0
  /\ use_user_lambda config = false.
Proof.
  intros Hok vm. unfold variables_map in vm. subst vm.
  intros Ht Hi Hd Hr Hm Hc Hs Hu Hctl Hl.
  parse_options_inv Hok. unfold results_dir_of. cbn in *.
  rewrite Ht, Hi, Hd, Hr, Hm, Hc, Hs, Hu, Hctl, Hl. cbn. done.
Qed.

Lemma parse_options_defaults_witness :
  exists config,
    @parse_options (Scripted.machine 0 None) Inputs.blank_opts
      More_inputs.bare_cmd More_inputs.bare_files = Ok config
    /\ max_iterations config = 30
    /\ results_dir_of config = "."%string.
Proof.
  assert (Hok : exists config,
            @parse_options (Scripted.machine 0 None) Inputs.blank_opts
              More_inputs.bare_cmd More_inputs.bare_files = Ok config)
    by (eexists; vm_compute; reflexivity).
  destruct Hok as [config Hok]. exists config. split; [exact Hok|].
  destruct (@parse_options_defaults (Scripted.machine 0 None) Inputs.blank_opts
              More_inputs.bare_cmd More_inputs.bare_files config Hok
              eq_refl eq_refl eq_refl eq_refl eq_refl eq_refl eq_refl eq_refl
              eq_refl eq_refl)
    as (_ & Hmax & _ & _ & Hdir & _).
  split; [exact Hmax | exact Hdir].
Defined.

(** X5. An option given on the command line is taken from there, whatever
    the configuration file says; one the command line does not give is
    taken from the configuration file; one that neither gives has its
    default value. Shown for the iteration count, the control, the data
    directory and the camera files. *)
Theorem command_line_overrides_config_file `{External} (opts : ProgramOptions)
    (cmd : Supplied) (files : Files) (config : ProgramOptions) :
  parse_options opts cmd files = Ok config ->
  let cfg := parse_config_file
               (content files (default ConfigFileDefault (s_config_file cmd))) in
  max_iterations config
  = match s_max_iterations cmd, s_max_iterations cfg with
    | Some n, _ => n
    | None, Some n => n
    | None, None => 30
    end
  /\ control config
     = match s_control cmd, s_control cfg with
       | Some n, _ => n
       | None, Some n => n
       | None, None => 0
       end
  /\ data_dir config
     = match s_data_dir cmd, s_data_dir cfg with
       | Some d, _ => d
       | None, Some d => d
       | None, None => "."%string
       end
  /\ camera_files config
     = match s_input_files cmd, s_input_files cfg with
       | Some l, _ => l
       | None, Some l => l
       | None, None => []
       end
  /\ report_level config = default 35 (s_report_level cmd).
Proof.
  intros Hok cfg. subst cfg. parse_options_inv Hok. cbn.
  destruct (s_max_iterations cmd), (s_control cmd), (s_data_dir cmd),
    (s_input_files cmd); cbn;
    repeat split; try reflexivity;
    match goal with |- context [default _ ?x] => by destruct x end.
Qed.

Lemma command_line_overrides_config_file_witness :
  exists config,
    @parse_options More_inputs.seven_in_file Inputs.blank_opts
      More_inputs.five_cmd Inputs.some_files = Ok config
    /\ max_iterations config = 5.
Proof.
  assert (Hok : exists config,
            @parse_options More_inputs.seven_in_file Inputs.blank_opts
              More_inputs.five_cmd Inputs.some_files = Ok config)
    by (eexists; vm_compute; reflexivity).
  destruct Hok as [config Hok]. exists config. split; [exact Hok|].
  exact (proj1 (@command_line_overrides_config_file More_inputs.seven_in_file
                  Inputs.blank_opts More_inputs.five_cmd Inputs.some_files
                  config Hok)).
Defined.

(** ** Indeterminate options *)

Lemma parse_options_with_lambda `{External} (l : float) (opts : ProgramOptions)
    (cmd : Supplied) (files : Files) :
  parse_options (with_lambda l opts) cmd files
  = match parse_options opts cmd files with
    | Ok config =>
        Ok (if use_user_lambda config then config else with_lambda l config)
    | Throw e => Throw e
    | Exit c => Exit c
    end.
Proof.
  unfold parse_options. cbn zeta.
  repeat match goal with
         | |- context [if ?c then Exit _ else _] => destruct c; [reflexivity|]
         end.
  cbn. by destruct (first_of (s_lambda cmd) _).
Qed.

Section Lambda.
Context `{External} {A : Type} `{AdjusterT A}.

Lemma adjust_bundles_unset_lambda (l : float) (fuel : nat) (strategy : Strategy)
    (ba_model : BundleAdjustmentModel) (cost_func : CostT)
    (config : ProgramOptions) (ba_type_str : string) (w : World) :
  use_user_lambda config = false ->
  adjust_bundles fuel strategy ba_model cost_func (with_lambda l config)
    ba_type_str w
  = adjust_bundles fuel strategy ba_model cost_func config ba_type_str w.
Proof.
  intros Hunset. destruct config. cbn in Hunset. subst. reflexivity.
Qed.

End Lambda.

(** X6. The value [lambda] has before the options are read, which is
    indeterminate, never reaches the solver: [main] gives the same result
    whatever that value is. (When no source gives a lambda the options keep
    the indeterminate value, but then [use_user_lambda] is false and
    [adjust_bundles] does not call [set_lambda].) *)
Theorem main_ignores_indeterminate_lambda `{External} {A : Type} `{AdjusterT A}
    (l : float) (fuel : nat) (opts : ProgramOptions) (cmd : Supplied) (w : World) :
  main fuel (with_lambda l opts) cmd w = main fuel opts cmd w.
Proof.
  unfold main. rewrite parse_options_with_lambda.
  destruct (parse_options opts cmd (files w)) as [config|e|c]; [|done|done].
  destruct (use_user_lambda config) eqn:Hunset; [done|].
  cbn [lift bind_fuel].
  change (results_dir (with_lambda l config)) with (results_dir config).
  change (use_ba_type_dirs (with_lambda l config)) with (use_ba_type_dirs config).
  change (bundle_adjustment_type (with_lambda l config))
    with (bundle_adjustment_type config).
  change (data_dir (with_lambda l config)) with (data_dir config).
  change (cnet_file (with_lambda l config)) with (cnet_file config).
  change (camera_files (with_lambda l config)) with (camera_files config).
  change (camera_position_sigma (with_lambda l config))
    with (camera_position_sigma config).
  change (camera_pose_sigma (with_lambda l config)) with (camera_pose_sigma config).
  change (gcp_sigma (with_lambda l config)) with (gcp_sigma config).
  change (huber_param (with_lambda l config)) with (huber_param config).
  change (cauchy_param (with_lambda l config)) with (cauchy_param config).
  destruct (create_data_dir _ _) as [files1| |]; cbn [bind_fuel]; [|done|done].
  destruct (load_control_network _ _) as [cnet| |]; cbn [bind_fuel]; [|done|done].
  destruct (load_camera_models _ _ _) as [camera_models| |]; cbn [bind_fuel];
    [|done|done].
  destruct (BundleAdjustmentModel_new _ _ _ _ _) as [ba_model| |];
    cbn [bind_fuel]; [|done|done].
  destruct (bundle_adjustment_type config);
    by apply adjust_bundles_unset_lambda.
Qed.

(** X7. The Huber and Cauchy parameters have no such guard. When no source
    gives them, the options keep the indeterminate values they had before
    the options were read, and with the sparse Huber solver chosen [main]
    builds the cost function from that value: the result of [main] depends
    on it. *)
Theorem huber_param_indeterminate_is_used :
  (forall (E : External) opts cmd files config,
     parse_options opts cmd files = Ok config ->
     (s_huber_param (variables_map cmd files) = None ->
      huber_param config = huber_param opts)
     /\ (s_cauchy_param (variables_map cmd files) = None ->
         cauchy_param config = cauchy_param opts))
  /\ (exists out out',
        @main (Scripted.machine 0 None) Scripted.Solver
          (Scripted.adjuster Inputs.two_steps) 30
          (with_huber_param 1%float Inputs.blank_opts) More_inputs.huber_cmd
          Inputs.some_world = Some (Ok out)
        /\ @main (Scripted.machine 0 None) Scripted.Solver
             (Scripted.adjuster Inputs.two_steps) 30
             (with_huber_param 2%float Inputs.blank_opts) More_inputs.huber_cmd
             Inputs.some_world = Some (Ok out')
        /\ Scripted.sv_cost (out_adjuster out) = HuberError 1%float
        /\ Scripted.sv_cost (out_adjuster out') = HuberError 2%float)
  /\ ~ (forall (E : External) (A : Type) (Adj : AdjusterT A) p fuel opts cmd w,
          main fuel (with_huber_param p opts) cmd w = main fuel opts cmd w).
Proof.
  split; [|split].
  - intros E opts cmd files config Hok. unfold variables_map.
    parse_options_inv Hok. cbn. split; by intros ->.
  - eexists. eexists. split; [vm_compute; reflexivity|].
    split; [vm_compute; reflexivity|]. split; reflexivity.
  - intros Hall.
    specialize (Hall (Scripted.machine 0 None) Scripted.Solver
                  (Scripted.adjuster Inputs.two_steps) 2%float 30%nat
                  (with_huber_param 1%float Inputs.blank_opts)
                  More_inputs.huber_cmd Inputs.some_world).
    vm_compute in Hall. discriminate Hall.
Qed.


(** ** Loading the cameras *)

Lemma load_camera_models_Ok `{External} (camera_files : list string) (dir : path)
    (files : Files) (cams : CameraVector) :
  load_camera_models camera_files dir files = Ok cams <->
  Forall2 (fun file cam =>
             read_pinhole files
               (if has_parent_path file then file else path_join dir file)
             = Ok cam)
    camera_files cams.
Proof.
  split.
  - revert cams. induction camera_files as [|file rest IH]; intros cams; cbn.
    + intros [= <-]. constructor.
    + assert (Hfile : (if negb (has_parent_path file) then path_join dir file
                       else file)
                      = if has_parent_path file then file else path_join dir file)
        by (by destruct (has_parent_path file)).
      rewrite Hfile.
      destruct (read_pinhole files _) as [cam|e|c] eqn:Hread; cbn; try discriminate.
      destruct (load_camera_models rest dir files) as [cams'|e|c]; cbn;
        try discriminate.
      intros [= <-]. constructor; [done | by apply IH].
  - induction 1 as [|file cam rest cams Hread Hrest IH]; cbn; [done|].
    assert (Hfile : (if negb (has_parent_path file) then path_join dir file
                     else file)
                    = if has_parent_path file then file else path_join dir file)
      by (by destruct (has_parent_path file)).
    rewrite Hfile, Hread. cbn. by rewrite IH.
Qed.

(** X8. [load_camera_models] succeeds exactly when every camera file can be
    read, a file without a parent path being looked for in the data
    directory; it then returns one camera per file, in the order of the
    files. When a file cannot be read, the exception of the first such file
    is the result. *)
Theorem load_camera_models_order `{External} (camera_files : list string)
    (dir : path) (files : Files) :
  let source file := if has_parent_path file then file else path_join dir file in
  (forall cams,
     load_camera_models camera_files dir files = Ok cams <->
     Forall2 (fun file cam => read_pinhole files (source file) = Ok cam)
       camera_files cams)
  /\ (forall cams,
        load_camera_models camera_files dir files = Ok cams ->
        length cams = length camera_files)
  /\ (forall e,
        load_camera_models camera_files dir files = Throw e ->
        exists before file after cams,
          camera_files = before ++ file :: after
          /\ load_camera_models before dir files = Ok cams
          /\ read_pinhole files (source file) = Throw e).
Proof.
  cbn zeta. split; [apply load_camera_models_Ok|]. split.
  - intros cams Hok. apply load_camera_models_Ok in Hok.
    symmetry. by eapply Forall2_length.
  - induction camera_files as [|file rest IH]; intros e; cbn; [discriminate|].
    assert (Hfile : (if negb (has_parent_path file) then path_join dir file
                     else file)
                    = if has_parent_path file then file else path_join dir file)
      by (by destruct (has_parent_path file)).
    rewrite Hfile.
    destruct (read_pinhole files _) as [cam|e'|c] eqn:Hread; cbn.
    + destruct (load_camera_models rest dir files) as [cams'|e'|c] eqn:Hrest;
        cbn; try discriminate.
      intros [= <-].
      destruct (IH e' eq_refl) as (before & f & after & cams & -> & Hb & Hf).
      exists (file :: before), f, after, (cam :: cams).
      split; [done|]. split; [|done].
      cbn. rewrite Hfile, Hread. cbn. by rewrite Hb.
    + intros [= <-]. by exists [], file, rest, [].
    + discriminate.
Qed.

(** ** Parameters of the model *)

(** X9. Setting the parameters of a camera in range and getting them back
    gives what was set; the parameters of the other cameras, all point
    parameters, the targets and the sizes are as before. The same holds for
    the parameters of a point. *)
Theorem parameters_set_then_get (m : BundleAdjustmentModel) (j i : nat)
    (a_j : camera_vector_t) (b_i : point_vector_t) :
  (j < num_cameras m)%nat -> (i < num_points m)%nat ->
  A_parameters (set_A_parameters j a_j m) j = a_j
  /\ B_parameters (set_B_parameters i b_i m) i = b_i
  /\ (forall j', j' <> j ->
      A_parameters (set_A_parameters j a_j m) j' = A_parameters m j')
  /\ (forall i', i' <> i ->
      B_parameters (set_B_parameters i b_i m) i' = B_parameters m i')
  /\ (forall i', B_parameters (set_A_parameters j a_j m) i' = B_parameters m i')
  /\ (forall j', A_parameters (set_B_parameters i b_i m) j' = A_parameters m j')
  /\ (forall j', A_target (set_A_parameters j a_j m) j' = A_target m j'
                 /\ A_target (set_B_parameters i b_i m) j' = A_target m j')
  /\ (forall i', B_target (set_A_parameters j a_j m) i' = B_target m i'
                 /\ B_target (set_B_parameters i b_i m) i' = B_target m i')
  /\ num_cameras (set_A_parameters j a_j m) = num_cameras m
  /\ num_points (set_B_parameters i b_i m) = num_points m.
Proof.
  unfold num_cameras, num_points, A_parameters, B_parameters, A_target, B_target,
    set_A_parameters, set_B_parameters; cbn.
  intros Hj Hi. split_and!; try done.
  - by apply list_lookup_total_insert_eq.
  - by apply list_lookup_total_insert_eq.
  - intros j' Hne. by apply list_lookup_total_insert_ne.
  - intros i' Hne. by apply list_lookup_total_insert_ne.
  - apply length_insert.
  - apply length_insert.
Qed.

Lemma parameters_set_then_get_witness :
  A_parameters (set_A_parameters 0 (V6 1 2 3 4 5 6)%float Inputs.one_model) 0
  = V6 1 2 3 4 5 6%float.
Proof.
  refine (proj1 (parameters_set_then_get Inputs.one_model 0 0
                   (V6 1 2 3 4 5 6)%float Vector3_default _ _));
    vm_compute; lia.
Defined.

(** ** What a pass keeps *)

Lemma same_frame_refl (m : BundleAdjustmentModel) : same_frame m m.
Proof. by repeat split. Qed.

Lemma same_frame_trans (m1 m2 m3 : BundleAdjustmentModel) :
  same_frame m1 m2 -> same_frame m2 m3 -> same_frame m1 m3.
Proof.
  unfold same_frame.
  intros (-> & -> & -> & -> & -> & -> & -> & -> & -> & ->). done.
Qed.

Lemma apply_write_same_frame (m : BundleAdjustmentModel) (x : ModelWrite) :
  same_frame m (apply_write m x).
Proof.
  destruct x; unfold same_frame, num_cameras, num_points; cbn;
    rewrite ?length_insert; by repeat split.
Qed.

Lemma apply_writes_same_frame (ws : list ModelWrite) (m : BundleAdjustmentModel) :
  same_frame m (apply_writes ws m).
Proof.
  unfold apply_writes. revert m.
  induction ws as [|x ws IH]; intros m; cbn [foldl]; [apply same_frame_refl|].
  eapply same_frame_trans; [apply apply_write_same_frame | apply IH].
Qed.

Section Frame.
Context `{External} {A : Type} `{AdjusterT A}.

Lemma advance_same_frame (n : nat) (st : LoopState) :
  same_frame (l_model st) (l_model (advance n st)).
Proof.
  revert st. induction n as [|n IH]; intros st; cbn [advance];
    [apply same_frame_refl|].
  eapply same_frame_trans; [|apply IH].
  unfold loop_next; cbn [l_model]. apply apply_writes_same_frame.
Qed.

Lemma run_bundle_adjustment_same_frame (fuel : nat) (adjuster : A)
    (model : BundleAdjustmentModel) (reporter : Reporter) (results_dir : path)
    (max_iter : Z) (save : bool) (w : World) (fit : Fit) :
  run_bundle_adjustment fuel adjuster model reporter results_dir max_iter save w
  = Some fit ->
  same_frame model (fit_model fit).
Proof.
  intros Hrun. apply run_bundle_adjustment_Some in Hrun as (n & -> & _).
  cbn [fit_model]. apply (advance_same_frame n (loop_start adjuster model)).
Qed.

End Frame.

(** X10. A pass changes nothing of the model but the camera and point
    parameters: the cameras, the network, the targets, the three sigmas, the
    number of observations and the sizes of the parameter arrays are after
    the pass what they were before it. *)
Theorem pass_keeps_frame `{External} {A : Type} `{AdjusterT A} (fuel : nat)
    (adjuster : A) (model : BundleAdjustmentModel) (reporter : Reporter)
    (results_dir : path) (max_iter : Z) (save : bool) (w : World) (fit : Fit) :
  run_bundle_adjustment fuel adjuster model reporter results_dir max_iter save w
  = Some fit ->
  same_frame model (fit_model fit)
  /\ (forall j, A_target (fit_model fit) j = A_target model j)
  /\ (forall i, B_target (fit_model fit) i = B_target model i).
Proof.
  intros Hrun. apply run_bundle_adjustment_same_frame in Hrun.
  split; [exact Hrun|].
  destruct Hrun as (_ & _ & Ha & Hb & _).
  unfold A_target, B_target. rewrite Ha, Hb. done.
Qed.

Lemma pass_keeps_frame_witness :
  exists fit,
    @run_bundle_adjustment (Scripted.machine 0 None) Scripted.Solver
      (Scripted.adjuster Inputs.two_steps) 30 Inputs.new_solver Inputs.one_model
      (mkReporter "Reference" 35) "results" 30 true Inputs.some_world = Some fit
    /\ same_frame Inputs.one_model (fit_model fit)
    /\ a (fit_model fit) <> a Inputs.one_model.
Proof.
  assert (Hrun : exists fit,
            @run_bundle_adjustment (Scripted.machine 0 None) Scripted.Solver
              (Scripted.adjuster Inputs.two_steps) 30 Inputs.new_solver
              Inputs.one_model (mkReporter "Reference" 35) "results" 30 true
              Inputs.some_world = Some fit
            /\ a (fit_model fit) <> a Inputs.one_model).
  { eexists. split; [vm_compute; reflexivity|]. cbn. intros Heq. discriminate Heq. }
  destruct Hrun as (fit & Hrun & Hmoved). exists fit.
  split; [exact Hrun|]. split; [|exact Hmoved].
  exact (proj1 (@pass_keeps_frame (Scripted.machine 0 None) Scripted.Solver
                  (Scripted.adjuster Inputs.two_steps) 30 Inputs.new_solver
                  Inputs.one_model (mkReporter "Reference" 35) "results" 30 true
                  Inputs.some_world fit Hrun)).
Defined.

(** ** The calls of [adjust_bundles] *)


Section Calls.
Context `{External} {A : Type} `{AdjusterT A}.

(** The world a pass leaves, by its calls. *)
Lemma run_bundle_adjustment_calls (fuel : nat) (adjuster : A)
    (model : BundleAdjustmentModel) (reporter : Reporter) (results_dir : path)
    (max_iter : Z) (save : bool) (w : World) (fit : Fit) :
  run_bundle_adjustment fuel adjuster model reporter results_dir max_iter save w
  = Some fit ->
  exists n,
    calls (fit_world fit)
    = calls w ++ replicate n CallUpdate ++ [CallEndTieIn (title reporter)]
    /\ (forall k, (k < n)%nat ->
        stops max_iter (advance k (loop_start adjuster model)) = false).
Proof.
  intros Hrun. apply run_bundle_adjustment_Some in Hrun as (n & -> & _ & Hbefore).
  exists n. split; [|exact Hbefore].
  cbn. by rewrite calls_world_after, <- app_assoc.
Qed.

Lemma first_pass_world_calls (ba_model : BundleAdjustmentModel)
    (config : ProgramOptions) (ba_type_str : string) (w : World) :
  calls (first_pass_world ba_model config ba_type_str w) = calls w.
Proof.
  unfold first_pass_world. by destruct (save_iteration_data config).
Qed.

End Calls.

(** X11. With outlier removal off and the fuel the budget asks for,
    [adjust_bundles] always returns normally, whether the solver converged
    or used up the budget: it is the first pass alone, it makes at most
    [max_iterations] updates and then one [end_tie_in], it never runs the
    external command, and the model keeps its frame. *)
Theorem adjust_bundles_without_removal `{External} {A : Type} `{AdjusterT A}
    `{!AdjusterLaws A} (fuel : nat) (strategy : Strategy)
    (ba_model : BundleAdjustmentModel) (cost_func : CostT)
    (config : ProgramOptions) (ba_type_str : string) (w : World) :
  remove_outliers config = false ->
  (Z.to_nat (max_iterations config) <= fuel)%nat ->
  exists fit n,
    first_pass fuel strategy ba_model cost_func config ba_type_str w = Some fit
    /\ adjust_bundles fuel strategy ba_model cost_func config ba_type_str w
       = Some (Ok (mkOutcome (fit_model fit) (fit_adjuster fit) None
                     (fit_world fit)))
    /\ (n <= Z.to_nat (max_iterations config))%nat
    /\ calls (fit_world fit)
       = calls w ++ replicate n CallUpdate ++ [CallEndTieIn ba_type_str]
    /\ same_frame ba_model (fit_model fit).
Proof.
  intros Hoff Hfuel.
  destruct (pass_adjusters_new strategy ba_model cost_func config) as [Hnew _].
  destruct (run_bundle_adjustment_total fuel
              (first_pass_adjuster strategy ba_model cost_func config) ba_model
              (mkReporter ba_type_str (report_level config))
              (results_dir_of config) (max_iterations config)
              (save_iteration_data config)
              (first_pass_world ba_model config ba_type_str w))
    as [fit Hfit]; [rewrite Hnew; by rewrite Z.sub_0_r|].
  pose proof (run_bundle_adjustment_calls _ _ _ _ _ _ _ _ _ Hfit)
    as (n & Hcalls & Hbefore).
  pose proof (run_bundle_adjustment_same_frame _ _ _ _ _ _ _ _ _ Hfit) as Hframe.
  apply steps_within_budget in Hbefore. cbn in Hbefore.
  rewrite Hnew, Z.sub_0_r in Hbefore.
  rewrite first_pass_world_calls in Hcalls.
  exists fit, n. split; [exact Hfit|]. split; [|done].
  unfold first_pass, first_pass_adjuster, first_pass_world in Hfit.
  unfold adjust_bundles. rewrite Hfit, Hoff. reflexivity.
Qed.

Lemma adjust_bundles_without_removal_witness :
  exists fit n,
    @adjust_bundles (Scripted.machine 0 None) Scripted.Solver
      (Scripted.adjuster Dump_inputs.never_settles) 3 AdjustRef Inputs.one_model
      L2Error (Inputs.options 0 3 false false false) "Reference"
      Inputs.some_world
    = Some (Ok (mkOutcome (fit_model fit) (fit_adjuster fit) None (fit_world fit)))
    /\ (n <= 3)%nat.
Proof.
  destruct (@adjust_bundles_without_removal (Scripted.machine 0 None)
              Scripted.Solver (Scripted.adjuster Dump_inputs.never_settles)
              (Scripted.laws Dump_inputs.never_settles) 3 AdjustRef
              Inputs.one_model L2Error (Inputs.options 0 3 false false false)
              "Reference" Inputs.some_world eq_refl)
    as (fit & n & _ & Hout & Hn & _).
  - vm_compute. lia.
  - exists fit, n. split; [exact Hout | exact Hn].
Defined.



(** X13. A solver that never settles uses the budget up exactly: when every
    update within the budget returns a delta that is not zero and
    tolerances that are not below 1e-3, a pass on a new solver makes exactly
    [max_iter] updates (none when [max_iter] is negative) and ends
    normally. *)
Theorem unsettled_solver_uses_budget `{External} {A : Type} `{AdjusterT A}
    `{!AdjusterLaws A} (fuel : nat) (adjuster : A)
    (model : BundleAdjustmentModel) (reporter : Reporter) (results_dir : path)
    (max_iter : Z) (save : bool) (w : World) :
  iterations adjuster = 0 ->
  (Z.to_nat max_iter <= fuel)%nat ->
  (forall k, (k < Z.to_nat max_iter)%nat ->
     let st := advance k (loop_start adjuster model) in
     Double.truthy (l_delta st) = true
     /\ Double.lt (l_abs_tol st) 1e-3%float = false
     /\ Double.lt (l_rel_tol st) 1e-3%float = false) ->
  exists fit,
    run_bundle_adjustment fuel adjuster model reporter results_dir max_iter
      save w = Some fit
    /\ calls (fit_world fit)
       = calls w ++ replicate (Z.to_nat max_iter) CallUpdate
         ++ [CallEndTieIn (title reporter)]
    /\ iterations (fit_adjuster fit) = Z.max 0 max_iter.
Proof.
  intros Hnew Hfuel Hunsettled.
  set (st := loop_start adjuster model).
  assert (Hstop : stops max_iter (advance (Z.to_nat max_iter) st) = true).
  { unfold stops. rewrite iterations_advance. cbn [l_adjuster st loop_start].
    rewrite Hnew.
    destruct (Z.geb_spec (0 + Z.of_nat (Z.to_nat max_iter)) max_iter); [|lia].
    by rewrite orb_true_r. }
  assert (Hbefore : forall k, (k < Z.to_nat max_iter)%nat ->
                              stops max_iter (advance k st) = false).
  { intros k Hk. destruct (Hunsettled k Hk) as (Hd & Ha & Hr).
    unfold stops. fold st in Hd, Ha, Hr. rewrite Hd, Ha, Hr.
    rewrite iterations_advance. cbn [l_adjuster st loop_start]. rewrite Hnew.
    destruct (Z.geb_spec (0 + Z.of_nat k) max_iter); [lia|done]. }
  pose proof (run_loop_reaches results_dir max_iter save (Z.to_nat max_iter)
                fuel st w Hfuel Hstop Hbefore) as Hrun.
  cbn [st loop_start l_adjuster l_model l_abs_tol l_rel_tol l_delta] in Hrun.
  unfold run_bundle_adjustment. rewrite Hrun.
  eexists. split; [reflexivity|]. cbn.
  rewrite calls_world_after, <- app_assoc. split; [done|].
  rewrite (iterations_advance (Z.to_nat max_iter) st).
  cbn [l_adjuster st loop_start]. lia.
Qed.

Lemma unsettled_solver_uses_budget_witness :
  exists fit,
    @run_bundle_adjustment (Scripted.machine 0 None) Scripted.Solver
      (Scripted.adjuster Dump_inputs.never_settles) 3
      (@adjuster_new _ (Scripted.adjuster Dump_inputs.never_settles) AdjustRef
         Inputs.one_model L2Error)
      Inputs.one_model (mkReporter "Reference" 35) "results" 3 false
      Inputs.some_world = Some fit
    /\ calls (fit_world fit)
       = [CallUpdate; CallUpdate; CallUpdate; CallEndTieIn "Reference"].
Proof.
  destruct (@unsettled_solver_uses_budget (Scripted.machine 0 None)
              Scripted.Solver (Scripted.adjuster Dump_inputs.never_settles)
              (Scripted.laws Dump_inputs.never_settles) 3
              (@adjuster_new _ (Scripted.adjuster Dump_inputs.never_settles)
                 AdjustRef Inputs.one_model L2Error)
              Inputs.one_model (mkReporter "Reference" 35) "results" 3 false
              Inputs.some_world eq_refl)
    as (fit & Hrun & Hcalls & _).
  - vm_compute. lia.
  - intros k Hk. change (Z.to_nat 3) with 3%nat in Hk.
    destruct k as [|[|[|k]]]; [by vm_compute|by vm_compute|by vm_compute|lia].
  - exists fit. split; [exact Hrun | exact Hcalls].
Defined.


(** ** [main] and its inputs *)

Section Main_facts.
Context `{External} {A : Type} `{AdjusterT A}.

(** What a [main] that got through [adjust_bundles] went through. *)
Lemma main_Ok (fuel : nat) (opts : ProgramOptions) (cmd : Supplied) (w : World)
    (out : Outcome) :
  main fuel opts cmd w = Some (Ok out) ->
  exists config files1 cnet cams ba_model strategy cost_func ba_type_str,
    parse_options opts cmd (files w) = Ok config
    /\ create_data_dir (created_dir config) (files w) = Ok files1
    /\ load_control_network (path_join (data_dir config) (cnet_file config))
         files1 = Ok cnet
    /\ load_camera_models (camera_files config) (data_dir config) files1
       = Ok cams
    /\ BundleAdjustmentModel_new cams cnet (camera_position_sigma config)
         (camera_pose_sigma config) (gcp_sigma config) = Ok ba_model
    /\ adjust_bundles fuel strategy ba_model cost_func config ba_type_str
         (mkWorld files1 (calls w))
       = Some (Ok out).
Proof.
  unfold main.
  destruct (parse_options opts cmd (files w)) as [config| |]; cbn [lift bind_fuel];
    [|discriminate|discriminate].
  change (if use_ba_type_dirs config
          then path_join (results_dir config)
                 (ba_type_to_string (bundle_adjustment_type config))
          else results_dir config) with (created_dir config).
  destruct (create_data_dir _ _) as [files1| |] eqn:Hdir; cbn [bind_fuel];
    [|discriminate|discriminate].
  cbn [files calls].
  destruct (load_control_network _ _) as [cnet| |] eqn:Hcnet; cbn [bind_fuel];
    [|discriminate|discriminate].
  destruct (load_camera_models _ _ _) as [cams| |] eqn:Hcams; cbn [bind_fuel];
    [|discriminate|discriminate].
  destruct (BundleAdjustmentModel_new _ _ _ _ _) as [ba_model| |] eqn:Hnew;
    cbn [bind_fuel]; [|discriminate|discriminate].
  intros Hout. exists config, files1, cnet, cams, ba_model.
  destruct (bundle_adjustment_type config); do 3 eexists;
    (split; [reflexivity|]); (split; [exact Hdir|]);
    (split; [exact Hcnet|]); (split; [exact Hcams|]);
    (split; [exact Hnew|]); exact Hout.
Qed.

(** The model [adjust_bundles] leaves has the cameras it was given. *)
Lemma adjust_bundles_cameras (fuel : nat) (strategy : Strategy)
    (ba_model : BundleAdjustmentModel) (cost_func : CostT)
    (config : ProgramOptions) (ba_type_str : string) (w : World) (out : Outcome) :
  adjust_bundles fuel strategy ba_model cost_func config ba_type_str w
  = Some (Ok out) ->
  num_cameras ba_model = length (m_cameras ba_model) ->
  m_cameras (out_model out) = m_cameras ba_model
  /\ num_cameras (out_model out) = length (m_cameras ba_model).
Proof.
  intros Hout Hsize.
  apply adjust_bundles_Ok in Hout as (fit1 & Hfit1 & Hrest).
  unfold first_pass in Hfit1.
  pose proof (run_bundle_adjustment_same_frame _ _ _ _ _ _ _ _ _ Hfit1)
    as (Hcams1 & _ & _ & _ & Hnc1 & _).
  destruct (remove_outliers config).
  - destruct Hrest as (w1 & cnet & m2 & fit2 & _ & _ & Hm2 & Hfit2 & ->).
    unfold second_pass in Hfit2.
    pose proof (run_bundle_adjustment_same_frame _ _ _ _ _ _ _ _ _ Hfit2)
      as (Hcams2 & _ & _ & _ & Hnc2 & _).
    apply BundleAdjustmentModel_new_Ok in Hm2 as (_ & n & ->).
    cbn [out_model]. rewrite Hcams2, Hnc2. unfold cameras, num_cameras. cbn.
    rewrite length_replicate, Hcams1. done.
  - subst out. cbn [out_model]. rewrite Hcams1, Hnc1. done.
Qed.

End Main_facts.

(** X14. When [main] gets through [adjust_bundles], the model it then
    reports from has exactly one camera per camera file of the options,
    whether or not outlier removal ran; so [write_adjusted_camera_models],
    which reads [config.camera_files[i]] for every camera [i] of the model,
    stays within the list. *)
Theorem main_one_camera_per_file `{External} {A : Type} `{AdjusterT A}
    (fuel : nat) (opts : ProgramOptions) (cmd : Supplied) (w : World)
    (out : Outcome) :
  main fuel opts cmd w = Some (Ok out) ->
  exists config,
    parse_options opts cmd (files w) = Ok config
    /\ num_cameras (out_model out) = length (camera_files config)
    /\ length (cameras (out_model out)) = length (camera_files config)
    /\ forall i, (i < num_cameras (out_model out))%nat ->
                 is_Some (camera_files config !! i).
Proof.
  intros Hout.
  apply main_Ok in Hout
    as (config & files1 & cnet & cams & ba_model & strategy & cost_func
        & ba_type_str & Hparse & _ & _ & Hcams & Hnew & Hout).
  apply load_camera_models_Ok, Forall2_length in Hcams.
  apply BundleAdjustmentModel_new_Ok in Hnew as (_ & n & ->).
  apply adjust_bundles_cameras in Hout as [Hc Hn];
    [|unfold num_cameras; cbn; by rewrite length_replicate].
  cbn [fresh_model m_cameras] in Hc, Hn.
  exists config. split; [exact Hparse|].
  unfold cameras. rewrite Hc, Hn. split; [done|]. split; [done|].
  intros i Hi. apply lookup_lt_is_Some. lia.
Qed.

Lemma main_one_camera_per_file_witness :
  exists out,
    @main Inputs.editor_ok Scripted.Solver (Scripted.adjuster Inputs.two_steps)
      30 Inputs.blank_opts Inputs.cutoff_cmd Inputs.some_world = Some (Ok out)
    /\ num_cameras (out_model out) = 1%nat.
Proof.
  assert (Hrun : exists out,
            @main Inputs.editor_ok Scripted.Solver
              (Scripted.adjuster Inputs.two_steps) 30 Inputs.blank_opts
              Inputs.cutoff_cmd Inputs.some_world = Some (Ok out)
            /\ num_cameras (out_model out) = 1%nat)
    by (eexists; split; vm_compute; reflexivity).
  destruct Hrun as (out & Hrun & Hone). exists out. split; [exact Hrun|].
  destruct (@main_one_camera_per_file Inputs.editor_ok Scripted.Solver
              (Scripted.adjuster Inputs.two_steps) 30 Inputs.blank_opts
              Inputs.cutoff_cmd Inputs.some_world out Hrun)
    as (config & _ & _ & _ & _).
  exact Hone.
Defined.

(** X15. When the results directory is there or can be made and the inputs
    load, a network that names a camera beyond the camera files given makes
    [main] end with [ArgumentErr], whatever the fuel: the model is not
    built and no solver is run. *)
Theorem main_rejects_unknown_camera `{External} {A : Type} `{AdjusterT A}
    (fuel : nat) (opts : ProgramOptions) (cmd : Supplied) (w : World)
    (config : ProgramOptions) (files1 : Files) (cnet : ControlNetwork)
    (cams : CameraVector) :
  parse_options opts cmd (files w) = Ok config ->
  create_data_dir (created_dir config) (files w) = Ok files1 ->
  load_control_network (path_join (data_dir config) (cnet_file config)) files1
  = Ok cnet ->
  load_camera_models (camera_files config) (data_dir config) files1 = Ok cams ->
  ~ indices_in_range (length (camera_files config)) cnet ->
  main fuel opts cmd w = Some (Throw (ArgumentErr invalid_control_point)).
Proof.
  intros Hparse Hdir Hcnet Hcams Hbad.
  unfold main. rewrite Hparse. cbn [lift bind_fuel].
  unfold created_dir in Hdir. rewrite Hdir.
  cbn [bind_fuel files]. rewrite Hcnet, Hcams. cbn [bind_fuel].
  rewrite BundleAdjustmentModel_new_check.
  apply load_camera_models_Ok, Forall2_length in Hcams.
  pose proof (check_network_spec (length cams) cnet) as Hcheck.
  destruct (check_network _ _) as [u|e|c]; cbn [bind bind_fuel].
  - exfalso. apply Hbad. by rewrite Hcams.
  - by destruct Hcheck as [_ ->].
  - done.
Qed.

Lemma main_rejects_unknown_camera_witness :
  @main (Scripted.machine 0 None) Scripted.Solver
    (Scripted.adjuster Inputs.two_steps) 0 Inputs.blank_opts Inputs.minimal_cmd
    (mkWorld Dump_inputs.bad_index_files [])
  = Some (Throw (ArgumentErr invalid_control_point)).
Proof.
  apply (@main_rejects_unknown_camera (Scripted.machine 0 None) Scripted.Solver
           (Scripted.adjuster Inputs.two_steps) 0 Inputs.blank_opts
           Inputs.minimal_cmd (mkWorld Dump_inputs.bad_index_files [])
           (mkProgramOptions REF 0%float 0 0%float 0%float 1%float 1e-16%float
              1e-16%float 2%float false false false false 30 35 30
              ["a.tsai"%string] "net.cnet" "data" "results" "ba_test.cfg")
           (<["results"%string := Directory]> Dump_inputs.bad_index_files)
           (Scripted.decode "1") [PinholeModel "data/a.tsai"]).
  - vm_compute. reflexivity.
  - vm_compute. reflexivity.
  - vm_compute. reflexivity.
  - vm_compute. reflexivity.
  - intros Hall. apply Forall_inv, Forall_inv in Hall. vm_compute in Hall. lia.
Defined.

(** ** Report files *)

Section Report_files.
Context `{External} {A : Type} `{AdjusterT A}.

Lemma lookup_world_after_cameras (results_dir : path) (n : nat)
    (st : LoopState) (w : World) (text : string) :
  opens (files w) (path_join results_dir CameraParamsReportFile) = true ->
  files w !! path_join results_dir CameraParamsReportFile = Some (File text) ->
  files (world_after results_dir true n st w)
    !! path_join results_dir CameraParamsReportFile
  = Some (File (text ++ camera_text n st)).
Proof.
  revert st w text. induction n as [|n IH]; intros st w text Hopen Hfile;
    cbn [world_after camera_text].
  - by rewrite string_app_nil_r.
  - rewrite (IH _ _ (text ++ render_rows (camera_snapshot (l_model (loop_next st))))%string).
    + by rewrite string_app_assoc.
    + by rewrite opens_save_iteration.
    + rewrite lookup_save_iteration_cameras. cbn [record_call files].
      rewrite Hopen. unfold content. by rewrite Hfile.
Qed.

Lemma lookup_world_after_points (results_dir : path) (n : nat)
    (st : LoopState) (w : World) (text : string) :
  opens (files w) (path_join results_dir PointsReportFile) = true ->
  files w !! path_join results_dir PointsReportFile = Some (File text) ->
  files (world_after results_dir true n st w)
    !! path_join results_dir PointsReportFile
  = Some (File (text ++ point_text n st)).
Proof.
  revert st w text. induction n as [|n IH]; intros st w text Hopen Hfile;
    cbn [world_after point_text].
  - by rewrite string_app_nil_r.
  - rewrite (IH _ _ (text ++ render_rows (point_snapshot (l_model (loop_next st))))%string).
    + by rewrite string_app_assoc.
    + by rewrite opens_save_iteration.
    + rewrite lookup_save_iteration_points. cbn [record_call files].
      rewrite Hopen. unfold content. by rewrite Hfile.
Qed.

End Report_files.

(** X16. A loop with snapshots on, started after [clear_report_files], leaves
    in a report file whose stream opens the snapshots of its own steps and
    nothing else, whatever the file held before. When the results directory
    is not there, neither [clear_report_files] nor the loop makes or changes
    any file: the snapshots are lost without an error. *)
Theorem cleared_report_files_hold_this_run `{External} {A : Type} `{AdjusterT A}
    (results_dir : path) (max_iter : Z) (fuel : nat)
    (st : LoopState) (w : World) (fit : Fit) :
  run_loop fuel (l_adjuster st) (l_model st) results_dir max_iter true
    (l_abs_tol st) (l_rel_tol st) (l_delta st)
    (with_files (clear_report_files CameraParamsReportFile PointsReportFile
                   results_dir) w)
  = Some fit ->
  exists n,
    fit_model fit = l_model (advance n st)
    /\ (opens (files w) (path_join results_dir CameraParamsReportFile) = true ->
        files (fit_world fit) !! path_join results_dir CameraParamsReportFile
        = Some (File (camera_text n st)))
    /\ (opens (files w) (path_join results_dir PointsReportFile) = true ->
        files (fit_world fit) !! path_join results_dir PointsReportFile
        = Some (File (point_text n st)))
    /\ (results_dir <> EmptyString ->
        is_directory (files w) results_dir = false ->
        files (fit_world fit) = files w).
Proof.
  intros Hrun.
  apply run_loop_Some in Hrun as (n & _ & -> & _ & _).
  cbn [fit_world fit_model]. exists n. split; [done|].
  unfold clear_report_files. cbn [with_files files]. split_and!.
  - intros Hopen.
    rewrite (lookup_world_after_cameras _ _ _ _ EmptyString); [done| |];
      cbn [with_files files].
    + by rewrite !opens_truncate_file.
    + rewrite lookup_truncate_file.
      rewrite decide_False by apply not_eq_sym, report_files_differ.
      rewrite lookup_truncate_file, decide_True by done. by rewrite Hopen.
  - intros Hopen.
    rewrite (lookup_world_after_points _ _ _ _ EmptyString); [done| |];
      cbn [with_files files].
    + by rewrite !opens_truncate_file.
    + rewrite lookup_truncate_file, decide_True by done.
      by rewrite opens_truncate_file, Hopen.
  - intros Hdir Hmissing.
    pose proof (opens_missing_directory (files w) results_dir
                  CameraParamsReportFile Hdir eq_refl Hmissing) as Hcam.
    pose proof (opens_missing_directory (files w) results_dir
                  PointsReportFile Hdir eq_refl Hmissing) as Hpts.
    rewrite files_world_after_closed; cbn [with_files files];
      rewrite ?opens_truncate_file; try done.
    unfold truncate_file at 2. rewrite Hcam. unfold truncate_file.
    by rewrite Hpts.
Qed.

Lemma cleared_report_files_hold_this_run_witness :
  exists fit n,
    @run_loop (Scripted.machine 0 None) Scripted.Solver
      (Scripted.adjuster Inputs.two_steps) 30 Inputs.new_solver Inputs.one_model
      "results" 30 true 1e10%float 1e10%float 2%float
      (with_files (@clear_report_files CameraParamsReportFile PointsReportFile
                     "results") Inputs.some_world) = Some fit
    /\ files (fit_world fit) !! "results/iterPointsParam.txt"%string
       = Some (File (@point_text (Scripted.machine 0 None) Scripted.Solver
                       (Scripted.adjuster Inputs.two_steps) n
                       (@loop_start Scripted.Solver Inputs.new_solver
                          Inputs.one_model))).
Proof.
  assert (Hrun : exists fit,
            @run_loop (Scripted.machine 0 None) Scripted.Solver
              (Scripted.adjuster Inputs.two_steps) 30 Inputs.new_solver
              Inputs.one_model "results" 30 true 1e10%float 1e10%float 2%float
              (with_files (@clear_report_files CameraParamsReportFile
                             PointsReportFile "results") Inputs.some_world)
            = Some fit)
    by (eexists; vm_compute; reflexivity).
  destruct Hrun as [fit Hrun]. exists fit.
  destruct (@cleared_report_files_hold_this_run (Scripted.machine 0 None)
              Scripted.Solver (Scripted.adjuster Inputs.two_steps) "results" 30
              30
              (@loop_start Scripted.Solver Inputs.new_solver Inputs.one_model)
              Inputs.some_world fit Hrun) as (n & _ & _ & Hpoints & _).
  exists n. split; [exact Hrun|]. apply Hpoints. vm_compute. reflexivity.
Defined.

(** ** Directories *)

(** X18. The directory [adjust_bundles] writes its snapshots to and looks
    for the processed network in is the directory [main] creates, except
    when both [use_ba_type_dirs] and [remove_outliers] are set: the two
    directories then differ. *)
Theorem results_dir_is_created_dir (config : ProgramOptions) :
  results_dir_of config = created_dir config
  <-> use_ba_type_dirs config && remove_outliers config = false.
Proof.
  unfold results_dir_of, created_dir.
  destruct (use_ba_type_dirs config), (remove_outliers config); cbn; try done.
  split; [|done]. intros Heq. exfalso. revert Heq.
  generalize (ba_type_to_string (bundle_adjustment_type config)). intros t.
  unfold path_join. destruct (String.eqb _ _).
  - rewrite <- (string_app_nil_r t) at 2. intros Heq.
    apply string_app_inv_head in Heq. discriminate Heq.
  - intros Heq. do 2 apply string_app_inv_head in Heq.
    rewrite <- (string_app_nil_r t) in Heq at 2.
    apply string_app_inv_head in Heq. discriminate Heq.
Qed.

(** ** Diagnostics *)

Lemma gather_where {T S : Type} (body : nat -> list T -> list T)
    (h : nat -> list T) (idx : list nat) (init : list T) :
  (forall i acc, body i acc = acc ++ h i) ->
  foldl (fun acc i => body i acc) init idx = init ++ concat (map h idx).
Proof.
  intros Hbody. revert init.
  induction idx as [|i idx IH]; intros init; cbn.
  - by rewrite app_nil_r.
  - by rewrite IH, Hbody, <- app_assoc.
Qed.

Lemma length_concat_imap_where {X Y : Type} (p : X -> bool)
    (f : nat -> X -> list Y) (l : list X) :
  (forall j x, length (f j x) = if p x then 1%nat else 0%nat) ->
  length (concat (imap f l)) = length (List.filter p l).
Proof.
  revert f. induction l as [|y l IH]; intros f Hf; cbn; [done|].
  rewrite length_app, Hf, (IH (f ∘ S)) by (intros; apply Hf).
  by destruct (p y).
Qed.

Lemma length_concat_imap_sum {X Y : Type} (f : nat -> X -> list Y)
    (g : X -> nat) (l : list X) :
  (forall j x, length (f j x) = g x) ->
  length (concat (imap f l)) = sum_list (map g l).
Proof.
  revert f. induction l as [|y l IH]; intros f Hf; cbn; [done|].
  by rewrite length_app, Hf, (IH (f ∘ S)) by (intros; apply Hf).
Qed.

Lemma concat_map_singleton {X Y : Type} (g : X -> Y) (l : list X) :
  concat (map (fun k => [g k]) l) = map g l.
Proof.
  induction l as [|k l IH]; [done|]. cbn. by rewrite IH.
Qed.

Lemma length_push_range {T : Type} (body : nat -> list T -> list T)
    (x : nat -> T) (n : nat) :
  (forall i acc, body i acc = acc ++ [x i]) ->
  length (for_range n body []) = n.
Proof.
  intros Hbody. unfold for_range.
  rewrite (gather_where (S := nat) body (fun i => [x i])) by done.
  cbn [app]. by rewrite concat_map_singleton, length_map, length_seq.
Qed.

Section Diagnostics_facts.
Context `{External} `{Geometry}.

Lemma image_errors_rows (m : BundleAdjustmentModel) :
  image_errors m
  = concat
      (imap (fun i cp =>
               map (fun cm =>
                      norm_2_v2
                        (minus_v2 (measure_position cm)
                           (project m i (image_id cm) (a m !!! image_id cm)
                              (b m !!! i))))
                 (measures cp))
         (m_network m)).
Proof.
  unfold image_errors, for_range.
  rewrite (gather_where (S := nat) _
             (fun i =>
                map (fun cm =>
                       norm_2_v2
                         (minus_v2 (measure_position cm)
                            (project m i (image_id cm) (a m !!! image_id cm)
                               (b m !!! i))))
                  (measures (m_network m !!! i)))).
  - cbn [app]. f_equal.
    apply (map_lookup_total_imap
             (fun i cp =>
                map (fun cm =>
                       norm_2_v2
                         (minus_v2 (measure_position cm)
                            (project m i (image_id cm) (a m !!! image_id cm)
                               (b m !!! i))))
                  (measures cp))).
  - intros i acc.
    rewrite (gather_where (S := nat) _
               (fun k =>
                  let cm := measures (m_network m !!! i) !!! k in
                  [norm_2_v2
                     (minus_v2 (measure_position cm)
                        (project m i (image_id cm) (a m !!! image_id cm)
                           (b m !!! i)))])) by done.
    f_equal.
    rewrite (concat_map_singleton
               (fun k =>
                  norm_2_v2
                    (minus_v2
                       (measure_position (measures (m_network m !!! i) !!! k))
                       (project m i
                          (image_id (measures (m_network m !!! i) !!! k))
                          (a m !!! image_id (measures (m_network m !!! i) !!! k))
                          (b m !!! i))))).
    apply (map_lookup_total_seq
             (fun cm =>
                norm_2_v2
                  (minus_v2 (measure_position cm)
                     (project m i (image_id cm) (a m !!! image_id cm)
                        (b m !!! i))))).
Qed.

Lemma gcp_errors_rows (m : BundleAdjustmentModel) :
  num_points m = length (m_network m) ->
  gcp_errors m
  = concat
      (imap (fun i cp =>
               if is_ground_control cp
               then [norm_2_v3 (minus_v3 (b_target m !!! i) (b m !!! i))]
               else [])
         (m_network m)).
Proof.
  intros Hsize. unfold gcp_errors, for_range. rewrite Hsize.
  rewrite (gather_where (S := nat) _
             (fun i =>
                if is_ground_control (m_network m !!! i)
                then [norm_2_v3 (minus_v3 (b_target m !!! i) (b m !!! i))]
                else [])).
  - cbn [app]. f_equal.
    apply (map_lookup_total_imap
             (fun i cp =>
                if is_ground_control cp
                then [norm_2_v3 (minus_v3 (b_target m !!! i) (b m !!! i))]
                else [])).
  - intros i acc. unfold is_ground_control.
    destruct (cp_type (m_network m !!! i)); [done|by rewrite app_nil_r].
Qed.

Lemma camera_errors_length (m : BundleAdjustmentModel) :
  length (camera_position_errors m) = num_cameras m
  /\ length (camera_pose_errors m) = num_cameras m.
Proof.
  unfold camera_position_errors, camera_pose_errors. split.
  - by apply (length_push_range _
                (fun j =>
                   norm_2_v3
                     (minus_v3 (subvector_0_3 (a_target m !!! j))
                        (subvector_0_3 (a m !!! j))))).
  - by eapply length_push_range.
Qed.

End Diagnostics_facts.

Section Adjusted_cameras_facts.
Context `{External} `{Geometry}.

Lemma adjusted_cameras_rows (m : BundleAdjustmentModel) :
  adjusted_cameras m
  = map (fun j =>
           mkAdjusted (m_cameras m !!! j) (subvector_0_3 (a m !!! j))
             (euler_to_quaternion (v3_0 (subvector_3_3 (a m !!! j)))
                (v3_1 (subvector_3_3 (a m !!! j)))
                (v3_2 (subvector_3_3 (a m !!! j))) "xyz"))
      (seq 0 (length (m_cameras m))).
Proof.
  unfold adjusted_cameras, for_range.
  rewrite (fill_range
             (fun j =>
                mkAdjusted (m_cameras m !!! j) (subvector_0_3 (a m !!! j))
                  (euler_to_quaternion (v3_0 (subvector_3_3 (a m !!! j)))
                     (v3_1 (subvector_3_3 (a m !!! j)))
                     (v3_2 (subvector_3_3 (a m !!! j))) "xyz")))
    by (by rewrite length_replicate).
  by rewrite drop_replicate, Nat.sub_diag, app_nil_r.
Qed.

Lemma project_adjusted (m : BundleAdjustmentModel) (i j : nat)
    (b_i : point_vector_t) :
  (j < length (m_cameras m))%nat ->
  project m i j (a m !!! j) b_i
  = point_to_pixel
      (default (mkAdjusted inhabitant Vector3_default (Quat 0 0 0 0)%float)
         (adjusted_cameras m !! j)) b_i.
Proof.
  intros Hj. rewrite adjusted_cameras_rows.
  change (map ?f ?l) with (f <$> l).
  rewrite list_lookup_fmap, lookup_seq_lt by done. reflexivity.
Qed.

End Adjusted_cameras_facts.

(** X19. For a model the constructor built from cameras and a network, and
    for every model a pass leaves from it, the diagnostics have one image
    error per observation of the network, one position error and one pose
    error per camera, and one ground control error per ground control point
    of the network: tie points give none. *)
Theorem diagnostics_counts `{External} `{Geometry} (cams : CameraVector)
    (cnet : ControlNetwork) (s1 s2 s3 : float) (m0 m : BundleAdjustmentModel) :
  BundleAdjustmentModel_new cams cnet s1 s2 s3 = Ok m0 ->
  same_frame m0 m ->
  length (image_errors m) = measure_count cnet
  /\ length (camera_position_errors m) = length cams
  /\ length (camera_pose_errors m) = length cams
  /\ length (gcp_errors m) = length (List.filter is_ground_control cnet).
Proof.
  intros Hnew Hframe.
  apply BundleAdjustmentModel_new_Ok in Hnew as (_ & n & ->).
  destruct Hframe as (Hcams & Hnet & _ & _ & Hnc & Hnp & _).
  unfold num_cameras, num_points in Hnc, Hnp.
  cbn [fresh_model m_cameras m_network a b] in Hcams, Hnet, Hnc, Hnp.
  rewrite length_replicate in Hnc.
  rewrite length_map in Hnp.
  destruct (camera_errors_length m) as [Hpos Hpose].
  split_and!.
  - rewrite image_errors_rows, Hnet. unfold measure_count.
    apply length_concat_imap_sum. intros j x. apply length_map.
  - by rewrite Hpos, <- Hnc.
  - by rewrite Hpose, <- Hnc.
  - rewrite gcp_errors_rows by (unfold num_points; by rewrite Hnet).
    rewrite Hnet. apply length_concat_imap_where.
    intros j x. by destruct (is_ground_control x).
Qed.

Lemma diagnostics_counts_witness :
  length (@image_errors (Scripted.machine 0 None) Dump_inputs.geometry
            Dump_inputs.three_point_model) = 3%nat
  /\ length (@gcp_errors Dump_inputs.geometry Dump_inputs.three_point_model)
     = 1%nat.
Proof.
  assert (Hnew : BundleAdjustmentModel_new Dump_inputs.two_cameras
                   Dump_inputs.three_points 1%float 1%float 1%float
                 = Ok Dump_inputs.three_point_model)
    by (vm_compute; reflexivity).
  destruct (@diagnostics_counts (Scripted.machine 0 None) Dump_inputs.geometry
              _ _ _ _ _ _ Dump_inputs.three_point_model Hnew
              (same_frame_refl _)) as (Himg & _ & _ & Hgcp).
  split; [exact Himg | exact Hgcp].
Defined.

(** X20. The camera [operator()] builds to project a point through camera
    [j] at the current parameters is the [j]-th camera of
    [adjusted_cameras()], which has one camera per camera of the model, in
    order; so, when every observation names a camera of the model, each
    image error is the distance between the observation and the projection
    of its point through the adjusted camera it names. *)
Theorem image_errors_use_adjusted_cameras `{External} `{Geometry}
    (m : BundleAdjustmentModel) :
  indices_in_range (length (m_cameras m)) (m_network m) ->
  length (adjusted_cameras m) = length (m_cameras m)
  /\ map adj_camera (adjusted_cameras m) = m_cameras m
  /\ image_errors m
     = concat
         (imap (fun i cp =>
                  map (fun cm =>
                         norm_2_v2
                           (minus_v2 (measure_position cm)
                              (point_to_pixel
                                 (default
                                    (mkAdjusted inhabitant Vector3_default
                                       (Quat 0 0 0 0)%float)
                                    (adjusted_cameras m !! image_id cm))
                                 (b m !!! i))))
                    (measures cp))
            (m_network m)).
Proof.
  intros Hrange. split_and!.
  - by rewrite adjusted_cameras_rows, length_map, length_seq.
  - rewrite adjusted_cameras_rows, map_map. cbn [adj_camera].
    etransitivity; [apply (map_lookup_total_seq (fun c => c))|apply map_id].
  - rewrite image_errors_rows. f_equal. apply imap_ext. intros i cp Hcp.
    cbn beta.
    change (map ?f ?l) with (f <$> l). apply Forall_fmap_ext.
    unfold indices_in_range in Hrange.
    rewrite Forall_forall in Hrange. specialize (Hrange cp).
    eapply Forall_impl; [apply Hrange; by eapply list_elem_of_lookup_2|].
    intros cm Hcm. cbn beta. by rewrite project_adjusted.
Qed.

Lemma image_errors_use_adjusted_cameras_witness :
  length (@adjusted_cameras (Scripted.machine 0 None)
            Dump_inputs.three_point_model) = 2%nat.
Proof.
  assert (Hrange : indices_in_range
                     (length (m_cameras Dump_inputs.three_point_model))
                     (m_network Dump_inputs.three_point_model))
    by (repeat constructor).
  exact (proj1 (@image_errors_use_adjusted_cameras (Scripted.machine 0 None)
                  Dump_inputs.geometry Dump_inputs.three_point_model Hrange)).
Defined.


(** ** Dumps and adjustment files *)

Lemma path_join_inj (dir x y : path) :
  path_join dir x = path_join dir y -> x = y.
Proof.
  unfold path_join. destruct (String.eqb dir EmptyString); [done|].
  intros Heq. by do 2 apply string_app_inv_head in Heq.
Qed.


(** Writing a file makes and removes no directory. *)
Lemma opens_write_file (q : path) (text : string) (files : Files) (p : path) :
  opens (write_file q text files) p = opens files p.
Proof.
  unfold write_file. destruct (opens files q) eqn:Hq; [|done].
  by apply opens_insert_file, opens_not_directory.
Qed.

Lemma lookup_write_file (p q : path) (text : string) (files : Files) :
  write_file p text files !! q
  = if decide (p = q)
    then (if opens files p then Some (File text) else files !! p)
    else files !! q.
Proof.
  unfold write_file. destruct (decide (p = q)) as [<-|Hne].
  - destruct (opens files p); [by rewrite lookup_insert_eq|done].
  - destruct (opens files p); [by rewrite lookup_insert_ne|done].
Qed.




Section Dump_facts.
Context `{External} `{Geometry} {A : Type} `{AdjusterT A}.

(** What a whole [main] that returned went through. *)
Lemma main_with_dumps_Ok (fuel : nat) (opts : ProgramOptions) (cmd : Supplied)
    (w : World) (run : Run) :
  main_with_dumps fuel opts cmd w = Some (Ok run) ->
  exists config files1 cnet cams ba_model strategy cost_func ba_type_str out,
    parse_options opts cmd (files w) = Ok config
    /\ create_data_dir (created_dir config) (files w) = Ok files1
    /\ load_control_network (path_join (data_dir config) (cnet_file config))
         files1 = Ok cnet
    /\ load_camera_models (camera_files config) (data_dir config) files1
       = Ok cams
    /\ BundleAdjustmentModel_new cams cnet (camera_position_sigma config)
         (camera_pose_sigma config) (gcp_sigma config) = Ok ba_model
    /\ adjust_bundles fuel strategy ba_model cost_func config ba_type_str
         (with_files
            (write_world_points
               (path_join (created_dir config) "wp_initial.txt") ba_model)
            (with_files
               (write_camera_params
                  (path_join (created_dir config) "cam_initial.txt") ba_model)
               (mkWorld files1 (calls w))))
       = Some (Ok out)
    /\ run
       = mkRun 0 (out_model out)
           (with_files
              (write_world_points
                 (path_join (created_dir config) "wp_final.txt") (out_model out))
              (with_files
                 (write_camera_params
                    (path_join (created_dir config) "cam_final.txt")
                    (out_model out))
                 (with_files
                    (write_adjusted_camera_models config (out_model out))
                    (out_world out)))).
Proof.
  unfold main_with_dumps.
  destruct (parse_options opts cmd (files w)) as [config| |]; cbn [lift bind_fuel];
    [|discriminate|discriminate].
  change (if use_ba_type_dirs config
          then path_join (results_dir config)
                 (ba_type_to_string (bundle_adjustment_type config))
          else results_dir config) with (created_dir config).
  destruct (create_data_dir _ _) as [files1| |] eqn:Hdir; cbn [bind_fuel];
    [|discriminate|discriminate].
  cbn [files calls].
  destruct (load_control_network _ _) as [cnet| |] eqn:Hcnet; cbn [bind_fuel];
    [|discriminate|discriminate].
  destruct (load_camera_models _ _ _) as [cams| |] eqn:Hcams; cbn [bind_fuel];
    [|discriminate|discriminate].
  destruct (BundleAdjustmentModel_new _ _ _ _ _) as [ba_model| |] eqn:Hnew;
    cbn [bind_fuel]; [|discriminate|discriminate].
  unfold adjust_bundles_of_type.
  destruct (bundle_adjustment_type config);
    lazymatch goal with
    | |- context [adjust_bundles ?f ?s ?m ?c ?cfg ?str ?w0] =>
        destruct (adjust_bundles f s m c cfg str w0) as [[out| |]|] eqn:Hout;
        cbn [bind_fuel]; intros Hrun; try discriminate Hrun;
        exists config, files1, cnet, cams, ba_model, s, c, str, out;
        injection Hrun as <-; done
    end.
Qed.



(** The two dumps at the end of [main], in a world [w0]. *)
Lemma final_dumps (dir : path) (m : BundleAdjustmentModel) (w0 : World) :
  let w1 :=
    with_files (write_world_points (path_join dir "wp_final.txt") m)
      (with_files (write_camera_params (path_join dir "cam_final.txt") m) w0) in
  (forall p, opens (files w1) p = opens (files w0) p)
  /\ (opens (files w1) (path_join dir "cam_final.txt") = true ->
      files w1 !! path_join dir "cam_final.txt"
      = Some (File (camera_params_text m)))
  /\ (opens (files w1) (path_join dir "wp_final.txt") = true ->
      files w1 !! path_join dir "wp_final.txt"
      = Some (File (world_points_text m)))
  /\ (forall p, p <> path_join dir "cam_final.txt" ->
                p <> path_join dir "wp_final.txt" ->
                files w1 !! p = files w0 !! p).
Proof.
  cbn zeta. unfold write_world_points, write_camera_params.
  cbn [with_files files].
  assert (Hopens : forall p,
            opens (write_file (path_join dir "wp_final.txt")
                     (world_points_text m)
                     (write_file (path_join dir "cam_final.txt")
                        (camera_params_text m) (files w0))) p
            = opens (files w0) p)
    by (intros p; by rewrite !opens_write_file).
  split; [exact Hopens|]. split_and!.
  - rewrite Hopens. intros Hopen. rewrite lookup_write_file.
    rewrite decide_False
      by (intros Heq; apply path_join_inj in Heq; discriminate Heq).
    by rewrite lookup_write_file, decide_True, Hopen.
  - rewrite Hopens. intros Hopen. rewrite lookup_write_file, decide_True by done.
    by rewrite opens_write_file, Hopen.
  - intros p Hcam Hwp. by rewrite !lookup_write_file, !decide_False.
Qed.

End Dump_facts.



(** X22. With a budget of no iterations the camera dump [main] writes at
    the end holds the text of the camera dump of the model it built from
    the cameras and the network it loaded, whether or not outlier removal
    reloaded the network; without outlier removal the same holds of the
    dump of the world points. (A dump is there when its stream opens.) *)
Theorem zero_budget_dumps_unchanged `{External} `{Geometry} {A : Type}
    `{AdjusterT A} `{!AdjusterLaws A} (fuel : nat) (opts : ProgramOptions)
    (cmd : Supplied) (w : World) (config : ProgramOptions) (run : Run) :
  parse_options opts cmd (files w) = Ok config ->
  max_iterations config <= 0 ->
  main_with_dumps fuel opts cmd w = Some (Ok run) ->
  exists files1 cams cnet ba_model,
    create_data_dir (created_dir config) (files w) = Ok files1
    /\ load_control_network (path_join (data_dir config) (cnet_file config))
         files1 = Ok cnet
    /\ load_camera_models (camera_files config) (data_dir config) files1 = Ok cams
    /\ BundleAdjustmentModel_new cams cnet (camera_position_sigma config)
         (camera_pose_sigma config) (gcp_sigma config) = Ok ba_model
    /\ camera_params_text (run_model run) = camera_params_text ba_model
    /\ (remove_outliers config = false ->
        world_points_text (run_model run) = world_points_text ba_model)
    /\ (opens (files (run_world run))
          (path_join (created_dir config) "cam_final.txt") = true ->
        files (run_world run) !! path_join (created_dir config) "cam_final.txt"
        = Some (File (camera_params_text ba_model)))
    /\ (remove_outliers config = false ->
        opens (files (run_world run))
          (path_join (created_dir config) "wp_final.txt") = true ->
        files (run_world run) !! path_join (created_dir config) "wp_final.txt"
        = Some (File (world_points_text ba_model))).
Proof.
  intros Hparse Hmax Hrun.
  apply main_with_dumps_Ok in Hrun
    as (config' & files1 & cnet & cams & ba_model & strategy & cost_func
        & ba_type_str & out & Hparse' & Hdir & Hcnet & Hcams & Hnew & Hout & ->).
  rewrite Hparse in Hparse'. injection Hparse' as <-.
  exists files1, cams, cnet, ba_model.
  split; [exact Hdir|]. split; [exact Hcnet|]. split; [exact Hcams|].
  split; [exact Hnew|].
  apply (adjust_bundles_no_budget _ _ _ _ _ _ _ _ Hmax) in Hout as [_ Hmodel].
  cbn [run_world run_model].
  destruct (final_dumps (created_dir config) (out_model out)
              (with_files (write_adjusted_camera_models config (out_model out))
                 (out_world out)))
    as (_ & Hcam & Hwp & _).
  assert (Hcameras : camera_params_text (out_model out)
                     = camera_params_text ba_model).
  { destruct (remove_outliers config); [|by rewrite Hmodel].
    destruct Hmodel as (cnet2 & n2 & ->).
    by apply BundleAdjustmentModel_new_Ok in Hnew as (_ & n & ->). }
  split; [exact Hcameras|].
  split; [intros Hoff; rewrite Hoff in Hmodel; by rewrite Hmodel|].
  split.
  - intros Hopen. rewrite <- Hcameras. by apply Hcam.
  - intros Hoff Hopen. rewrite Hoff in Hmodel. rewrite Hmodel in Hwp, Hopen |- *.
    by apply Hwp.
Qed.

Lemma zero_budget_dumps_unchanged_witness :
  exists run config ba_model,
    @main_with_dumps Inputs.editor_ok Dump_inputs.geometry Scripted.Solver
      (Scripted.adjuster Inputs.two_steps) 0 Inputs.blank_opts
      Inputs.no_budget_cmd Inputs.some_world = Some (Ok run)
    /\ max_iterations config = 0
    /\ @camera_params_text Inputs.editor_ok Dump_inputs.geometry (run_model run)
       = @camera_params_text Inputs.editor_ok Dump_inputs.geometry ba_model.
Proof.
  assert (Hrun : exists run,
            @main_with_dumps Inputs.editor_ok Dump_inputs.geometry
              Scripted.Solver (Scripted.adjuster Inputs.two_steps) 0
              Inputs.blank_opts Inputs.no_budget_cmd Inputs.some_world
            = Some (Ok run))
    by (eexists; vm_compute; reflexivity).
  destruct Hrun as [run Hrun].
  assert (Hparse : exists config,
            @parse_options Inputs.editor_ok Inputs.blank_opts
              Inputs.no_budget_cmd (files Inputs.some_world) = Ok config
            /\ max_iterations config = 0)
    by (eexists; split; vm_compute; reflexivity).
  destruct Hparse as (config & Hparse & Hmax).
  assert (Hle : max_iterations config <= 0) by (rewrite Hmax; discriminate).
  destruct (@zero_budget_dumps_unchanged Inputs.editor_ok Dump_inputs.geometry
              Scripted.Solver (Scripted.adjuster Inputs.two_steps)
              (Scripted.laws Inputs.two_steps) 0 Inputs.blank_opts
              Inputs.no_budget_cmd Inputs.some_world config run Hparse Hle Hrun)
    as (files1 & cams & cnet & ba_model & _ & _ & _ & _ & Htext & _).
  exists run, config, ba_model. split; [exact Hrun|]. split; [exact Hmax|].
  exact Htext.
Defined.

(** ** The image undistortion tool *)

(** X23. The undistortion tool returns 1, and leaves the files alone,
    exactly when the command line does not parse, asks for help, or lacks
    the input file or the camera file; otherwise, when it returns at all, it
    returns 0. It returns 0 also when [do_work] throws: the exception is
    caught in [do_work_all_channels], and the files are as [do_work] left
    them. A failure to read the image format is outside the [try] and goes
    up through [main]. An image of a pixel format or channel type the tool
    does not name is handled as RGBA and as [float64]. *)
Theorem undistort_exit_status `{Undistort.Imaging}
    (parsed : option Undistort.Args) (files : Files) :
  let usage_error :=
    parsed = None
    \/ exists args,
         parsed = Some args
         /\ (Undistort.arg_help args = true
             \/ Undistort.arg_input_file args = None
             \/ Undistort.arg_camera_file args = None) in
  (usage_error -> Undistort.main parsed files = Ok (1, files))
  /\ (forall code files',
        Undistort.main parsed files = Ok (code, files') ->
        (code = 1 /\ usage_error) \/ (code = 0 /\ ~ usage_error))
  /\ (forall args input camera files1 fmt,
        parsed = Some args ->
        Undistort.arg_help args = false ->
        Undistort.arg_input_file args = Some input ->
        Undistort.arg_camera_file args = Some camera ->
        Undistort.create_out_dir
          (default "output.png"%string (Undistort.arg_output_file args)) files
        = Ok files1 ->
        let names :=
          Undistort.mkNames input
            (default "output.png"%string (Undistort.arg_output_file args))
            camera in
        (Undistort.image_format files1 input = Ok fmt ->
         Undistort.main parsed files
         = Ok (0, fst (Undistort.do_work
                         (Undistort.pixel_of_format (fst fmt))
                         (Undistort.switch_on_channel_type
                            (Undistort.pixel_of_format (fst fmt)) (snd fmt))
                         names files1)))
        /\ (forall e, Undistort.image_format files1 input = Throw e ->
                      Undistort.main parsed files = Throw e))
  /\ (forall k, Undistort.pixel_of_format (Undistort.VW_PIXEL_OTHER k)
                = Undistort.PixelRGBA)
  /\ (forall pixel k,
        Undistort.switch_on_channel_type pixel (Undistort.VW_CHANNEL_OTHER k)
        = Undistort.float64).
Proof.
  cbn zeta. split_and!; [| | |done|done].
  - intros [-> | (args & -> & Hargs)]; [done|].
    unfold Undistort.main.
    destruct (Undistort.arg_help args); [done|].
    destruct Hargs as [? | [-> | ->]]; [done|done|].
    by destruct (Undistort.arg_input_file args).
  - intros code files' Hmain. unfold Undistort.main in Hmain.
    destruct parsed as [args|]; [|injection Hmain as <- <-; left; split; auto].
    destruct (Undistort.arg_help args) eqn:Hhelp;
      [injection Hmain as <- <-; left; split; [done|]; right; exists args; auto|].
    destruct (Undistort.arg_input_file args) as [input|] eqn:Hin; cbn in Hmain;
      [|injection Hmain as <- <-; left; split; [done|]; right; exists args; auto].
    destruct (Undistort.arg_camera_file args) as [camera|] eqn:Hcam; cbn in Hmain;
      [|injection Hmain as <- <-; left; split; [done|]; right; exists args; auto].
    right. split.
    + destruct (Undistort.create_out_dir _ _) as [files1| |]; cbn in Hmain;
        [|discriminate|discriminate].
      destruct (Undistort.do_work_all_channels _ _) as [files2| |]; cbn in Hmain;
        [|discriminate|discriminate].
      by injection Hmain as <- _.
    + intros [Hnone | (args' & [= <-] & Hargs)]; [discriminate|].
      rewrite Hhelp, Hin, Hcam in Hargs.
      destruct Hargs as [? | [? | ?]]; discriminate.
  - intros args input camera files1 fmt -> Hhelp Hin Hcam Hdir.
    unfold Undistort.main. rewrite Hhelp, Hin, Hcam. cbn [counted negb orb].
    change (default EmptyString (Some input)) with input.
    change (default EmptyString (Some camera)) with camera.
    cbn [Undistort.output_file_name]. rewrite Hdir. cbn [bind].
    unfold Undistort.do_work_all_channels.
    cbn [Undistort.input_file_name]. split.
    + intros ->. cbn [bind].
      by destruct (Undistort.do_work _ _ _ _) as [files2 thrown].
    + by intros e ->.
Qed.

Lemma undistort_exit_status_witness :
  @Undistort.main Dump_inputs.imaging_fails (Some Dump_inputs.undistort_args)
    Dump_inputs.image_files
  = Ok (0, <["output.png"%string := File "partial"]> Dump_inputs.image_files).
Proof.
  destruct (@undistort_exit_status Dump_inputs.imaging_fails
              (Some Dump_inputs.undistort_args) Dump_inputs.image_files)
    as (_ & _ & Hwork & _).
  destruct (Hwork Dump_inputs.undistort_args "in.png"%string "cam.tsai"%string
              Dump_inputs.image_files
              (Undistort.VW_PIXEL_GRAY, Undistort.VW_CHANNEL_UINT8)
              eq_refl eq_refl eq_refl eq_refl eq_refl) as [Hok _].
  apply Hok. reflexivity.
Defined.
